(** * gptoss2api: an OpenAI-compatible gateway in front of Cloudflare Workers AI

    Shallow embedding of [openai.go] and proofs about its request and
    response translators, its authorization and method guards, its backend
    client and its server-sent-event emitter.

    Go strings are byte sequences: they are modelled by [string], whose
    characters are the 256 values of [ascii].  Integers of Go ([int],
    [int64], [rune]) are modelled by [Z].  What the program takes from its
    surroundings (the configuration, the clock, the JSON decoder, the HTTP
    client) is a variable of the section that holds the handlers.

    The definitions come first: the program, then the observations in
    which the properties are stated, then concrete scenarios.  The proofs
    follow, from bytes and UTF-8 up to the handlers. *)

From Stdlib Require Import ZArith Lia Bool Ascii ZifyBool.
From Stdlib Require String DecimalString.
From stdpp Require Import base list strings gmap.

Local Open Scope Z_scope.
Set Warnings "-register-all".

(** ** Bytes *)

Module Bytes.

(** [s[i]] read as an unsigned 8-bit value. *)
Definition byte_val (c : ascii) : Z := Z.of_N (N_of_ascii c).

(** Go's conversion [byte(x)]: truncation to the low 8 bits. *)
Definition to_byte (x : Z) : ascii := ascii_of_N (Z.to_N (x mod 256)).

(** A one-character string. *)
Definition chr (x : Z) : string := String (to_byte x) EmptyString.

(** Line feed and the double quote, which have no literal notation. *)
Definition LF : string := chr 10.
Definition DQUOTE : string := chr 34.

(** [s[n:]] for [n <= len(s)]. *)
Fixpoint drop_bytes (n : nat) (s : string) : string :=
  match n, s with
  | O, _ => s
  | S n', String _ s' => drop_bytes n' s'
  | S _, EmptyString => EmptyString
  end.

(** Concatenation of a sequence of strings, in order. *)
Fixpoint concat (l : list string) : string :=
  match l with
  | [] => EmptyString
  | s :: l' => s +:+ concat l'
  end.

End Bytes.
Import Bytes.

(** ** UTF-8 conversions of the Go runtime

    The handler converts the final text with [[]rune(fullContent)] and turns
    each rune back into a string with [string(r)].  Both conversions are
    language primitives; they are modelled after [runtime/utf8.go]
    ([decoderune], [encoderune]) and the [for range] loop over a string. *)

Module UTF8.

Definition runeError : Z := 0xFFFD.
Definition runeSelf : Z := 0x80.
Definition maxRune : Z := 0x10FFFF.
Definition surrogateMin : Z := 0xD800.
Definition surrogateMax : Z := 0xDFFF.

Definition tx : Z := 0x80.
Definition t2 : Z := 0xC0.
Definition t3 : Z := 0xE0.
Definition t4 : Z := 0xF0.
Definition t5 : Z := 0xF8.

Definition maskx : Z := 0x3F.
Definition mask2 : Z := 0x1F.
Definition mask3 : Z := 0x0F.
Definition mask4 : Z := 0x07.

Definition rune1Max : Z := 0x7F.
Definition rune2Max : Z := 0x7FF.
Definition rune3Max : Z := 0xFFFF.

Definition locb : Z := 0x80.
Definition hicb : Z := 0xBF.

(** [locb <= b && b <= hicb] *)
Definition is_cont (b : Z) : bool := (locb <=? b) && (b <=? hicb).

(** [decoderune(s, 0)]: the rune at the head of [s] and the number of
    bytes it occupies; an ill-formed head yields [runeError] and width 1. *)
Definition decoderune (s : string) : Z * nat :=
  match s with
  | EmptyString => (runeError, 1%nat)
  | String c0 s1 =>
    let b0 := byte_val c0 in
    if (t2 <=? b0) && (b0 <? t3) then
      match s1 with
      | String c1 _ =>
        let b1 := byte_val c1 in
        if is_cont b1 then
          let r := Z.lor (Z.shiftl (Z.land b0 mask2) 6) (Z.land b1 maskx) in
          if rune1Max <? r then (r, 2%nat) else (runeError, 1%nat)
        else (runeError, 1%nat)
      | _ => (runeError, 1%nat)
      end
    else if (t3 <=? b0) && (b0 <? t4) then
      match s1 with
      | String c1 (String c2 _) =>
        let b1 := byte_val c1 in
        let b2 := byte_val c2 in
        if is_cont b1 && is_cont b2 then
          let r := Z.lor (Z.lor (Z.shiftl (Z.land b0 mask3) 12)
                                (Z.shiftl (Z.land b1 maskx) 6))
                         (Z.land b2 maskx) in
          if (rune2Max <? r)
             && negb ((surrogateMin <=? r) && (r <=? surrogateMax))
          then (r, 3%nat) else (runeError, 1%nat)
        else (runeError, 1%nat)
      | _ => (runeError, 1%nat)
      end
    else if (t4 <=? b0) && (b0 <? t5) then
      match s1 with
      | String c1 (String c2 (String c3 _)) =>
        let b1 := byte_val c1 in
        let b2 := byte_val c2 in
        let b3 := byte_val c3 in
        if is_cont b1 && is_cont b2 && is_cont b3 then
          let r := Z.lor (Z.lor (Z.lor (Z.shiftl (Z.land b0 mask4) 18)
                                       (Z.shiftl (Z.land b1 maskx) 12))
                                (Z.shiftl (Z.land b2 maskx) 6))
                         (Z.land b3 maskx) in
          if (rune3Max <? r) && (r <=? maxRune)
          then (r, 4%nat) else (runeError, 1%nat)
        else (runeError, 1%nat)
      | _ => (runeError, 1%nat)
      end
    else (runeError, 1%nat)
  end.

(** One iteration of [for _, r := range s]: bytes below [runeSelf] are
    taken as they are, the others go through [decoderune]. *)
Definition range_step (s : string) : option (Z * string) :=
  match s with
  | EmptyString => None
  | String c0 s1 =>
    let b0 := byte_val c0 in
    if b0 <? runeSelf then Some (b0, s1)
    else let '(r, n) := decoderune s in Some (r, drop_bytes n s)
  end.

(** The loop itself.  Every iteration consumes at least one byte, so
    [length s] iterations exhaust the string. *)
Fixpoint range_runes (fuel : nat) (s : string) : list Z :=
  match fuel with
  | O => []
  | S fuel' =>
    match range_step s with
    | None => []
    | Some (r, rest) => r :: range_runes fuel' rest
    end
  end.

(** [[]rune(s)] *)
Definition runes_of_string (s : string) : list Z :=
  range_runes (String.length s) s.

(** [encoderune]: the UTF-8 bytes of a rune; values that are not Unicode
    scalar values are encoded as [runeError]. *)
Definition encoderune (r : Z) : string :=
  let i := r mod 2 ^ 32 in
  if i <=? rune1Max then
    chr r
  else if i <=? rune2Max then
    String (to_byte (Z.lor t2 (Z.shiftr r 6 mod 256)))
      (chr (Z.lor tx (Z.land (r mod 256) maskx)))
  else
    let three (r : Z) :=
      String (to_byte (Z.lor t3 (Z.shiftr r 12 mod 256)))
        (String (to_byte (Z.lor tx (Z.land (Z.shiftr r 6 mod 256) maskx)))
           (chr (Z.lor tx (Z.land (r mod 256) maskx)))) in
    if (maxRune <? i) || ((surrogateMin <=? i) && (i <=? surrogateMax)) then
      three runeError
    else if i <=? rune3Max then
      three r
    else
      String (to_byte (Z.lor t4 (Z.shiftr r 18 mod 256)))
        (String (to_byte (Z.lor tx (Z.land (Z.shiftr r 12 mod 256) maskx)))
           (String (to_byte (Z.lor tx (Z.land (Z.shiftr r 6 mod 256) maskx)))
              (chr (Z.lor tx (Z.land (r mod 256) maskx))))).

(** [string(r)] for a rune [r]. *)
Definition string_of_rune (r : Z) : string := encoderune r.

(** A Unicode scalar value: a code point that is not a surrogate. *)
Definition is_scalar (r : Z) : bool :=
  (0 <=? r) && (r <=? maxRune)
  && negb ((surrogateMin <=? r) && (r <=? surrogateMax)).

(** Well-formed UTF-8, by the table of well-formed byte sequences of the
    Unicode standard (the language accepted by Go's [utf8.ValidString]):
    the rows of two, three and four bytes, then the strings made of them. *)
Definition tail_byte (b : Z) : bool := (0x80 <=? b) && (b <=? 0xBF).

Definition seq2 (b0 b1 : Z) : bool :=
  (0xC2 <=? b0) && (b0 <=? 0xDF) && tail_byte b1.

Definition seq3 (b0 b1 b2 : Z) : bool :=
  ((b0 =? 0xE0) && (0xA0 <=? b1) && (b1 <=? 0xBF)
   || (0xE1 <=? b0) && (b0 <=? 0xEC) && tail_byte b1
   || (b0 =? 0xED) && (0x80 <=? b1) && (b1 <=? 0x9F)
   || (0xEE <=? b0) && (b0 <=? 0xEF) && tail_byte b1)
  && tail_byte b2.

Definition seq4 (b0 b1 b2 b3 : Z) : bool :=
  ((b0 =? 0xF0) && (0x90 <=? b1) && (b1 <=? 0xBF)
   || (0xF1 <=? b0) && (b0 <=? 0xF3) && tail_byte b1
   || (b0 =? 0xF4) && (0x80 <=? b1) && (b1 <=? 0x8F))
  && tail_byte b2 && tail_byte b3.

Fixpoint utf8_valid (s : string) : bool :=
  match s with
  | EmptyString => true
  | String c0 s1 =>
    if byte_val c0 <? 0x80 then utf8_valid s1
    else
      match s1 with
      | EmptyString => false
      | String c1 s2 =>
        if seq2 (byte_val c0) (byte_val c1) then utf8_valid s2
        else
          match s2 with
          | EmptyString => false
          | String c2 s3 =>
            if seq3 (byte_val c0) (byte_val c1) (byte_val c2)
            then utf8_valid s3
            else
              match s3 with
              | EmptyString => false
              | String c3 s4 =>
                seq4 (byte_val c0) (byte_val c1) (byte_val c2) (byte_val c3)
                && utf8_valid s4
              end
          end
      end
  end.

End UTF8.

(** ** Values of type [interface{}] and the structures of the two dialects *)

(** A [float64] is identified with its 64-bit IEEE-754 pattern: the gateway
    copies such values and never computes on them. *)
Definition float64 : Type := Z.

(** The dynamic values that occur in the program: what [json.Unmarshal]
    stores into an [interface{}], the map and slice literals of the handlers,
    and structures seen through their [json] tags.  A [VMap] lists the
    entries of a Go map, whose keys are distinct, in the order in which the
    source writes them; a [VStruct] lists the encoded fields of a struct in
    declaration order.  A nil slice is [VNil]: it is encoded as [null]. *)
Inductive value : Type :=
  | VNil
  | VBool (b : bool)
  | VInt (n : Z)
  | VFloat (f : float64)
  | VString (s : string)
  | VSlice (l : list value)
  | VMap (m : list (string * value))
  | VStruct (fields : list (string * value)).

Module Config.
Record t := mk {
  AccountID : string;
  Model : string;
  AuthToken : string;
  Port : string;
  ClientKey : string
}.
End Config.

Module Message.
Record t := mk {
  Role : string;
  Content : value
}.
End Message.

Module OpenAIRequest.
Record t := mk {
  Model : string;
  Messages : list Message.t;
  Stream : bool;
  Temperature : option float64;
  TopP : option float64
}.
End OpenAIRequest.

Module Choice.
Record t := mk {
  Index : Z;
  Message : Message.t;
  FinishReason : string
}.
End Choice.

Module Usage.
Record t := mk {
  PromptTokens : Z;
  CompletionTokens : Z;
  TotalTokens : Z
}.
End Usage.

Module OpenAIResponse.
Record t := mk {
  ID : string;
  Object : string;
  Created : Z;
  Model : string;
  Choices : list Choice.t;
  Usage : Usage.t
}.
End OpenAIResponse.

Module CloudflareRequest.
Record t := mk {
  Model : string;
  Input : value;
  Temperature : option float64;
  TopP : option float64
}.
End CloudflareRequest.

Module CloudflareContentItem.
Record t := mk {
  Text : string;
  Type_ : string
}.
End CloudflareContentItem.

Module CloudflareOutputItem.
Record t := mk {
  ID : string;
  Content : list CloudflareContentItem.t;
  Role : string;
  Type_ : string;
  Status : string
}.
End CloudflareOutputItem.

Module CloudflareUsage.
Record t := mk {
  PromptTokens : Z;
  CompletionTokens : Z;
  TotalTokens : Z
}.
End CloudflareUsage.

Module CloudflareResponse.
Record t := mk {
  ID : string;
  Created : Z;
  Model : string;
  Object : string;
  Output : list CloudflareOutputItem.t;
  Usage : CloudflareUsage.t
}.
End CloudflareResponse.

(** ** JSON encoding, after Go's [encoding/json] *)

Module JSON.
Import UTF8.

Definition hex : string := "0123456789abcdef".

Definition hex_digit (n : Z) : string :=
  match String.get (Z.to_nat n) hex with
  | Some c => String c EmptyString
  | None => EmptyString
  end.

Definition BACKSLASH : Z := 92.

(** [safeSet]: the ASCII characters that need no escaping. *)
Definition safeSet (b : Z) : bool :=
  (0x20 <=? b) && (b <? 0x80) && negb (b =? 34) && negb (b =? BACKSLASH).

(** [htmlSafeSet]: the same without [<], [>] and [&]. *)
Definition htmlSafeSet (b : Z) : bool :=
  safeSet b && negb (b =? 60) && negb (b =? 62) && negb (b =? 38).

(** The escape written for an ASCII byte outside the safe set. *)
Definition escape_byte (b : Z) : string :=
  if (b =? BACKSLASH) || (b =? 34) then chr BACKSLASH +:+ chr b
  else if b =? 8 then chr BACKSLASH +:+ "b"
  else if b =? 12 then chr BACKSLASH +:+ "f"
  else if b =? 10 then chr BACKSLASH +:+ "n"
  else if b =? 13 then chr BACKSLASH +:+ "r"
  else if b =? 9 then chr BACKSLASH +:+ "t"
  else chr BACKSLASH +:+ "u00"
       +:+ hex_digit (Z.shiftr b 4) +:+ hex_digit (Z.land b 0xF).

Fixpoint take_bytes (n : nat) (s : string) : string :=
  match n, s with
  | S n', String c s' => String c (take_bytes n' s')
  | _, _ => EmptyString
  end.

(** The loop of [appendString] between the two quotes. *)
Fixpoint escape_loop (fuel : nat) (escapeHTML : bool) (s : string) : string :=
  match fuel with
  | O => EmptyString
  | S fuel' =>
    match s with
    | EmptyString => EmptyString
    | String c s1 =>
      let b := byte_val c in
      if b <? runeSelf then
        if htmlSafeSet b || (negb escapeHTML && safeSet b)
        then String c (escape_loop fuel' escapeHTML s1)
        else escape_byte b +:+ escape_loop fuel' escapeHTML s1
      else
        let '(r, size) := decoderune (take_bytes 4 s) in
        if (r =? runeError) && (size =? 1)%nat then
          chr BACKSLASH +:+ "ufffd" +:+ escape_loop fuel' escapeHTML s1
        else if (r =? 0x2028) || (r =? 0x2029) then
          chr BACKSLASH +:+ "u202" +:+ hex_digit (Z.land r 0xF)
          +:+ escape_loop fuel' escapeHTML (drop_bytes size s)
        else
          take_bytes size s +:+ escape_loop fuel' escapeHTML (drop_bytes size s)
    end
  end.

(** [appendString]: a Go string as a JSON string literal. *)
Definition appendString (escapeHTML : bool) (s : string) : string :=
  DQUOTE +:+ escape_loop (String.length s) escapeHTML s +:+ DQUOTE.

(** [strconv.AppendInt(_, n, 10)] *)
Definition formatInt (n : Z) : string :=
  DecimalString.NilZero.string_of_int (Z.to_int n).

Fixpoint join (sep : string) (l : list string) : string :=
  match l with
  | [] => EmptyString
  | [x] => x
  | x :: l' => x +:+ sep +:+ join sep l'
  end.

(** Map keys are written in sorted order. *)
Fixpoint insert_by_key (e : string * string) (l : list (string * string))
  : list (string * string) :=
  match l with
  | [] => [e]
  | e' :: l' =>
    if String.leb (fst e) (fst e') then e :: l
    else e' :: insert_by_key e l'
  end.

Definition sort_by_key (l : list (string * string)) : list (string * string) :=
  foldr insert_by_key [] l.

Section Encode.
(** [strconv]'s shortest decimal form of a float, kept abstract. *)
Variable formatFloat : float64 -> string.
Variable escapeHTML : bool.

Definition member (e : string * string) : string :=
  appendString escapeHTML (fst e) +:+ ":" +:+ snd e.

Fixpoint marshal (v : value) : string :=
  match v with
  | VNil => "null"
  | VBool true => "true"
  | VBool false => "false"
  | VInt n => formatInt n
  | VFloat f => formatFloat f
  | VString s => appendString escapeHTML s
  | VSlice l => "[" +:+ join "," (List.map marshal l) +:+ "]"
  | VMap m =>
    "{" +:+ join ","
      (List.map member
         (sort_by_key (List.map (fun e => (fst e, marshal (snd e))) m)))
    +:+ "}"
  | VStruct fields =>
    "{" +:+ join ","
      (List.map member (List.map (fun e => (fst e, marshal (snd e))) fields))
    +:+ "}"
  end.
End Encode.

(** The value at key [k] of a map or of an encoded struct. *)
Fixpoint assoc (k : string) (m : list (string * value)) : option value :=
  match m with
  | [] => None
  | (k', v) :: m' => if String.eqb k k' then Some v else assoc k m'
  end.

Definition field (k : string) (v : value) : option value :=
  match v with
  | VMap m | VStruct m => assoc k m
  | _ => None
  end.

Definition keys (v : value) : list string :=
  match v with
  | VMap m | VStruct m => List.map fst m
  | _ => []
  end.

End JSON.

(** ** The HTTP boundary, after Go's [net/http] *)

Module HTTP.

(** [http.Header]: canonical header names to their values. *)
Abbreviation Header := (gmap string (list string)).

Definition Header_Get (h : Header) (key : string) : string :=
  match h !! key with
  | Some (v :: _) => v
  | _ => EmptyString
  end.

Definition Header_Set (key v : string) (h : Header) : Header :=
  <[key := [v]]> h.

Definition Header_Del (key : string) (h : Header) : Header :=
  delete key h.

Definition MethodGet : string := "GET".
Definition MethodPost : string := "POST".

Definition StatusOK : Z := 200.
Definition StatusBadRequest : Z := 400.
Definition StatusUnauthorized : Z := 401.
Definition StatusMethodNotAllowed : Z := 405.
Definition StatusInternalServerError : Z := 500.

(** The part of [*http.Request] that the handlers read. *)
Record Request := mkRequest {
  Method : string;
  ReqHeader : Header;
  Body : string
}.

(** What a handler does to its [http.ResponseWriter], in order. *)
Inductive WriterOp :=
  | OpWrite (p : string)
  | OpFlush.

Record ResponseWriter := mkWriter {
  RespHeader : Header;
  Status : option Z;
  Log : list WriterOp
}.

(** [w.WriteHeader(code)]; only the first call takes effect. *)
Definition WriteHeader (code : Z) (w : ResponseWriter) : ResponseWriter :=
  match Status w with
  | Some _ => w
  | None => mkWriter (RespHeader w) (Some code) (Log w)
  end.

(** [w.Write(p)]; the status defaults to 200 at the first write. *)
Definition Write (p : string) (w : ResponseWriter) : ResponseWriter :=
  let w := WriteHeader StatusOK w in
  mkWriter (RespHeader w) (Status w) (Log w ++ [OpWrite p]).

(** [w.(http.Flusher).Flush()]; the response writer of the server is a
    flusher. *)
Definition Flush (w : ResponseWriter) : ResponseWriter :=
  let w := WriteHeader StatusOK w in
  mkWriter (RespHeader w) (Status w) (Log w ++ [OpFlush]).

(** [w.Header().Set(key, v)] *)
Definition SetHeader (key v : string) (w : ResponseWriter) : ResponseWriter :=
  mkWriter (Header_Set key v (RespHeader w)) (Status w) (Log w).

(** [http.Error(w, msg, code)] *)
Definition Error (msg : string) (code : Z) (w : ResponseWriter)
  : ResponseWriter :=
  let h := Header_Del "Content-Length" (RespHeader w) in
  let h := Header_Set "Content-Type" "text/plain; charset=utf-8" h in
  let h := Header_Set "X-Content-Type-Options" "nosniff" h in
  let w := WriteHeader code (mkWriter h (Status w) (Log w)) in
  Write (msg +:+ LF) w.

(** The bytes put on the wire, in order. *)
Fixpoint wire (log : list WriterOp) : string :=
  match log with
  | [] => EmptyString
  | OpWrite p :: log' => p +:+ wire log'
  | OpFlush :: log' => wire log'
  end.

(** A request handed to [http.Client.Do]. *)
Record ClientRequest := mkClientRequest {
  CMethod : string;
  URL : string;
  CHeader : Header;
  CBody : string
}.

Definition fresh : ResponseWriter := mkWriter ∅ None [].

(** [http.NewRequestWithContext(ctx, method, url, body)] for a context that
    is not nil and a valid method, such as [POST]: the request without
    headers, or nil (and an error) when [url.Parse] rejects the URL. *)
Definition NewRequestWithContext (urlParse : string -> bool)
    (method url body : string) : option ClientRequest :=
  if urlParse url then Some (mkClientRequest method url ∅ body) else None.

(** [req.Header.Set(key, v)] on a request. *)
Definition SetRequestHeader (key v : string) (req : ClientRequest)
  : ClientRequest :=
  mkClientRequest (CMethod req) (URL req) (Header_Set key v (CHeader req))
    (CBody req).

End HTTP.

(** [json.Encoder] over a response writer. *)
Module Encoder.
Record t := mk { escapeHTML : bool }.

(** [json.NewEncoder(w)] *)
Definition NewEncoder : t := mk true.

(** [enc.SetEscapeHTML(on)] *)
Definition SetEscapeHTML (on : bool) (enc : t) : t := mk on.

(** [enc.Encode(v)]: the encoding of [v] and a newline, in one write. *)
Definition Encode (formatFloat : float64 -> string) (enc : t) (v : value)
    (w : HTTP.ResponseWriter) : HTTP.ResponseWriter :=
  HTTP.Write (JSON.marshal formatFloat (escapeHTML enc) v +:+ LF) w.
End Encoder.

(** ** State of one request *)

(** The response writer, the number of clock readings made so far, the
    requests sent to the backend and the lines handed to [log.Printf]. *)
Record State := mkState {
  writer : HTTP.ResponseWriter;
  clock : nat;
  calls : list HTTP.ClientRequest;
  logged : list string
}.

Definition on_writer (f : HTTP.ResponseWriter -> HTTP.ResponseWriter)
    (st : State) : State :=
  mkState (f (writer st)) (clock st) (calls st) (logged st).

Definition log_Printf (line : string) (st : State) : State :=
  mkState (writer st) (clock st) (calls st) (logged st ++ [line]).

Definition initial : State := mkState HTTP.fresh 0 [] [].

(** A handler either returns or panics (an index out of range, a failed
    type assertion, a nil dereference). *)
Inductive Outcome :=
  | Return (st : State)
  | Panic (st : State).

(** ** Structures seen through their [json] tags *)

Definition Message_json (m : Message.t) : value :=
  VStruct [("role", VString (Message.Role m)); ("content", Message.Content m)].

Definition Choice_json (c : Choice.t) : value :=
  VStruct [("index", VInt (Choice.Index c));
           ("message", Message_json (Choice.Message c));
           ("finish_reason", VString (Choice.FinishReason c))].

Definition Usage_json (u : Usage.t) : value :=
  VStruct [("prompt_tokens", VInt (Usage.PromptTokens u));
           ("completion_tokens", VInt (Usage.CompletionTokens u));
           ("total_tokens", VInt (Usage.TotalTokens u))].

Definition OpenAIResponse_json (r : OpenAIResponse.t) : value :=
  VStruct [("id", VString (OpenAIResponse.ID r));
           ("object", VString (OpenAIResponse.Object r));
           ("created", VInt (OpenAIResponse.Created r));
           ("model", VString (OpenAIResponse.Model r));
           ("choices", VSlice (List.map Choice_json (OpenAIResponse.Choices r)));
           ("usage", Usage_json (OpenAIResponse.Usage r))].

(** A pointer field tagged [omitempty] is left out when it is nil. *)
Definition omitempty (key : string) (p : option float64)
  : list (string * value) :=
  match p with
  | Some f => [(key, VFloat f)]
  | None => []
  end.

Definition CloudflareRequest_json (r : CloudflareRequest.t) : value :=
  VStruct ([("model", VString (CloudflareRequest.Model r));
            ("input", CloudflareRequest.Input r)]
           ++ omitempty "temperature" (CloudflareRequest.Temperature r)
           ++ omitempty "top_p" (CloudflareRequest.TopP r)).

(** ** The gateway *)

Section Gateway.

(** [var config Config], filled in once by [main] before the server starts. *)
Variable config : Config.t.

(** The value of [time.Now().Unix()] at its k-th evaluation. *)
Variable now : nat -> Z.

(** [strconv]'s decimal form of a float. *)
Variable formatFloat : float64 -> string.

(** [json.Unmarshal] into the two structures the gateway decodes; the left
    injection carries the text of the error. *)
Variable unmarshalOpenAIRequest : string -> string + OpenAIRequest.t.
Variable unmarshalCloudflareResponse : string -> string + CloudflareResponse.t.

(** Whether [url.Parse] accepts a URL. *)
Variable urlParse : string -> bool.

(** [client.Do]: a transport error, or the status and the body of the
    backend's answer. *)
Variable clientDo : HTTP.ClientRequest -> string + (Z * string).

(** [time.Now().Unix()] *)
Definition timeNow (st : State) : Z * State :=
  (now (clock st), mkState (writer st) (S (clock st)) (calls st) (logged st)).

Definition authorizeClient (r : HTTP.Request) : bool :=
  if String.eqb (Config.ClientKey config) "" then true
  else String.eqb (HTTP.Header_Get (HTTP.ReqHeader r) "Authorization")
                  ("Bearer " +:+ Config.ClientKey config).

Definition convertToCloudflareRequest (openaiReq : OpenAIRequest.t)
  : CloudflareRequest.t :=
  let cfMessages :=
    fold_left
      (fun cfMessages msg =>
         cfMessages ++ [VMap [("role", VString (Message.Role msg));
                              ("content", Message.Content msg)]])
      (OpenAIRequest.Messages openaiReq) [] in
  let cfReq :=
    CloudflareRequest.mk
      (Config.Model config)
      (* a slice that was never appended to is nil and is encoded as null *)
      (match cfMessages with [] => VNil | _ => VSlice cfMessages end)
      None None in
  let cfReq :=
    match OpenAIRequest.Temperature openaiReq with
    | Some t =>
      CloudflareRequest.mk (CloudflareRequest.Model cfReq)
        (CloudflareRequest.Input cfReq) (Some t) (CloudflareRequest.TopP cfReq)
    | None => cfReq
    end in
  let cfReq :=
    match OpenAIRequest.TopP openaiReq with
    | Some p =>
      CloudflareRequest.mk (CloudflareRequest.Model cfReq)
        (CloudflareRequest.Input cfReq) (CloudflareRequest.Temperature cfReq)
        (Some p)
    | None => cfReq
    end in
  cfReq.

(** The request that [callCloudflareAPI] hands to [client.Do], when it
    gets that far. *)
Definition backendRequest (req : CloudflareRequest.t) : HTTP.ClientRequest :=
  let reqBody := JSON.marshal formatFloat true (CloudflareRequest_json req) in
  let url := "https://api.cloudflare.com/client/v4/accounts/"
             +:+ Config.AccountID config +:+ "/ai/v1/responses" in
  let header :=
    HTTP.Header_Set "Content-Type" "application/json"
      (HTTP.Header_Set "Authorization" ("Bearer " +:+ Config.AuthToken config)
         ∅) in
  HTTP.mkClientRequest "POST" url header reqBody.

(** The URL of the backend: [fmt.Sprintf] with the account id. *)
Definition backendURL : string :=
  "https://api.cloudflare.com/client/v4/accounts/"
  +:+ Config.AccountID config +:+ "/ai/v1/responses".

(** What [callCloudflareAPI] returns once [client.Do] has returned: the
    decoded response or nil, the raw body, and the error or nil. *)
Definition responseResults (outcome : string + (Z * string))
  : option CloudflareResponse.t * string * option string :=
  match outcome with
  | inl err => (None, EmptyString, Some err)
  | inr (statusCode, body) =>
    if negb (statusCode =? HTTP.StatusOK) then
      (None, body, Some ("API request failed: " +:+ body))
    else
      match unmarshalCloudflareResponse body with
      | inl err => (None, body, Some err)
      | inr cloudflareResp => (Some cloudflareResp, body, None)
      end
  end.

(** [callCloudflareAPI]: its three results and the state, or [None] when
    it panics.  The error of [http.NewRequestWithContext] is dropped, so
    that when the URL does not parse [httpReq] is nil and
    [httpReq.Header.Set] dereferences it: nothing has been sent. *)
Definition callCloudflareAPI (req : CloudflareRequest.t) (st : State)
  : option ((option CloudflareResponse.t * string * option string) * State) :=
  let reqBody := JSON.marshal formatFloat true (CloudflareRequest_json req) in
  let url := backendURL in
  match HTTP.NewRequestWithContext urlParse "POST" url reqBody with
  | None => None
  | Some httpReq =>
    let httpReq :=
      HTTP.SetRequestHeader "Authorization"
        ("Bearer " +:+ Config.AuthToken config) httpReq in
    let httpReq :=
      HTTP.SetRequestHeader "Content-Type" "application/json" httpReq in
    let st :=
      mkState (writer st) (clock st) (calls st ++ [httpReq]) (logged st) in
    Some (responseResults (clientDo httpReq), st)
  end.

(** The inner loops of [convertToOpenAIResponse]: the text of the last
    content item of the given type, or the text found so far. *)
Definition scanContent (type : string)
    (content : list CloudflareContentItem.t) (found : string) : string :=
  fold_left
    (fun found c =>
       if String.eqb (CloudflareContentItem.Type_ c) type
       then CloudflareContentItem.Text c else found)
    content found.

(** The outer loop: [(reasoningText, assistantMessage)] after all items. *)
Definition scanOutput (output : list CloudflareOutputItem.t) : string * string :=
  fold_left
    (fun '(reasoningText, assistantMessage) output =>
       let reasoningText :=
         if String.eqb (CloudflareOutputItem.Type_ output) "reasoning"
         then scanContent "reasoning_text"
                (CloudflareOutputItem.Content output) reasoningText
         else reasoningText in
       let assistantMessage :=
         if String.eqb (CloudflareOutputItem.Type_ output) "message"
            && String.eqb (CloudflareOutputItem.Role output) "assistant"
         then scanContent "output_text"
                (CloudflareOutputItem.Content output) assistantMessage
         else assistantMessage in
       (reasoningText, assistantMessage))
    output (EmptyString, EmptyString).

Definition convertToOpenAIResponse (cloudflareResp : CloudflareResponse.t)
  : OpenAIResponse.t :=
  let '(reasoningText, assistantMessage) :=
    scanOutput (CloudflareResponse.Output cloudflareResp) in
  let finalMessage := EmptyString in
  let finalMessage :=
    if negb (String.eqb reasoningText "")
    then finalMessage +:+ ("<think>" +:+ reasoningText +:+ "</think>" +:+ LF)
    else finalMessage in
  let finalMessage := finalMessage +:+ assistantMessage in
  OpenAIResponse.mk
    (CloudflareResponse.ID cloudflareResp)
    "chat.completion"
    (CloudflareResponse.Created cloudflareResp)
    (CloudflareResponse.Model cloudflareResp)
    [Choice.mk 0 (Message.mk "assistant" (VString finalMessage)) "stop"]
    (Usage.mk
       (CloudflareUsage.PromptTokens (CloudflareResponse.Usage cloudflareResp))
       (CloudflareUsage.CompletionTokens (CloudflareResponse.Usage cloudflareResp))
       (CloudflareUsage.TotalTokens (CloudflareResponse.Usage cloudflareResp))).

(** The three event literals of the streaming branch. *)
Definition startEvent (openaiResp : OpenAIResponse.t) (created : Z) : value :=
  VMap [("id", VString (OpenAIResponse.ID openaiResp));
        ("object", VString "chat.completion.chunk");
        ("created", VInt created);
        ("model", VString (OpenAIResponse.Model openaiResp));
        ("choices",
         VSlice [VMap [("delta", VMap [("role", VString "assistant")]);
                       ("index", VInt 0);
                       ("finish_reason", VNil)]])].

Definition contentEvent (openaiResp : OpenAIResponse.t) (created : Z) (r : Z)
  : value :=
  VMap [("id", VString (OpenAIResponse.ID openaiResp));
        ("object", VString "chat.completion.chunk");
        ("created", VInt created);
        ("model", VString (OpenAIResponse.Model openaiResp));
        ("choices",
         VSlice [VMap [("delta",
                        VMap [("content", VString (UTF8.string_of_rune r))]);
                       ("index", VInt 0);
                       ("finish_reason", VNil)]])].

Definition endEvent (openaiResp : OpenAIResponse.t) (created : Z) : value :=
  VMap [("id", VString (OpenAIResponse.ID openaiResp));
        ("object", VString "chat.completion.chunk");
        ("created", VInt created);
        ("model", VString (OpenAIResponse.Model openaiResp));
        ("choices",
         VSlice [VMap [("delta", VMap []);
                       ("index", VInt 0);
                       ("finish_reason", VString "stop")]]);
        ("usage",
         VMap [("prompt_tokens",
                VInt (Usage.PromptTokens (OpenAIResponse.Usage openaiResp)));
               ("completion_tokens",
                VInt (Usage.CompletionTokens (OpenAIResponse.Usage openaiResp)));
               ("total_tokens",
                VInt (Usage.TotalTokens (OpenAIResponse.Usage openaiResp)))])].

(** One turn of the loop [for _, r := range runes]. *)
Definition streamRune (openaiResp : OpenAIResponse.t) (st : State) (r : Z)
  : State :=
  let '(created, st) := timeNow st in
  let event := contentEvent openaiResp created r in
  let st := on_writer (HTTP.Write "data: ") st in
  let enc := Encoder.NewEncoder in
  let enc := Encoder.SetEscapeHTML false enc in
  let st := on_writer (Encoder.Encode formatFloat enc event) st in
  let st := on_writer (HTTP.Write LF) st in
  on_writer HTTP.Flush st.

(** The branch [if openaiReq.Stream] of [handleChatCompletions]. *)
Definition streamChatCompletion (openaiResp : OpenAIResponse.t) (st : State)
  : Outcome :=
  let st := on_writer (HTTP.SetHeader "Content-Type" "text/event-stream") st in
  let st := on_writer (HTTP.SetHeader "Cache-Control" "no-cache") st in
  let st := on_writer (HTTP.SetHeader "Connection" "keep-alive") st in
  match OpenAIResponse.Choices openaiResp with
  | [] => Panic st
  | choice0 :: _ =>
    match Message.Content (Choice.Message choice0) with
    | VString fullContent =>
      let runes := UTF8.runes_of_string fullContent in
      (* start *)
      let '(created, st) := timeNow st in
      let st := on_writer (HTTP.Write "data: ") st in
      let enc := Encoder.NewEncoder in
      let enc := Encoder.SetEscapeHTML false enc in
      let st :=
        on_writer (Encoder.Encode formatFloat enc
                     (startEvent openaiResp created)) st in
      let st := on_writer (HTTP.Write LF) st in
      let st := on_writer HTTP.Flush st in
      (* one event per rune *)
      let st := fold_left (streamRune openaiResp) runes st in
      (* end, with the usage *)
      let '(created, st) := timeNow st in
      let st := on_writer (HTTP.Write "data: ") st in
      let enc := Encoder.NewEncoder in
      let enc := Encoder.SetEscapeHTML false enc in
      let st :=
        on_writer (Encoder.Encode formatFloat enc
                     (endEvent openaiResp created)) st in
      let st := on_writer (HTTP.Write (LF +:+ LF)) st in
      (* [DONE] *)
      let st := on_writer (HTTP.Write ("data: [DONE]" +:+ LF +:+ LF)) st in
      Return (on_writer HTTP.Flush st)
    | _ => Panic st
    end
  end.

Definition handleChatCompletions (r : HTTP.Request) (st : State) : Outcome :=
  if negb (authorizeClient r) then
    Return (on_writer (HTTP.Error "Unauthorized" HTTP.StatusUnauthorized) st)
  else if negb (String.eqb (HTTP.Method r) HTTP.MethodPost) then
    Return (on_writer
              (HTTP.Error "Method not allowed" HTTP.StatusMethodNotAllowed) st)
  else
    let body := HTTP.Body r in
    let st := log_Printf ("用户请求 JSON: " +:+ body) st in
    match unmarshalOpenAIRequest body with
    | inl _ =>
      Return (on_writer (HTTP.Error "Invalid JSON" HTTP.StatusBadRequest) st)
    | inr openaiReq =>
      let cfReq := convertToCloudflareRequest openaiReq in
      match callCloudflareAPI cfReq st with
      | None => Panic st
      | Some ((cfResp, rawCFJSON, err), st) =>
        match err with
        | Some err =>
          Return (on_writer
                    (HTTP.Error ("Cloudflare API error: " +:+ err)
                       HTTP.StatusInternalServerError) st)
        | None =>
          let st := log_Printf ("Cloudflare 原始响应: " +:+ rawCFJSON) st in
          match cfResp with
          | None => Panic st
          | Some cfResp =>
            let openaiResp := convertToOpenAIResponse cfResp in
            if OpenAIRequest.Stream openaiReq then
              streamChatCompletion openaiResp st
            else
              let st :=
                on_writer (HTTP.SetHeader "Content-Type" "application/json")
                  st in
              let enc := Encoder.NewEncoder in
              let enc := Encoder.SetEscapeHTML false enc in
              Return (on_writer
                        (Encoder.Encode formatFloat enc
                           (OpenAIResponse_json openaiResp)) st)
          end
        end
      end
    end.

Definition handleModels (r : HTTP.Request) (st : State) : Outcome :=
  if negb (authorizeClient r) then
    Return (on_writer (HTTP.Error "Unauthorized" HTTP.StatusUnauthorized) st)
  else if negb (String.eqb (HTTP.Method r) HTTP.MethodGet) then
    Return (on_writer
              (HTTP.Error "Method not allowed" HTTP.StatusMethodNotAllowed) st)
  else
    let '(created, st) := timeNow st in
    let modelsResp :=
      VMap [("object", VString "list");
            ("data",
             VSlice [VMap [("id", VString (Config.Model config));
                           ("object", VString "model");
                           ("created", VInt created);
                           ("owned_by", VString "openai")]])] in
    let st := on_writer (HTTP.SetHeader "Content-Type" "application/json") st in
    Return (on_writer
              (Encoder.Encode formatFloat Encoder.NewEncoder modelsResp) st).

End Gateway.

(** ** Observations used to state the properties

    These definitions are not part of the program: they word what the
    specification says about extracted texts, about the composed text and
    about the frames of a stream, so that the program can be compared with
    them. *)

Module Spec.

(** The texts that reasoning items contribute, in order of appearance. *)
Definition reasoning_texts (output : list CloudflareOutputItem.t) : list string :=
  flat_map
    (fun o =>
       if String.eqb (CloudflareOutputItem.Type_ o) "reasoning" then
         List.map CloudflareContentItem.Text
           (List.filter
              (fun c => String.eqb (CloudflareContentItem.Type_ c) "reasoning_text")
              (CloudflareOutputItem.Content o))
       else [])
    output.

(** The texts that assistant message items contribute, in order. *)
Definition assistant_texts (output : list CloudflareOutputItem.t) : list string :=
  flat_map
    (fun o =>
       if String.eqb (CloudflareOutputItem.Type_ o) "message"
          && String.eqb (CloudflareOutputItem.Role o) "assistant" then
         List.map CloudflareContentItem.Text
           (List.filter
              (fun c => String.eqb (CloudflareContentItem.Type_ c) "output_text")
              (CloudflareOutputItem.Content o))
       else [])
    output.

Definition is_reasoning_item (o : CloudflareOutputItem.t) : bool :=
  String.eqb (CloudflareOutputItem.Type_ o) "reasoning".

Definition is_assistant_message (o : CloudflareOutputItem.t) : bool :=
  String.eqb (CloudflareOutputItem.Type_ o) "message"
  && String.eqb (CloudflareOutputItem.Role o) "assistant".

(** The extracted reasoning text and assistant text of a backend result. *)
Definition reasoning_text (r : CloudflareResponse.t) : string :=
  List.last (reasoning_texts (CloudflareResponse.Output r)) EmptyString.

Definition assistant_text (r : CloudflareResponse.t) : string :=
  List.last (assistant_texts (CloudflareResponse.Output r)) EmptyString.

(** The final text composition rule. *)
Definition compose (reasoning assistant : string) : string :=
  match reasoning with
  | EmptyString => assistant
  | _ => "<think>" +:+ reasoning +:+ "</think>" +:+ LF +:+ assistant
  end.

(** The content of the first choice, when it is a string. *)
Definition final_content (r : OpenAIResponse.t) : option string :=
  match OpenAIResponse.Choices r with
  | c :: _ =>
    match Message.Content (Choice.Message c) with
    | VString s => Some s
    | _ => None
    end
  | [] => None
  end.

(** The UTF-8 encoding of a sequence of code points. *)
Definition encode_all (rs : list Z) : string :=
  Bytes.concat (List.map UTF8.encoderune rs).

(** Frames of a stream: an event with the bytes written after its encoding
    and whether a flush follows, or the termination sentinel. *)
Inductive Frame :=
  | EventFrame (ev : value) (trailer : string) (flushed : bool)
  | DoneFrame.

Inductive FrameKind :=
  | KStart
  | KContent (delta : string)
  | KEnd (usage : Usage.t)
  | KDone.

(** What a frame puts on the response writer. *)
Definition frame_ops (formatFloat : float64 -> string) (f : Frame)
  : list HTTP.WriterOp :=
  match f with
  | EventFrame ev trailer flushed =>
    [HTTP.OpWrite "data: ";
     HTTP.OpWrite (JSON.marshal formatFloat false ev +:+ LF);
     HTTP.OpWrite trailer]
    ++ (if flushed then [HTTP.OpFlush] else [])
  | DoneFrame => [HTTP.OpWrite ("data: [DONE]" +:+ LF +:+ LF); HTTP.OpFlush]
  end.

Definition usage_of (v : value) : option Usage.t :=
  match JSON.field "prompt_tokens" v, JSON.field "completion_tokens" v,
        JSON.field "total_tokens" v with
  | Some (VInt p), Some (VInt c), Some (VInt t) =>
    if (length (JSON.keys v) =? 3)%nat then Some (Usage.mk p c t) else None
  | _, _, _ => None
  end.

(** The kind of an event, read off its single choice: a start frame has a
    delta with the role alone and a null finish reason; a content frame has
    a delta with the content alone and a null finish reason; an end frame
    has an empty delta, the finish reason [stop] and a usage object. *)
Definition event_kind (ev : value) : option FrameKind :=
  match JSON.field "choices" ev with
  | Some (VSlice [choice]) =>
    match JSON.field "delta" choice, JSON.field "finish_reason" choice,
          JSON.field "usage" ev with
    | Some (VMap [(k, VString s)]), Some VNil, None =>
      if String.eqb k "role" && String.eqb s "assistant" then Some KStart
      else if String.eqb k "content" then Some (KContent s)
      else None
    | Some (VMap []), Some (VString reason), Some usage =>
      if String.eqb reason "stop" then
        match usage_of usage with
        | Some u => Some (KEnd u)
        | None => None
        end
      else None
    | _, _, _ => None
    end
  | _ => None
  end.

Definition frame_kind (f : Frame) : option FrameKind :=
  match f with
  | EventFrame ev _ _ => event_kind ev
  | DoneFrame => Some KDone
  end.

(** The deltas of the content frames, in order. *)
Definition content_deltas (frames : list Frame) : list string :=
  flat_map
    (fun f =>
       match frame_kind f with
       | Some (KContent d) => [d]
       | _ => []
       end)
    frames.

(** The bytes of a frame on the wire. *)
Definition frame_wire (formatFloat : float64 -> string) (f : Frame) : string :=
  HTTP.wire (frame_ops formatFloat f).

(** A text between double quotes. *)
Definition quote (s : string) : string := DQUOTE +:+ s +:+ DQUOTE.

(** The text of a chunk object, keys in sorted order, given the texts of
    its delta, finish reason, timestamp, id and model, and what follows the
    object tag (nothing, or the usage member). *)
Definition chunk_json (delta finish_reason created id model extra : string)
  : string :=
  "{" +:+ quote "choices" +:+ ":[{"
  +:+ quote "delta" +:+ ":" +:+ delta +:+ ","
  +:+ quote "finish_reason" +:+ ":" +:+ finish_reason +:+ ","
  +:+ quote "index" +:+ ":0}],"
  +:+ quote "created" +:+ ":" +:+ created +:+ ","
  +:+ quote "id" +:+ ":" +:+ id +:+ ","
  +:+ quote "model" +:+ ":" +:+ model +:+ ","
  +:+ quote "object" +:+ ":" +:+ quote "chat.completion.chunk"
  +:+ extra +:+ "}".

Definition usage_json (u : Usage.t) : string :=
  "," +:+ quote "usage" +:+ ":{"
  +:+ quote "completion_tokens" +:+ ":"
  +:+ JSON.formatInt (Usage.CompletionTokens u) +:+ ","
  +:+ quote "prompt_tokens" +:+ ":"
  +:+ JSON.formatInt (Usage.PromptTokens u) +:+ ","
  +:+ quote "total_tokens" +:+ ":"
  +:+ JSON.formatInt (Usage.TotalTokens u) +:+ "}".

(** Strings made of ASCII characters that [encoding/json] never escapes
    when HTML escaping is off. *)
Fixpoint all_safe (s : string) : bool :=
  match s with
  | EmptyString => true
  | String c s' => JSON.safeSet (byte_val c) && all_safe s'
  end.

End Spec.

(** The frames that a stream over the given runes is expected to consist
    of, the k-th clock reading being the first one the stream makes. *)
Module StreamSpec.
Import Spec.

Section Frames.
Variable now : nat -> Z.
Variable openaiResp : OpenAIResponse.t.

Fixpoint content_frames (k : nat) (runes : list Z) : list Frame :=
  match runes with
  | [] => []
  | r :: runes' =>
    EventFrame (contentEvent openaiResp (now k) r) LF true
    :: content_frames (S k) runes'
  end.

Definition stream_frames (k : nat) (runes : list Z) : list Frame :=
  [EventFrame (startEvent openaiResp (now k)) LF true]
  ++ content_frames (S k) runes
  ++ [EventFrame (endEvent openaiResp (now (S k + length runes)))
        (LF +:+ LF) false;
      DoneFrame].

End Frames.
End StreamSpec.

(** ** Further observations *)

Module Observe.

(** No byte below 0x20: no control character, in particular no newline. *)
Fixpoint no_ctl (s : string) : bool :=
  match s with
  | EmptyString => true
  | String c s' => (0x20 <=? byte_val c) && no_ctl s'
  end.

(** Only bytes from 0x80 on. *)
Fixpoint high_bytes (s : string) : bool :=
  match s with
  | EmptyString => true
  | String c s' => (0x80 <=? byte_val c) && high_bytes s'
  end.

(** The backend input entry of a chat message. *)
Definition input_entry (msg : Message.t) : value :=
  VMap [("role", VString (Message.Role msg));
        ("content", Message.Content msg)].

(** A backend result with other output items. *)
Definition with_output (r : CloudflareResponse.t)
    (output : list CloudflareOutputItem.t) : CloudflareResponse.t :=
  CloudflareResponse.mk (CloudflareResponse.ID r) (CloudflareResponse.Created r)
    (CloudflareResponse.Model r) (CloudflareResponse.Object r) output
    (CloudflareResponse.Usage r).

(** The status codes that the handlers write. *)
Definition handler_status (code : Z) : bool :=
  (code =? HTTP.StatusOK) || (code =? HTTP.StatusBadRequest)
  || (code =? HTTP.StatusUnauthorized) || (code =? HTTP.StatusMethodNotAllowed)
  || (code =? HTTP.StatusInternalServerError).

(** The text of the models listing, keys in sorted order, given the texts
    of its timestamp and model id. *)
Definition models_json (created id : string) : string :=
  "{" +:+ Spec.quote "data" +:+ ":[{"
  +:+ Spec.quote "created" +:+ ":" +:+ created +:+ ","
  +:+ Spec.quote "id" +:+ ":" +:+ id +:+ ","
  +:+ Spec.quote "object" +:+ ":" +:+ Spec.quote "model" +:+ ","
  +:+ Spec.quote "owned_by" +:+ ":" +:+ Spec.quote "openai" +:+ "}],"
  +:+ Spec.quote "object" +:+ ":" +:+ Spec.quote "list" +:+ "}".

(** The number of flushes among the operations on a writer. *)
Definition flushes (log : list HTTP.WriterOp) : nat :=
  length (List.filter
            (fun op => match op with HTTP.OpFlush => true | _ => false end) log).

End Observe.

(** ** Scenarios

    Concrete surroundings and inputs on which the program is run in the
    examples below. *)

Module Scenario.

Definition config : Config.t :=
  Config.mk "acct" "@cf/openai/gpt-oss-120b" "token" "10000" "secret".

Definition open_config : Config.t :=
  Config.mk "acct" "@cf/openai/gpt-oss-120b" "token" "10000" "".

Definition now (k : nat) : Z := 1700000000 + Z.of_nat k.

(** No request of the scenarios carries a float: every float is printed
    as one half is. *)
Definition formatFloat (f : float64) : string := "0.5".

Definition usage : CloudflareUsage.t := CloudflareUsage.mk 3 2 5.

Definition message (text : string) : CloudflareOutputItem.t :=
  CloudflareOutputItem.mk "msg_1"
    [CloudflareContentItem.mk text "output_text"] "assistant" "message"
    "completed".

Definition reasoning (content : list CloudflareContentItem.t)
  : CloudflareOutputItem.t :=
  CloudflareOutputItem.mk "rs_1" content "" "reasoning" "".

Definition result (output : list CloudflareOutputItem.t) : CloudflareResponse.t :=
  CloudflareResponse.mk "resp_1" 1700000000 "@cf/openai/gpt-oss-120b"
    "response" output usage.

(** The structures that the gateway decodes, seen through their [json]
    tags, to write down the JSON text of a request and of a backend
    result. *)
Definition OpenAIRequest_json (r : OpenAIRequest.t) : value :=
  VStruct ([("model", VString (OpenAIRequest.Model r));
            ("messages",
             VSlice (List.map Message_json (OpenAIRequest.Messages r)))]
           ++ (if OpenAIRequest.Stream r then [("stream", VBool true)] else [])
           ++ omitempty "temperature" (OpenAIRequest.Temperature r)
           ++ omitempty "top_p" (OpenAIRequest.TopP r)).

Definition CloudflareContentItem_json (c : CloudflareContentItem.t) : value :=
  VStruct [("text", VString (CloudflareContentItem.Text c));
           ("type", VString (CloudflareContentItem.Type_ c))].

Definition CloudflareOutputItem_json (o : CloudflareOutputItem.t) : value :=
  VStruct ([("id", VString (CloudflareOutputItem.ID o));
            ("content",
             VSlice (List.map CloudflareContentItem_json
                       (CloudflareOutputItem.Content o)))]
           ++ (if String.eqb (CloudflareOutputItem.Role o) "" then []
               else [("role", VString (CloudflareOutputItem.Role o))])
           ++ [("type", VString (CloudflareOutputItem.Type_ o))]
           ++ (if String.eqb (CloudflareOutputItem.Status o) "" then []
               else [("status", VString (CloudflareOutputItem.Status o))])).

Definition CloudflareResponse_json (r : CloudflareResponse.t) : value :=
  VStruct [("id", VString (CloudflareResponse.ID r));
           ("created_at", VInt (CloudflareResponse.Created r));
           ("model", VString (CloudflareResponse.Model r));
           ("object", VString (CloudflareResponse.Object r));
           ("output",
            VSlice (List.map CloudflareOutputItem_json
                      (CloudflareResponse.Output r)));
           ("usage",
            VStruct
              [("prompt_tokens",
                VInt (CloudflareUsage.PromptTokens (CloudflareResponse.Usage r)));
               ("completion_tokens",
                VInt (CloudflareUsage.CompletionTokens
                        (CloudflareResponse.Usage r)));
               ("total_tokens",
                VInt (CloudflareUsage.TotalTokens
                        (CloudflareResponse.Usage r)))])].

(** A streaming request with one user message, a request for a plain
    response with two messages, and their JSON texts. *)
Definition request : OpenAIRequest.t :=
  OpenAIRequest.mk "gpt-4" [Message.mk "user" (VString "hi")] true None None.

Definition plain_request : OpenAIRequest.t :=
  OpenAIRequest.mk "gpt-4"
    [Message.mk "system" (VString "be brief"); Message.mk "user" (VString "hi")]
    false None None.

Definition request_body : string :=
  JSON.marshal formatFloat false (OpenAIRequest_json request).

Definition plain_body : string :=
  JSON.marshal formatFloat false (OpenAIRequest_json plain_request).

(** A backend result with the answer [ok], and its JSON text. *)
Definition answer : CloudflareResponse.t := result [message "ok"].

Definition answer_body : string :=
  JSON.marshal formatFloat false (CloudflareResponse_json answer).

(** [json.Unmarshal] into an [OpenAIRequest] on the bodies that occur in
    the scenarios: the two request texts, the empty object, which leaves
    every field at its zero value, and the empty body; no other body is
    decoded here. *)
Definition unmarshalOpenAIRequest (body : string) : string + OpenAIRequest.t :=
  if String.eqb body request_body then inr request
  else if String.eqb body plain_body then inr plain_request
  else if String.eqb body "{}" then
    inr (OpenAIRequest.mk "" [] false None None)
  else if String.eqb body "" then inl "unexpected end of JSON input"
  else inl "invalid character".

(** [json.Unmarshal] into a [CloudflareResponse], likewise: the text of
    [answer], the empty body, and nothing else. *)
Definition unmarshalCloudflareResponse (body : string)
  : string + CloudflareResponse.t :=
  if String.eqb body answer_body then inr answer
  else if String.eqb body "" then inl "unexpected end of JSON input"
  else inl "invalid character".

(** The backend answers 200 with the text of [answer] to a request that
    carries the token, and 429 otherwise. *)
Definition clientDo (req : HTTP.ClientRequest) : string + (Z * string) :=
  if String.eqb (HTTP.Header_Get (HTTP.CHeader req) "Authorization")
       "Bearer token"
  then inr (200, answer_body)
  else inr (429, "rate limited").

Definition get_without_key : HTTP.Request := HTTP.mkRequest "GET" ∅ "".

Definition post_with_key : HTTP.Request :=
  HTTP.mkRequest "POST" (HTTP.Header_Set "Authorization" "Bearer secret" ∅)
    request_body.

Definition post_without_key : HTTP.Request :=
  HTTP.mkRequest "POST" ∅ request_body.

(** A translated response whose single choice holds the given text. *)
Definition response (text : string) : OpenAIResponse.t :=
  OpenAIResponse.mk "resp_1" "chat.completion" 1700000000
    "@cf/openai/gpt-oss-120b"
    [Choice.mk 0 (Message.mk "assistant" (VString text)) "stop"]
    (Usage.mk 3 2 5).

(** [url.Parse] on a URL made of the scheme [https], a host name and a
    path, as the URL of the backend is: it rejects a control character
    anywhere, and a percent sign that does not start an escape of two
    hexadecimal digits in the path and in the fragment; the query is not
    looked into. *)
Definition is_hex (c : ascii) : bool :=
  let b := byte_val c in
  ((48 <=? b) && (b <=? 57)) || ((65 <=? b) && (b <=? 70))
  || ((97 <=? b) && (b <=? 102)).

Fixpoint has_ctl (s : string) : bool :=
  match s with
  | EmptyString => false
  | String c rest =>
    let b := byte_val c in
    (b <? 0x20) || (b =? 0x7F) || has_ctl rest
  end.

Fixpoint escapes_ok (s : string) : bool :=
  match s with
  | EmptyString => true
  | String c rest =>
    if byte_val c =? 37 then
      match rest with
      | String h1 (String h2 _) => is_hex h1 && is_hex h2 && escapes_ok rest
      | _ => false
      end
    else escapes_ok rest
  end.

(** [strings.Cut(s, sep)] for a separator of one byte. *)
Fixpoint cut (sep : Z) (s : string) : string * string :=
  match s with
  | EmptyString => (EmptyString, EmptyString)
  | String c rest =>
    if byte_val c =? sep then (EmptyString, rest)
    else let '(before, after) := cut sep rest in (String c before, after)
  end.

Definition urlParse (rawURL : string) : bool :=
  if has_ctl rawURL then false
  else
    let '(rest, frag) := cut 35 rawURL in
    let '(path, _) := cut 63 rest in
    escapes_ok path && escapes_ok frag.

(** U+00E9, U+4E2D and U+1F600 after an ASCII letter. *)
Definition multibyte : string :=
  Spec.encode_all [0x61; 0xE9; 0x4E2D; 0x1F600].

End Scenario.

(** Further inputs and surroundings. *)

Module Cases.
Import Scenario.

(** A configuration whose backend token the backend of the scenarios
    rejects. *)
Definition expired_config : Config.t :=
  Config.mk "acct" "@cf/openai/gpt-oss-120b" "expired" "10000" "secret".

(** A configuration whose account id makes the URL of the backend
    unparsable. *)
Definition bad_account_config : Config.t :=
  Config.mk "%zz" "@cf/openai/gpt-oss-120b" "token" "10000" "secret".

(** Authorized requests: for a plain response, with an empty body, with
    the wrong method. *)
Definition post_plain : HTTP.Request :=
  HTTP.mkRequest "POST" (HTTP.Header_Set "Authorization" "Bearer secret" ∅)
    plain_body.

Definition post_empty : HTTP.Request :=
  HTTP.mkRequest "POST" (HTTP.Header_Set "Authorization" "Bearer secret" ∅) "".

Definition get_with_key : HTTP.Request :=
  HTTP.mkRequest "GET" (HTTP.Header_Set "Authorization" "Bearer secret" ∅) "".

(** A transport that fails. *)
Definition clientDown (req : HTTP.ClientRequest) : string + (Z * string) :=
  inl "dial tcp: connection refused".

(** A backend that answers every request with the given status and the
    text of [answer]. *)
Definition clientAnswers (status : Z) (req : HTTP.ClientRequest)
  : string + (Z * string) :=
  inr (status, answer_body).

(** A tool call between a reasoning item and the answer. *)
Definition tool_call : CloudflareOutputItem.t :=
  CloudflareOutputItem.mk "fc_1"
    [CloudflareContentItem.mk "lookup" "output_text"] "" "function_call" "".

(** A text with an ill-formed byte between two letters. *)
Definition broken_text : string := "a" +:+ chr 0xFF +:+ "b".

End Cases.

(** * Proofs *)

(** ** Bytes and strings *)

Module BytesFacts.

Lemma byte_val_range c : 0 <= byte_val c < 256.
Proof. unfold byte_val. pose proof (N_ascii_bounded c). lia. Qed.

Lemma to_byte_val c x : x mod 256 = byte_val c -> to_byte x = c.
Proof.
  unfold to_byte, byte_val. intros ->. rewrite N2Z.id. apply ascii_N_embedding.
Qed.

Lemma byte_val_to_byte x : byte_val (to_byte x) = x mod 256.
Proof.
  unfold to_byte, byte_val. rewrite N_ascii_embedding.
  - apply Z2N.id. apply Z.mod_pos_bound. lia.
  - pose proof (Z.mod_pos_bound x 256). lia.
Qed.

Lemma append_nil_l s : EmptyString +:+ s = s.
Proof. reflexivity. Qed.

Lemma append_cons c s t : String c s +:+ t = String c (s +:+ t).
Proof. reflexivity. Qed.

Lemma append_nil_r s : s +:+ EmptyString = s.
Proof.
  induction s as [|c s IH]; [reflexivity|]. now rewrite append_cons, IH.
Qed.

Lemma append_assoc s1 s2 s3 : (s1 +:+ s2) +:+ s3 = s1 +:+ (s2 +:+ s3).
Proof.
  induction s1 as [|c s1 IH]; [reflexivity|]. now rewrite !append_cons, IH.
Qed.

Lemma length_append s t :
  String.length (s +:+ t) = (String.length s + String.length t)%nat.
Proof.
  induction s as [|c s IH]; [reflexivity|].
  rewrite append_cons. simpl. now rewrite IH.
Qed.

Lemma concat_app l1 l2 : concat (l1 ++ l2) = concat l1 +:+ concat l2.
Proof.
  induction l1 as [|s l1 IH]; simpl; [reflexivity|].
  now rewrite IH, append_assoc.
Qed.

End BytesFacts.
Import BytesFacts.

(** ** Bit operations as arithmetic *)

Module BitFacts.
Import UTF8.

Ltac zdm := Z.div_mod_to_equations; lia.

Lemma land_mul_pow2_low hi lo k :
  0 <= k -> 0 <= lo < 2 ^ k -> Z.land (hi * 2 ^ k) lo = 0.
Proof.
  intros Hk Hlo. apply Z.bits_inj'; intros n Hn.
  rewrite Z.land_spec, Z.bits_0.
  destruct (Z.lt_ge_cases n k) as [Hlt|Hge].
  - rewrite Z.mul_pow2_bits_low by lia. reflexivity.
  - replace (Z.testbit lo n) with false; [apply andb_false_r|].
    symmetry. destruct (Z.eq_dec lo 0) as [->|Hne]; [apply Z.bits_0|].
    apply Z.bits_above_log2; [lia|].
    apply Z.log2_lt_pow2; [lia|].
    apply Z.lt_le_trans with (2 ^ k); [lia|].
    apply Z.pow_le_mono_r; lia.
Qed.

Lemma lor_disjoint_add k a b :
  0 <= k -> a mod 2 ^ k = 0 -> 0 <= b < 2 ^ k -> Z.lor a b = a + b.
Proof.
  intros Hk Ha Hb.
  assert (Hp : 0 < 2 ^ k) by (apply Z.pow_pos_nonneg; lia).
  assert (Ea : a = a / 2 ^ k * 2 ^ k).
  { pose proof (Z.div_mod a (2 ^ k)). lia. }
  rewrite Ea at 1 2.
  pose proof (land_mul_pow2_low (a / 2 ^ k) b k Hk Hb) as H0.
  rewrite <- Z.lxor_lor by exact H0.
  rewrite <- Z.add_nocarry_lxor by exact H0. lia.
Qed.

Lemma lor_add_3 a b : a mod 8 = 0 -> 0 <= b < 8 -> Z.lor a b = a + b.
Proof. apply (lor_disjoint_add 3). lia. Qed.
Lemma lor_add_4 a b : a mod 16 = 0 -> 0 <= b < 16 -> Z.lor a b = a + b.
Proof. apply (lor_disjoint_add 4). lia. Qed.
Lemma lor_add_5 a b : a mod 32 = 0 -> 0 <= b < 32 -> Z.lor a b = a + b.
Proof. apply (lor_disjoint_add 5). lia. Qed.
Lemma lor_add_6 a b : a mod 64 = 0 -> 0 <= b < 64 -> Z.lor a b = a + b.
Proof. apply (lor_disjoint_add 6). lia. Qed.
Lemma lor_add_12 a b : a mod 4096 = 0 -> 0 <= b < 4096 -> Z.lor a b = a + b.
Proof. apply (lor_disjoint_add 12). lia. Qed.
Lemma lor_add_18 a b : a mod 262144 = 0 -> 0 <= b < 262144 -> Z.lor a b = a + b.
Proof. apply (lor_disjoint_add 18). lia. Qed.

Lemma land_maskx b : Z.land b maskx = b mod 64.
Proof. apply (Z.land_ones b 6). lia. Qed.
Lemma land_mask2 b : Z.land b mask2 = b mod 32.
Proof. apply (Z.land_ones b 5). lia. Qed.
Lemma land_mask3 b : Z.land b mask3 = b mod 16.
Proof. apply (Z.land_ones b 4). lia. Qed.
Lemma land_mask4 b : Z.land b mask4 = b mod 8.
Proof. apply (Z.land_ones b 3). lia. Qed.
Lemma shiftl_6 x : Z.shiftl x 6 = x * 64.
Proof. apply (Z.shiftl_mul_pow2 x 6). lia. Qed.
Lemma shiftl_12 x : Z.shiftl x 12 = x * 4096.
Proof. apply (Z.shiftl_mul_pow2 x 12). lia. Qed.
Lemma shiftl_18 x : Z.shiftl x 18 = x * 262144.
Proof. apply (Z.shiftl_mul_pow2 x 18). lia. Qed.
Lemma shiftr_6 x : Z.shiftr x 6 = x / 64.
Proof. apply (Z.shiftr_div_pow2 x 6). lia. Qed.
Lemma shiftr_12 x : Z.shiftr x 12 = x / 4096.
Proof. apply (Z.shiftr_div_pow2 x 12). lia. Qed.
Lemma shiftr_18 x : Z.shiftr x 18 = x / 262144.
Proof. apply (Z.shiftr_div_pow2 x 18). lia. Qed.

Ltac bits_to_arith :=
  rewrite ?land_maskx, ?land_mask2, ?land_mask3, ?land_mask4,
          ?shiftl_6, ?shiftl_12, ?shiftl_18, ?shiftr_6, ?shiftr_12, ?shiftr_18.

(** The rune assembled from two, three and four bytes. *)
Lemma assemble2 b0 b1 :
  Z.lor (Z.shiftl (Z.land b0 mask2) 6) (Z.land b1 maskx)
  = b0 mod 32 * 64 + b1 mod 64.
Proof. bits_to_arith. apply lor_add_6; zdm. Qed.

Lemma assemble3 b0 b1 b2 :
  Z.lor (Z.lor (Z.shiftl (Z.land b0 mask3) 12) (Z.shiftl (Z.land b1 maskx) 6))
        (Z.land b2 maskx)
  = b0 mod 16 * 4096 + b1 mod 64 * 64 + b2 mod 64.
Proof.
  bits_to_arith. rewrite (lor_add_12 (_ * 4096)) by zdm. apply lor_add_6; zdm.
Qed.

Lemma assemble4 b0 b1 b2 b3 :
  Z.lor (Z.lor (Z.lor (Z.shiftl (Z.land b0 mask4) 18)
                      (Z.shiftl (Z.land b1 maskx) 12))
               (Z.shiftl (Z.land b2 maskx) 6))
        (Z.land b3 maskx)
  = b0 mod 8 * 262144 + b1 mod 64 * 4096 + b2 mod 64 * 64 + b3 mod 64.
Proof.
  bits_to_arith. rewrite (lor_add_18 (_ * 262144)) by zdm.
  rewrite (lor_add_12 (_ + _ * 4096)) by zdm. apply lor_add_6; zdm.
Qed.

(** The bytes that [encoderune] writes. *)
Lemma cont_byte x : Z.lor tx (Z.land (x mod 256) maskx) = 128 + x mod 64.
Proof. bits_to_arith. unfold tx. rewrite lor_add_6 by zdm. zdm. Qed.

Lemma lead2_byte x : 0 <= x < 32 -> Z.lor t2 (x mod 256) = 192 + x.
Proof. intros. unfold t2. rewrite lor_add_5 by zdm. zdm. Qed.

Lemma lead3_byte x : 0 <= x < 16 -> Z.lor t3 (x mod 256) = 224 + x.
Proof. intros. unfold t3. rewrite lor_add_4 by zdm. zdm. Qed.

Lemma lead4_byte x : 0 <= x < 8 -> Z.lor t4 (x mod 256) = 240 + x.
Proof. intros. unfold t4. rewrite lor_add_3 by zdm. zdm. Qed.

End BitFacts.

Module UTF8Facts.
Import UTF8 BitFacts.

Ltac consts :=
  unfold is_cont, tail_byte, runeError, runeSelf, maxRune, surrogateMin,
    surrogateMax, rune1Max, rune2Max, rune3Max, locb, hicb in *.

Ltac leads := unfold t2, t3, t4, t5 in *.

(** Decide the conditions of the conditionals in the goal. *)
Ltac decide_ifs :=
  repeat match goal with
  | |- context [if ?c then _ else _] =>
    first [ replace c with true by (symmetry; lia)
          | replace c with false by (symmetry; lia) ]
  end.

(** *** [encoderune] by length *)

Lemma encoderune_1 r : 0 <= r <= 0x7F -> encoderune r = chr r.
Proof.
  intros H. unfold encoderune. rewrite Z.mod_small by lia.
  consts. decide_ifs. reflexivity.
Qed.

Lemma encoderune_2 r :
  0x80 <= r <= 0x7FF ->
  encoderune r = String (to_byte (192 + r / 64)) (chr (128 + r mod 64)).
Proof.
  intros H. unfold encoderune. rewrite Z.mod_small by lia.
  consts. decide_ifs.
  rewrite cont_byte, shiftr_6, lead2_byte by zdm. reflexivity.
Qed.

Lemma encoderune_3 r :
  0x800 <= r <= 0xFFFF -> ~ (0xD800 <= r <= 0xDFFF) ->
  encoderune r
  = String (to_byte (224 + r / 4096))
      (String (to_byte (128 + r / 64 mod 64)) (chr (128 + r mod 64))).
Proof.
  intros H Hs. unfold encoderune. rewrite Z.mod_small by lia.
  consts. decide_ifs.
  rewrite !cont_byte, shiftr_12, shiftr_6, lead3_byte by zdm. reflexivity.
Qed.

Lemma encoderune_4 r :
  0x10000 <= r <= 0x10FFFF ->
  encoderune r
  = String (to_byte (240 + r / 262144))
      (String (to_byte (128 + r / 4096 mod 64))
         (String (to_byte (128 + r / 64 mod 64)) (chr (128 + r mod 64)))).
Proof.
  intros H. unfold encoderune. rewrite Z.mod_small by lia.
  consts. decide_ifs.
  rewrite !cont_byte, shiftr_18, shiftr_12, shiftr_6, lead4_byte by zdm.
  reflexivity.
Qed.

(** *** [decoderune] on the rows of the table *)

Lemma decoderune_2 c0 c1 rest :
  seq2 (byte_val c0) (byte_val c1) = true ->
  decoderune (String c0 (String c1 rest))
  = (byte_val c0 mod 32 * 64 + byte_val c1 mod 64, 2%nat).
Proof.
  unfold seq2, decoderune. rewrite assemble2.
  pose proof (byte_val_range c0). pose proof (byte_val_range c1).
  set (b0 := byte_val c0) in *. set (b1 := byte_val c1) in *.
  intros Hseq. consts. leads.
  assert (127 < b0 mod 32 * 64 + b1 mod 64) by zdm.
  decide_ifs. reflexivity.
Qed.

Lemma decoderune_3 c0 c1 c2 rest :
  seq3 (byte_val c0) (byte_val c1) (byte_val c2) = true ->
  decoderune (String c0 (String c1 (String c2 rest)))
  = (byte_val c0 mod 16 * 4096 + byte_val c1 mod 64 * 64 + byte_val c2 mod 64,
     3%nat).
Proof.
  unfold seq3, decoderune. rewrite assemble3.
  pose proof (byte_val_range c0). pose proof (byte_val_range c1).
  pose proof (byte_val_range c2).
  set (b0 := byte_val c0) in *. set (b1 := byte_val c1) in *.
  set (b2 := byte_val c2) in *.
  intros Hseq. consts. leads.
  set (r := b0 mod 16 * 4096 + b1 mod 64 * 64 + b2 mod 64).
  assert (2047 < r /\ ~ (55296 <= r <= 57343)) by (subst r; zdm).
  decide_ifs. reflexivity.
Qed.

Lemma decoderune_4 c0 c1 c2 c3 rest :
  seq4 (byte_val c0) (byte_val c1) (byte_val c2) (byte_val c3) = true ->
  decoderune (String c0 (String c1 (String c2 (String c3 rest))))
  = (byte_val c0 mod 8 * 262144 + byte_val c1 mod 64 * 4096
     + byte_val c2 mod 64 * 64 + byte_val c3 mod 64, 4%nat).
Proof.
  unfold seq4, decoderune. rewrite assemble4.
  pose proof (byte_val_range c0). pose proof (byte_val_range c1).
  pose proof (byte_val_range c2). pose proof (byte_val_range c3).
  set (b0 := byte_val c0) in *. set (b1 := byte_val c1) in *.
  set (b2 := byte_val c2) in *. set (b3 := byte_val c3) in *.
  intros Hseq. consts. leads.
  set (r := b0 mod 8 * 262144 + b1 mod 64 * 4096 + b2 mod 64 * 64 + b3 mod 64).
  assert (65535 < r <= 1114111) by (subst r; zdm).
  decide_ifs. reflexivity.
Qed.

End UTF8Facts.

Module UTF8Round.
Import UTF8 BitFacts UTF8Facts.

(** One iteration over a well-formed string reads a scalar value whose
    encoding is exactly the bytes consumed. *)
Lemma range_step_valid c0 s1 :
  utf8_valid (String c0 s1) = true ->
  exists r rest,
    range_step (String c0 s1) = Some (r, rest)
    /\ is_scalar r = true
    /\ String c0 s1 = encoderune r +:+ rest
    /\ utf8_valid rest = true
    /\ (String.length rest < String.length (String c0 s1))%nat.
Proof.
  intros Hv. cbn [utf8_valid] in Hv. unfold range_step. unfold runeSelf.
  pose proof (byte_val_range c0) as R0.
  destruct (byte_val c0 <? 128) eqn:E0.
  { exists (byte_val c0), s1. split; [reflexivity|].
    split; [unfold is_scalar; consts; lia|].
    rewrite encoderune_1 by lia. unfold chr.
    rewrite (to_byte_val c0) by (apply Z.mod_small; lia).
    repeat split; try assumption. simpl. lia. }
  destruct s1 as [|c1 s2]; [discriminate|].
  pose proof (byte_val_range c1) as R1.
  destruct (seq2 (byte_val c0) (byte_val c1)) eqn:E2.
  { rewrite decoderune_2 by assumption.
    unfold seq2 in E2. consts.
    set (r := byte_val c0 mod 32 * 64 + byte_val c1 mod 64).
    assert (Hr : 128 <= r <= 2047) by (subst r; zdm).
    exists r, s2. split; [reflexivity|].
    split; [unfold is_scalar; consts; lia|].
    rewrite encoderune_2 by lia. unfold chr.
    rewrite (to_byte_val c0), (to_byte_val c1) by (subst r; zdm).
    repeat split; try assumption. simpl. lia. }
  destruct s2 as [|c2 s3]; [discriminate|].
  pose proof (byte_val_range c2) as R2.
  destruct (seq3 (byte_val c0) (byte_val c1) (byte_val c2)) eqn:E3.
  { rewrite decoderune_3 by assumption.
    unfold seq3 in E3. consts.
    set (r := byte_val c0 mod 16 * 4096 + byte_val c1 mod 64 * 64
              + byte_val c2 mod 64).
    assert (Hr : 2048 <= r <= 65535 /\ ~ (55296 <= r <= 57343))
      by (subst r; zdm).
    exists r, s3. split; [reflexivity|].
    split; [unfold is_scalar; consts; lia|].
    rewrite encoderune_3 by lia. unfold chr.
    rewrite (to_byte_val c0), (to_byte_val c1), (to_byte_val c2)
      by (subst r; zdm).
    repeat split; try assumption. simpl. lia. }
  destruct s3 as [|c3 s4]; [discriminate|].
  pose proof (byte_val_range c3) as R3.
  apply andb_true_iff in Hv. destruct Hv as [E4 Hv].
  rewrite decoderune_4 by assumption.
  unfold seq4 in E4. consts.
  set (r := byte_val c0 mod 8 * 262144 + byte_val c1 mod 64 * 4096
            + byte_val c2 mod 64 * 64 + byte_val c3 mod 64).
  assert (Hr : 65536 <= r <= 1114111) by (subst r; zdm).
  exists r, s4. split; [reflexivity|].
  split; [unfold is_scalar; consts; lia|].
  rewrite encoderune_4 by lia. unfold chr.
  rewrite (to_byte_val c0), (to_byte_val c1), (to_byte_val c2),
    (to_byte_val c3) by (subst r; zdm).
  repeat split; try assumption. simpl. lia.
Qed.

(** The loop over a well-formed string: the runes are scalar values and
    their encodings, concatenated, give the string back. *)
Lemma range_runes_valid fuel : forall s,
  (String.length s <= fuel)%nat -> utf8_valid s = true ->
  Forall (fun r => is_scalar r = true) (range_runes fuel s)
  /\ Spec.encode_all (range_runes fuel s) = s.
Proof.
  induction fuel as [|fuel IH]; intros s Hlen Hv.
  - destruct s; [|simpl in Hlen; lia]. split; [constructor | reflexivity].
  - destruct s as [|c0 s1]; [split; [constructor | reflexivity]|].
    destruct (range_step_valid c0 s1 Hv) as (r & rest & Hstep & Hr & Hs & Hvr & Hl).
    cbn [range_runes]. rewrite Hstep.
    destruct (IH rest) as [IH1 IH2]; [simpl in *; lia | assumption |].
    split; [constructor; assumption|].
    unfold Spec.encode_all in *. cbn [List.map concat].
    rewrite IH2. symmetry. exact Hs.
Qed.

Lemma runes_of_string_valid s :
  utf8_valid s = true ->
  Forall (fun r => is_scalar r = true) (runes_of_string s)
  /\ Spec.encode_all (runes_of_string s) = s.
Proof. intros Hv. apply range_runes_valid; [lia | assumption]. Qed.

End UTF8Round.

Module UTF8Encode.
Import UTF8 BitFacts UTF8Facts UTF8Round.

Lemma scalar_cases r :
  is_scalar r = true ->
  0 <= r <= 0x7F \/ 0x80 <= r <= 0x7FF
  \/ (0x800 <= r <= 0xFFFF /\ ~ (0xD800 <= r <= 0xDFFF))
  \/ 0x10000 <= r <= 0x10FFFF.
Proof. unfold is_scalar. consts. lia. Qed.

(** The encoding of a scalar value is read back as that value, whatever
    follows it, and is a well-formed sequence. *)
Lemma range_step_encoderune r rest :
  is_scalar r = true ->
  range_step (encoderune r +:+ rest) = Some (r, rest)
  /\ utf8_valid (encoderune r +:+ rest) = utf8_valid rest.
Proof.
  intros Hs. destruct (scalar_cases r Hs) as [H|[H|[[H Hn]|H]]].
  - rewrite encoderune_1 by lia. unfold chr. rewrite !append_cons, append_nil_l.
    unfold range_step. cbn [utf8_valid]. rewrite byte_val_to_byte.
    rewrite Z.mod_small by lia. consts. decide_ifs. split; reflexivity.
  - rewrite encoderune_2 by lia. unfold chr. rewrite !append_cons, append_nil_l.
    assert (Hq : seq2 (byte_val (to_byte (192 + r / 64)))
                      (byte_val (to_byte (128 + r mod 64))) = true).
    { rewrite !byte_val_to_byte. unfold seq2. consts. zdm. }
    unfold range_step. cbn [utf8_valid]. rewrite decoderune_2, Hq by exact Hq.
    rewrite !byte_val_to_byte. consts.
    replace (_ <? 128) with false by (symmetry; zdm).
    split; [|reflexivity]. cbn [drop_bytes]. do 2 f_equal. zdm.
  - rewrite encoderune_3 by lia. unfold chr. rewrite !append_cons, append_nil_l.
    assert (Hq : seq3 (byte_val (to_byte (224 + r / 4096)))
                      (byte_val (to_byte (128 + r / 64 mod 64)))
                      (byte_val (to_byte (128 + r mod 64))) = true).
    { rewrite !byte_val_to_byte. unfold seq3. consts. zdm. }
    assert (Hp : seq2 (byte_val (to_byte (224 + r / 4096)))
                      (byte_val (to_byte (128 + r / 64 mod 64))) = false).
    { rewrite !byte_val_to_byte. unfold seq2. consts. zdm. }
    unfold range_step. cbn [utf8_valid]. rewrite decoderune_3, Hp, Hq by exact Hq.
    rewrite !byte_val_to_byte. consts.
    replace (_ <? 128) with false by (symmetry; zdm).
    split; [|reflexivity]. cbn [drop_bytes]. do 2 f_equal. zdm.
  - rewrite encoderune_4 by lia. unfold chr. rewrite !append_cons, append_nil_l.
    assert (Hq : seq4 (byte_val (to_byte (240 + r / 262144)))
                      (byte_val (to_byte (128 + r / 4096 mod 64)))
                      (byte_val (to_byte (128 + r / 64 mod 64)))
                      (byte_val (to_byte (128 + r mod 64))) = true).
    { rewrite !byte_val_to_byte. unfold seq4. consts. zdm. }
    assert (Hp : seq2 (byte_val (to_byte (240 + r / 262144)))
                      (byte_val (to_byte (128 + r / 4096 mod 64))) = false).
    { rewrite !byte_val_to_byte. unfold seq2. consts. zdm. }
    assert (Hp3 : seq3 (byte_val (to_byte (240 + r / 262144)))
                       (byte_val (to_byte (128 + r / 4096 mod 64)))
                       (byte_val (to_byte (128 + r / 64 mod 64))) = false).
    { rewrite !byte_val_to_byte. unfold seq3. consts. zdm. }
    unfold range_step. cbn [utf8_valid].
    rewrite decoderune_4, Hp, Hp3, Hq by exact Hq.
    rewrite !byte_val_to_byte. consts.
    replace (_ <? 128) with false by (symmetry; zdm).
    split; [|reflexivity]. cbn [drop_bytes]. do 2 f_equal. zdm.
Qed.

Lemma encoderune_length r : (1 <= String.length (encoderune r))%nat.
Proof.
  unfold encoderune, chr.
  repeat match goal with
  | |- context [if ?c then _ else _] => destruct c
  end; simpl; lia.
Qed.

(** Every sequence of scalar values is read back from its encoding, and
    its encoding is well formed. *)
Lemma range_runes_encode_all rs : forall fuel,
  Forall (fun r => is_scalar r = true) rs ->
  (String.length (Spec.encode_all rs) <= fuel)%nat ->
  range_runes fuel (Spec.encode_all rs) = rs
  /\ utf8_valid (Spec.encode_all rs) = true.
Proof.
  unfold Spec.encode_all.
  induction rs as [|r rs IH]; intros fuel Hall Hlen.
  - split; [|reflexivity]. destruct fuel; reflexivity.
  - inversion Hall as [|? ? Hr Hrs]; subst.
    cbn [List.map concat] in *.
    destruct (range_step_encoderune r (concat (List.map encoderune rs)) Hr)
      as [Hstep Hval].
    rewrite length_append in Hlen. pose proof (encoderune_length r).
    destruct fuel as [|fuel]; [lia|].
    destruct (IH fuel Hrs) as [IH1 IH2]; [lia|].
    cbn [range_runes]. rewrite Hstep, IH1, Hval. split; [reflexivity | exact IH2].
Qed.

Lemma runes_of_string_encode_all rs :
  Forall (fun r => is_scalar r = true) rs ->
  runes_of_string (Spec.encode_all rs) = rs
  /\ utf8_valid (Spec.encode_all rs) = true.
Proof. intros H. apply range_runes_encode_all; [assumption | lia]. Qed.

(** A single scalar value. *)
Lemma runes_of_string_encoderune r :
  is_scalar r = true ->
  runes_of_string (encoderune r) = [r] /\ utf8_valid (encoderune r) = true.
Proof.
  intros Hr.
  destruct (runes_of_string_encode_all [r]) as [H1 H2].
  { constructor; [assumption | constructor]. }
  unfold Spec.encode_all in *. cbn [List.map concat] in *.
  rewrite append_nil_r in *. split; assumption.
Qed.

(** Well-formed strings are the encodings of sequences of scalar values. *)
Lemma utf8_valid_iff s :
  utf8_valid s = true
  <-> exists points,
        Forall (fun r => is_scalar r = true) points
        /\ s = Spec.encode_all points.
Proof.
  split.
  - intros Hv. exists (runes_of_string s).
    destruct (runes_of_string_valid s Hv) as [H1 H2]. split; [exact H1 | now symmetry].
  - intros (points & Hp & ->). now apply runes_of_string_encode_all.
Qed.

End UTF8Encode.

(** ** The response writer *)

Module WriterFacts.
Import HTTP.

Lemma Log_WriteHeader code w : Log (WriteHeader code w) = Log w.
Proof. unfold WriteHeader. destruct (Status w); reflexivity. Qed.

Lemma RespHeader_WriteHeader code w :
  RespHeader (WriteHeader code w) = RespHeader w.
Proof. unfold WriteHeader. destruct (Status w); reflexivity. Qed.

Lemma Log_Write p w : Log (Write p w) = Log w ++ [OpWrite p].
Proof. unfold Write. cbn [Log]. now rewrite Log_WriteHeader. Qed.

Lemma Log_Flush w : Log (Flush w) = Log w ++ [OpFlush].
Proof. unfold Flush. cbn [Log]. now rewrite Log_WriteHeader. Qed.

Lemma Log_SetHeader k v w : Log (SetHeader k v w) = Log w.
Proof. reflexivity. Qed.

Lemma Log_Encode ff enc v w :
  Log (Encoder.Encode ff enc v w)
  = Log w ++ [OpWrite (JSON.marshal ff (Encoder.escapeHTML enc) v +:+ LF)].
Proof. unfold Encoder.Encode. apply Log_Write. Qed.

Lemma RespHeader_Write p w : RespHeader (Write p w) = RespHeader w.
Proof. unfold Write. cbn [RespHeader]. now rewrite RespHeader_WriteHeader. Qed.

Lemma RespHeader_Flush w : RespHeader (Flush w) = RespHeader w.
Proof. unfold Flush. cbn [RespHeader]. now rewrite RespHeader_WriteHeader. Qed.

Lemma Status_Error msg code w :
  Status w = None -> Status (Error msg code w) = Some code.
Proof.
  intros H. unfold Error, Write, WriteHeader. cbn [Status]. rewrite H.
  reflexivity.
Qed.

Lemma Log_Error msg code w : Log (Error msg code w) = Log w ++ [OpWrite (msg +:+ LF)].
Proof. unfold Error. rewrite Log_Write, Log_WriteHeader. reflexivity. Qed.

Lemma wire_app l1 l2 : wire (l1 ++ l2) = wire l1 +:+ wire l2.
Proof.
  induction l1 as [|[p|] l1 IH]; cbn [wire app]; [reflexivity| |exact IH].
  now rewrite IH, append_assoc.
Qed.

End WriterFacts.

Ltac writer_simpl :=
  repeat first
    [ rewrite WriterFacts.Log_Write in *
    | rewrite WriterFacts.Log_Flush in *
    | rewrite WriterFacts.Log_SetHeader in *
    | rewrite WriterFacts.Log_Encode in * ].

(** ** The streaming branch *)

Section StreamFacts.
Import Spec StreamSpec.

Variable now : nat -> Z.
Variable formatFloat : float64 -> string.

Lemma streamRune_spec resp st r :
  let st' := streamRune now formatFloat resp st r in
  HTTP.Log (writer st')
  = HTTP.Log (writer st)
    ++ frame_ops formatFloat (EventFrame (contentEvent resp (now (clock st)) r) LF true)
  /\ clock st' = S (clock st)
  /\ calls st' = calls st
  /\ logged st' = logged st.
Proof.
  unfold streamRune, timeNow, on_writer. cbn [writer clock calls logged frame_ops].
  writer_simpl. cbn [Encoder.escapeHTML Encoder.SetEscapeHTML].
  rewrite <- ?app_assoc. repeat split.
Qed.

Lemma fold_streamRune_spec resp runes : forall st,
  let st' := fold_left (streamRune now formatFloat resp) runes st in
  HTTP.Log (writer st')
  = HTTP.Log (writer st)
    ++ flat_map (frame_ops formatFloat) (content_frames now resp (clock st) runes)
  /\ clock st' = (clock st + length runes)%nat
  /\ calls st' = calls st
  /\ logged st' = logged st.
Proof.
  induction runes as [|r runes IH]; intros st.
  - cbn. rewrite app_nil_r. repeat split. lia.
  - cbn [fold_left content_frames flat_map length].
    destruct (streamRune_spec resp st r) as (L1 & C1 & B1 & G1).
    destruct (IH (streamRune now formatFloat resp st r)) as (L2 & C2 & B2 & G2).
    cbv zeta in *. rewrite L2, L1, C1, C2, B2, B1, G2, G1, <- app_assoc.
    repeat split. lia.
Qed.

(** The streaming branch over a response whose first choice holds a string:
    it returns, and what it adds to the writer are the expected frames. *)
Lemma streamChatCompletion_spec resp c rest s st :
  OpenAIResponse.Choices resp = c :: rest ->
  Message.Content (Choice.Message c) = VString s ->
  exists st',
    streamChatCompletion now formatFloat resp st = Return st'
    /\ HTTP.Log (writer st')
       = HTTP.Log (writer st)
         ++ flat_map (frame_ops formatFloat)
              (stream_frames now resp (clock st) (UTF8.runes_of_string s))
    /\ calls st' = calls st
    /\ logged st' = logged st.
Proof.
  intros HC Hs. unfold streamChatCompletion. rewrite HC, Hs.
  unfold timeNow. cbn [on_writer writer clock calls logged].
  eexists. split; [reflexivity|].
  cbn [on_writer writer clock calls logged].
  set (runes := UTF8.runes_of_string s).
  match goal with
  | |- context [fold_left ?f runes ?st0] =>
    destruct (fold_streamRune_spec resp runes st0) as (L & C & B & G);
    set (stR := fold_left f runes st0) in *
  end.
  cbv zeta in *. cbn [on_writer writer clock calls logged] in *.
  writer_simpl. cbn [Encoder.escapeHTML Encoder.SetEscapeHTML] in *.
  rewrite L, C, B, G. 
  unfold stream_frames. rewrite !flat_map_app. cbn [flat_map frame_ops].
  rewrite <- !app_assoc. cbn [app].
  replace (S (clock st) + length runes)%nat with (clock st + 1 + length runes)%nat by lia.
  repeat split.
Qed.

End StreamFacts.

(** ** The response translator *)

Module TranslatorFacts.
Import Spec.

Lemma last_cons {A} (x : A) l d : List.last (x :: l) d = List.last l x.
Proof.
  revert x d. induction l as [|y l IH]; intros x d; [reflexivity|].
  change (List.last (x :: y :: l) d) with (List.last (y :: l) d).
  rewrite (IH y d), (IH y x). reflexivity.
Qed.

Lemma last_app {A} (l1 l2 : list A) d :
  List.last (l1 ++ l2) d = List.last l2 (List.last l1 d).
Proof.
  revert d. induction l1 as [|x l1 IH]; intros d; [reflexivity|].
  cbn [app]. rewrite !last_cons. apply IH.
Qed.

(** The inner loop keeps the text of the last item of the wanted type. *)
Lemma scanContent_last type content : forall found,
  scanContent type content found
  = List.last
      (List.map CloudflareContentItem.Text
         (List.filter
            (fun c => String.eqb (CloudflareContentItem.Type_ c) type) content))
      found.
Proof.
  unfold scanContent.
  induction content as [|c content IH]; intros found; [reflexivity|].
  cbn [fold_left List.filter]. rewrite IH.
  destruct (String.eqb (CloudflareContentItem.Type_ c) type); [|reflexivity].
  cbn [List.map]. now rewrite last_cons.
Qed.

Lemma scanOutput_from output : forall r0 a0,
  fold_left
    (fun '(reasoningText, assistantMessage) output =>
       let reasoningText :=
         if String.eqb (CloudflareOutputItem.Type_ output) "reasoning"
         then scanContent "reasoning_text"
                (CloudflareOutputItem.Content output) reasoningText
         else reasoningText in
       let assistantMessage :=
         if String.eqb (CloudflareOutputItem.Type_ output) "message"
            && String.eqb (CloudflareOutputItem.Role output) "assistant"
         then scanContent "output_text"
                (CloudflareOutputItem.Content output) assistantMessage
         else assistantMessage in
       (reasoningText, assistantMessage))
    output (r0, a0)
  = (List.last (reasoning_texts output) r0, List.last (assistant_texts output) a0).
Proof.
  induction output as [|o output IH]; intros r0 a0; [reflexivity|].
  cbn [fold_left]. cbv zeta. rewrite IH.
  unfold reasoning_texts, assistant_texts. cbn [flat_map].
  rewrite !last_app, !scanContent_last.
  destruct (String.eqb (CloudflareOutputItem.Type_ o) "reasoning");
    destruct (String.eqb (CloudflareOutputItem.Type_ o) "message"
              && String.eqb (CloudflareOutputItem.Role o) "assistant");
    reflexivity.
Qed.

(** The outer loop computes the two extracted texts. *)
Lemma scanOutput_spec r :
  scanOutput (CloudflareResponse.Output r) = (reasoning_text r, assistant_text r).
Proof. apply scanOutput_from. Qed.

Lemma assistant_texts_none output :
  forallb (fun o => negb (is_assistant_message o)) output = true ->
  assistant_texts output = [].
Proof.
  unfold assistant_texts, is_assistant_message.
  induction output as [|o output IH]; [reflexivity|].
  cbn [forallb flat_map]. intros H. apply andb_true_iff in H. destruct H as [H1 H2].
  apply negb_true_iff in H1. rewrite H1, IH by assumption. reflexivity.
Qed.

Lemma convertToOpenAIResponse_choices r :
  OpenAIResponse.Choices (convertToOpenAIResponse r)
  = [Choice.mk 0
       (Message.mk "assistant"
          (VString (compose (reasoning_text r) (assistant_text r))))
       "stop"].
Proof.
  unfold convertToOpenAIResponse. rewrite scanOutput_spec.
  cbn [OpenAIResponse.Choices]. unfold compose.
  destruct (reasoning_text r) as [|c s]; [reflexivity|].
  cbn [String.eqb negb]. rewrite append_nil_l, !append_assoc. reflexivity.
Qed.

Lemma reasoning_texts_app l1 l2 :
  reasoning_texts (l1 ++ l2) = reasoning_texts l1 ++ reasoning_texts l2.
Proof. unfold reasoning_texts. apply flat_map_app. Qed.

Lemma assistant_texts_app l1 l2 :
  assistant_texts (l1 ++ l2) = assistant_texts l1 ++ assistant_texts l2.
Proof. unfold assistant_texts. apply flat_map_app. Qed.

Lemma last_nonempty {A} (l : list A) d d' :
  l <> [] -> List.last l d = List.last l d'.
Proof.
  destruct l as [|x l]; [congruence|]. intros _. now rewrite !last_cons.
Qed.

(** The last text is that of the last item that holds one. *)
Lemma last_of_last_item {A}
    (texts : list A -> list string) (before : list A) item after :
  (forall l1 l2, texts (l1 ++ l2) = texts l1 ++ texts l2) ->
  texts [item] <> [] ->
  texts after = [] ->
  List.last (texts (before ++ item :: after)) EmptyString
  = List.last (texts [item]) EmptyString.
Proof.
  intros Happ Hitem Hafter.
  change (item :: after) with ([item] ++ after).
  rewrite !Happ, Hafter, app_nil_r, last_app.
  now apply last_nonempty.
Qed.

End TranslatorFacts.

(** ** Frames and their kinds *)

Module FrameFacts.
Import Spec StreamSpec.

Lemma event_kind_start resp t : event_kind (startEvent resp t) = Some KStart.
Proof. reflexivity. Qed.

Lemma event_kind_content resp t r :
  event_kind (contentEvent resp t r) = Some (KContent (UTF8.string_of_rune r)).
Proof. reflexivity. Qed.

Lemma event_kind_end resp t :
  event_kind (endEvent resp t) = Some (KEnd (OpenAIResponse.Usage resp)).
Proof. destruct resp as [? ? ? ? ? []]. reflexivity. Qed.

Lemma content_frames_kinds now resp runes : forall k,
  List.map frame_kind (content_frames now resp k runes)
  = List.map (fun r => Some (KContent (UTF8.string_of_rune r))) runes.
Proof.
  induction runes as [|r runes IH]; intros k; [reflexivity|].
  cbn [content_frames List.map frame_kind].
  now rewrite event_kind_content, IH.
Qed.

Lemma content_frames_deltas now resp runes : forall k,
  content_deltas (content_frames now resp k runes)
  = List.map UTF8.string_of_rune runes.
Proof.
  unfold content_deltas.
  induction runes as [|r runes IH]; intros k; [reflexivity|].
  cbn [content_frames flat_map frame_kind List.map].
  now rewrite event_kind_content, IH.
Qed.

Lemma stream_frames_kinds now resp k runes :
  List.map frame_kind (stream_frames now resp k runes)
  = [Some KStart]
    ++ List.map (fun r => Some (KContent (UTF8.string_of_rune r))) runes
    ++ [Some (KEnd (OpenAIResponse.Usage resp)); Some KDone].
Proof.
  unfold stream_frames. rewrite !List.map_app, content_frames_kinds.
  cbn [List.map frame_kind]. now rewrite event_kind_start, event_kind_end.
Qed.

Lemma content_deltas_app l1 l2 :
  content_deltas (l1 ++ l2) = content_deltas l1 ++ content_deltas l2.
Proof. unfold content_deltas. apply flat_map_app. Qed.

Lemma stream_frames_deltas now resp k runes :
  content_deltas (stream_frames now resp k runes)
  = List.map UTF8.string_of_rune runes.
Proof.
  unfold stream_frames. rewrite !content_deltas_app, content_frames_deltas.
  unfold content_deltas. cbn [flat_map frame_kind].
  rewrite event_kind_start, event_kind_end. cbn [app]. apply app_nil_r.
Qed.

End FrameFacts.

(** ** JSON strings without HTML escaping *)

Module JSONFacts.
Import Spec.

Lemma escape_loop_safe s : forall fuel,
  (String.length s <= fuel)%nat -> all_safe s = true ->
  JSON.escape_loop fuel false s = s.
Proof.
  induction s as [|c s IH]; intros fuel Hlen Hs.
  - destruct fuel; reflexivity.
  - destruct fuel as [|fuel]; [simpl in Hlen; lia|].
    cbn [all_safe] in Hs. apply andb_true_iff in Hs. destruct Hs as [Hc Hs].
    cbn [JSON.escape_loop].
    replace (byte_val c <? UTF8.runeSelf) with true
      by (unfold JSON.safeSet, UTF8.runeSelf in *; lia).
    rewrite Hc. cbn [negb andb]. rewrite orb_true_r.
    rewrite IH; [reflexivity | simpl in Hlen; lia | assumption].
Qed.

(** A string of safe characters is written between quotes as it is. *)
Lemma marshal_safe formatFloat s :
  all_safe s = true ->
  JSON.marshal formatFloat false (VString s) = DQUOTE +:+ s +:+ DQUOTE.
Proof.
  intros Hs. cbn [JSON.marshal]. unfold JSON.appendString.
  rewrite escape_loop_safe by (lia || assumption). reflexivity.
Qed.

End JSONFacts.

(** ** The text of the events *)

Module EventFacts.
Import Spec.

Lemma appendString_safe s :
  all_safe s = true -> JSON.appendString false s = quote s.
Proof.
  intros Hs. unfold JSON.appendString, quote.
  rewrite JSONFacts.escape_loop_safe by (lia || assumption). reflexivity.
Qed.

(** Unfold the encoder on a map literal: sort its keys, then quote them. *)
Ltac encode_literal :=
  cbn -[JSON.appendString JSON.formatInt];
  repeat (match goal with
          | |- context [String.leb ?a ?b] =>
            let v := eval vm_compute in (String.leb a b) in
            change (String.leb a b) with v
          end; cbn -[JSON.appendString JSON.formatInt]);
  repeat match goal with
         | |- context [JSON.appendString false ?k] =>
           rewrite (appendString_safe k) by reflexivity
         end;
  unfold JSON.member, chunk_json, usage_json; cbn [fst snd];
  rewrite ?append_assoc.

Section Events.
Variable formatFloat : float64 -> string.
Variable resp : OpenAIResponse.t.
Variable created : Z.

Lemma startEvent_json :
  JSON.marshal formatFloat false (startEvent resp created)
  = chunk_json ("{" +:+ quote "role" +:+ ":" +:+ quote "assistant" +:+ "}")
      "null" (JSON.formatInt created)
      (JSON.appendString false (OpenAIResponse.ID resp))
      (JSON.appendString false (OpenAIResponse.Model resp)) "".
Proof. encode_literal. reflexivity. Qed.

Lemma contentEvent_json r :
  JSON.marshal formatFloat false (contentEvent resp created r)
  = chunk_json
      ("{" +:+ quote "content" +:+ ":"
       +:+ JSON.appendString false (UTF8.string_of_rune r) +:+ "}")
      "null" (JSON.formatInt created)
      (JSON.appendString false (OpenAIResponse.ID resp))
      (JSON.appendString false (OpenAIResponse.Model resp)) "".
Proof. encode_literal. reflexivity. Qed.

Lemma endEvent_json :
  JSON.marshal formatFloat false (endEvent resp created)
  = chunk_json "{}" (quote "stop") (JSON.formatInt created)
      (JSON.appendString false (OpenAIResponse.ID resp))
      (JSON.appendString false (OpenAIResponse.Model resp))
      (usage_json (OpenAIResponse.Usage resp)).
Proof. encode_literal. reflexivity. Qed.

(** A safe ASCII character, [<] and [>] among them, is a rune whose text
    is written as it is. *)
Lemma safe_rune_json r :
  JSON.safeSet r = true ->
  JSON.appendString false (UTF8.string_of_rune r) = quote (chr r).
Proof.
  intros Hr. unfold UTF8.string_of_rune.
  assert (Hb : 32 <= r < 128) by (unfold JSON.safeSet in Hr; lia).
  rewrite UTF8Facts.encoderune_1 by lia.
  apply appendString_safe. unfold chr. cbn [all_safe].
  rewrite byte_val_to_byte, Z.mod_small by lia. now rewrite Hr.
Qed.

End Events.
End EventFacts.

Section HandlerFacts.
Import Spec StreamSpec.

Variable config : Config.t.
Variable now : nat -> Z.
Variable formatFloat : float64 -> string.
Variable unmarshalOpenAIRequest : string -> string + OpenAIRequest.t.
Variable unmarshalCloudflareResponse : string -> string + CloudflareResponse.t.
Variable urlParse : string -> bool.
Variable clientDo : HTTP.ClientRequest -> string + (Z * string).

(** When the URL parses, the backend client sends the request it has built
    and returns what the answer gives. *)
Lemma callCloudflareAPI_built req st :
  urlParse (backendURL config) = true ->
  callCloudflareAPI config formatFloat unmarshalCloudflareResponse urlParse
    clientDo req st
  = Some (responseResults unmarshalCloudflareResponse
            (clientDo (backendRequest config formatFloat req)),
          mkState (writer st) (clock st)
            (calls st ++ [backendRequest config formatFloat req])
            (logged st)).
Proof.
  intros Hurl. unfold callCloudflareAPI, HTTP.NewRequestWithContext.
  rewrite Hurl. reflexivity.
Qed.

(** When it does not, the backend client panics before it sends anything. *)
Lemma callCloudflareAPI_unbuilt req st :
  urlParse (backendURL config) = false ->
  callCloudflareAPI config formatFloat unmarshalCloudflareResponse urlParse
    clientDo req st
  = None.
Proof.
  intros Hurl. unfold callCloudflareAPI, HTTP.NewRequestWithContext.
  rewrite Hurl. reflexivity.
Qed.

(** The results hold a response exactly when they hold no error. *)
Lemma responseResults_result_or_error outcome :
  match responseResults unmarshalCloudflareResponse outcome with
  | (Some _, _, None) | (None, _, Some _) => True
  | _ => False
  end.
Proof.
  unfold responseResults.
  destruct outcome as [err|[status body]]; [exact I|].
  destruct (negb (status =? HTTP.StatusOK)); [exact I|].
  destruct (unmarshalCloudflareResponse body); exact I.
Qed.

(** A request that passes the guards, asks for a stream and gets a result
    from the backend is answered by the streaming branch. *)
Lemma handleChatCompletions_stream r st openaiReq status body cfResp :
  authorizeClient config r = true ->
  HTTP.Method r = HTTP.MethodPost ->
  unmarshalOpenAIRequest (HTTP.Body r) = inr openaiReq ->
  OpenAIRequest.Stream openaiReq = true ->
  urlParse (backendURL config) = true ->
  clientDo (backendRequest config formatFloat
              (convertToCloudflareRequest config openaiReq))
  = inr (status, body) ->
  status = HTTP.StatusOK ->
  unmarshalCloudflareResponse body = inr cfResp ->
  exists st0,
    handleChatCompletions config now formatFloat unmarshalOpenAIRequest
      unmarshalCloudflareResponse urlParse clientDo r st
    = streamChatCompletion now formatFloat (convertToOpenAIResponse cfResp) st0
    /\ writer st0 = writer st /\ clock st0 = clock st.
Proof.
  intros Hauth Hm Hreq Hstream Hurl Hdo -> Hresp.
  unfold handleChatCompletions.
  rewrite Hauth, Hm, Hreq. cbn [negb]. rewrite String.eqb_refl. cbn [negb].
  rewrite callCloudflareAPI_built by exact Hurl.
  unfold responseResults. rewrite Hdo, Z.eqb_refl. cbn [negb].
  rewrite Hresp, Hstream.
  eexists. split; [reflexivity|]. split; reflexivity.
Qed.

(** The chat-completions handler returns whenever the URL of the backend
    parses. *)
Lemma handleChatCompletions_returns r st :
  urlParse (backendURL config) = true ->
  exists st',
    handleChatCompletions config now formatFloat unmarshalOpenAIRequest
      unmarshalCloudflareResponse urlParse clientDo r st = Return st'.
Proof.
  intros Hurl. unfold handleChatCompletions.
  destruct (negb (authorizeClient config r)); [eexists; reflexivity|].
  destruct (negb (String.eqb (HTTP.Method r) HTTP.MethodPost));
    [eexists; reflexivity|].
  destruct (unmarshalOpenAIRequest (HTTP.Body r)) as [err|openaiReq];
    [eexists; reflexivity|].
  rewrite callCloudflareAPI_built by exact Hurl.
  pose proof (responseResults_result_or_error
                (clientDo (backendRequest config formatFloat
                             (convertToCloudflareRequest config openaiReq))))
    as Hres.
  destruct (responseResults _ _) as [[cfResp raw] err].
  destruct err as [err|]; [eexists; reflexivity|].
  destruct cfResp as [cfResp|]; [|contradiction].
  destruct (OpenAIRequest.Stream openaiReq); [|eexists; reflexivity].
  pose proof (TranslatorFacts.convertToOpenAIResponse_choices cfResp) as HC.
  match goal with
  | |- context [streamChatCompletion _ _ _ ?st0] =>
    destruct (streamChatCompletion_spec now formatFloat _ _ _ _ st0 HC eq_refl)
      as (st' & Hret & _)
  end.
  exists st'. exact Hret.
Qed.

(** When the URL does not parse, a request that reaches the backend client
    makes the handler panic, with nothing written and nothing sent. *)
Lemma handleChatCompletions_panics r st openaiReq :
  authorizeClient config r = true ->
  HTTP.Method r = HTTP.MethodPost ->
  unmarshalOpenAIRequest (HTTP.Body r) = inr openaiReq ->
  urlParse (backendURL config) = false ->
  handleChatCompletions config now formatFloat unmarshalOpenAIRequest
    unmarshalCloudflareResponse urlParse clientDo r st
  = Panic (log_Printf ("用户请求 JSON: " +:+ HTTP.Body r) st).
Proof.
  intros Hauth Hm Hreq Hurl. unfold handleChatCompletions.
  rewrite Hauth, Hm, Hreq. cbn [negb]. rewrite String.eqb_refl. cbn [negb].
  now rewrite callCloudflareAPI_unbuilt by exact Hurl.
Qed.

(** A panic of the handler is the one of the backend client: the URL does
    not parse, the request has passed the guards and has been logged, and
    nothing else has happened. *)
Lemma handleChatCompletions_panic_inv r st st' :
  handleChatCompletions config now formatFloat unmarshalOpenAIRequest
    unmarshalCloudflareResponse urlParse clientDo r st
  = Panic st' ->
  urlParse (backendURL config) = false
  /\ authorizeClient config r = true
  /\ HTTP.Method r = HTTP.MethodPost
  /\ (exists openaiReq, unmarshalOpenAIRequest (HTTP.Body r) = inr openaiReq)
  /\ st' = log_Printf ("用户请求 JSON: " +:+ HTTP.Body r) st.
Proof.
  intros Hp.
  destruct (urlParse (backendURL config)) eqn:Hurl.
  - destruct (handleChatCompletions_returns r st Hurl) as (st1 & Hret).
    congruence.
  - split; [reflexivity|].
    destruct (authorizeClient config r) eqn:Hauth;
      [|unfold handleChatCompletions in Hp; rewrite Hauth in Hp; discriminate].
    destruct (String.eqb (HTTP.Method r) HTTP.MethodPost) eqn:Hm;
      [|unfold handleChatCompletions in Hp; rewrite Hauth, Hm in Hp;
        discriminate].
    apply String.eqb_eq in Hm.
    destruct (unmarshalOpenAIRequest (HTTP.Body r)) as [err|openaiReq] eqn:Hreq.
    + unfold handleChatCompletions in Hp.
      rewrite Hauth, Hm, Hreq in Hp. discriminate.
    + rewrite (handleChatCompletions_panics r st openaiReq Hauth Hm Hreq Hurl)
        in Hp.
      injection Hp as <-. repeat split; try assumption. now exists openaiReq.
Qed.

End HandlerFacts.

(** * Further facts *)

(** ** Runes of arbitrary strings *)

Module RuneFacts.
Import UTF8 BitFacts UTF8Facts Observe.

Ltac split_ifs :=
  repeat match goal with
  | |- context [if ?c then _ else _] => destruct c eqn:?
  end.

(** Whatever the bytes, [decoderune] yields a scalar value and a width
    between 1 and 4 that does not exceed a non-empty string. *)
Lemma decoderune_scalar s :
  is_scalar (fst (decoderune s)) = true
  /\ (1 <= snd (decoderune s) <= 4)%nat
  /\ (snd (decoderune s) <= Nat.max 1 (String.length s))%nat.
Proof.
  unfold decoderune.
  destruct s as [|c0 [|c1 [|c2 [|c3 s]]]]; cbn [String.length];
    rewrite ?assemble2, ?assemble3, ?assemble4;
    repeat match goal with
    | c : ascii |- _ =>
      let H := fresh in pose proof (byte_val_range c) as H;
      generalize dependent (byte_val c); clear c; intros
    end;
    split_ifs; cbn [fst snd]; unfold is_scalar; consts; leads;
    (split; [|lia]);
    try reflexivity; zdm.
Qed.

Lemma length_drop_bytes n : forall s,
  String.length (drop_bytes n s) = (String.length s - n)%nat.
Proof.
  induction n as [|n IH]; intros [|c s]; cbn [drop_bytes String.length];
    try lia. apply IH.
Qed.

(** One iteration reads a scalar value and consumes between one and four
    bytes. *)
Lemma range_step_scalar s r rest :
  range_step s = Some (r, rest) ->
  is_scalar r = true
  /\ (String.length rest < String.length s <= String.length rest + 4)%nat.
Proof.
  unfold range_step. destruct s as [|c0 s1]; [discriminate|].
  pose proof (byte_val_range c0) as R0.
  destruct (byte_val c0 <? runeSelf) eqn:E0.
  - intros [= <- <-]. unfold is_scalar. consts. cbn [String.length].
    split; lia.
  - pose proof (decoderune_scalar (String c0 s1)) as (Hs & Hw & Hl).
    destruct (decoderune (String c0 s1)) as [r' n]. cbn [fst snd] in *.
    intros [= <- <-]. rewrite length_drop_bytes.
    cbn [String.length] in *. split; [exact Hs | lia].
Qed.

(** The loop yields scalar values only, at most one per byte and at least
    one per four bytes. *)
Lemma range_runes_scalar fuel : forall s,
  (String.length s <= fuel)%nat ->
  Forall (fun r => is_scalar r = true) (range_runes fuel s)
  /\ (length (range_runes fuel s) <= String.length s
      <= 4 * length (range_runes fuel s))%nat.
Proof.
  induction fuel as [|fuel IH]; intros s Hlen.
  - destruct s; [|cbn [String.length] in Hlen; lia].
    split; [constructor | cbn; lia].
  - cbn [range_runes]. destruct (range_step s) as [[r rest]|] eqn:Hstep.
    + destruct (range_step_scalar s r rest Hstep) as (Hr & Hl).
      destruct (IH rest) as (IH1 & IH2); [lia|].
      split; [constructor; assumption|]. cbn [length]. lia.
    + destruct s as [|c0 s1].
      * split; [constructor | cbn; lia].
      * unfold range_step in Hstep.
        destruct (byte_val c0 <? runeSelf); [discriminate|].
        destruct (decoderune (String c0 s1)); discriminate.
Qed.

Lemma runes_of_string_scalar s :
  Forall (fun r => is_scalar r = true) (runes_of_string s)
  /\ (length (runes_of_string s) <= String.length s
      <= 4 * length (runes_of_string s))%nat.
Proof. apply range_runes_scalar. lia. Qed.

End RuneFacts.

Module WireFacts.
Import Spec.

Lemma wire_frames formatFloat frames :
  HTTP.wire (flat_map (frame_ops formatFloat) frames)
  = Bytes.concat (List.map (frame_wire formatFloat) frames).
Proof.
  induction frames as [|f frames IH]; [reflexivity|].
  cbn [flat_map List.map Bytes.concat].
  now rewrite WriterFacts.wire_app, IH.
Qed.

End WireFacts.

(** * Properties of the gateway *)

Section Claims.
Import Spec StreamSpec.

Variable config : Config.t.
Variable now : nat -> Z.
Variable formatFloat : float64 -> string.
Variable unmarshalOpenAIRequest : string -> string + OpenAIRequest.t.
Variable unmarshalCloudflareResponse : string -> string + CloudflareResponse.t.
Variable urlParse : string -> bool.
Variable clientDo : HTTP.ClientRequest -> string + (Z * string).

Local Abbreviation handleChat :=
  (handleChatCompletions config now formatFloat unmarshalOpenAIRequest
     unmarshalCloudflareResponse urlParse clientDo).
Local Abbreviation callBackend :=
  (callCloudflareAPI config formatFloat unmarshalCloudflareResponse urlParse
     clientDo).

(** C1 (as amended).  The content of the single choice is the composition
    of the two extracted texts: the reasoning text between [<think>] and
    [</think>], a newline and the assistant text when the reasoning text is
    not empty, the assistant text alone when it is empty.  Item by item:
    the reasoning text is the text of the last [reasoning_text] content
    item of the last reasoning item that holds one, and is empty when no
    reasoning item holds one; likewise the assistant text, which is empty
    when the result has no assistant message item.  In particular, when
    both items exist and that reasoning text is not empty, the content is
    the delimited reasoning text, a newline and that assistant text. *)
Theorem convertToOpenAIResponse_final_content (cfResp : CloudflareResponse.t) :
  let reasoning := reasoning_text cfResp in
  let assistant := assistant_text cfResp in
  let output := CloudflareResponse.Output cfResp in
  exists content,
    final_content (convertToOpenAIResponse cfResp) = Some content
    /\ scanOutput output = (reasoning, assistant)
    /\ (reasoning <> EmptyString ->
        content = "<think>" +:+ reasoning +:+ "</think>" +:+ LF +:+ assistant)
    /\ (reasoning = EmptyString -> content = assistant)
    /\ (forallb (fun o => negb (is_assistant_message o)) output = true ->
        assistant = EmptyString)
    /\ (forall before item after,
          output = before ++ item :: after ->
          is_reasoning_item item = true ->
          reasoning_texts [item] <> [] ->
          reasoning_texts after = [] ->
          reasoning = List.last (reasoning_texts [item]) EmptyString)
    /\ (reasoning_texts output = [] -> reasoning = EmptyString)
    /\ (forall before item after,
          output = before ++ item :: after ->
          is_assistant_message item = true ->
          assistant_texts [item] <> [] ->
          assistant_texts after = [] ->
          assistant = List.last (assistant_texts [item]) EmptyString)
    /\ (assistant_texts output = [] -> assistant = EmptyString)
    /\ (forall before item after before' item' after',
          output = before ++ item :: after ->
          is_reasoning_item item = true ->
          reasoning_texts [item] <> [] ->
          reasoning_texts after = [] ->
          List.last (reasoning_texts [item]) EmptyString <> EmptyString ->
          output = before' ++ item' :: after' ->
          is_assistant_message item' = true ->
          assistant_texts [item'] <> [] ->
          assistant_texts after' = [] ->
          content
          = "<think>" +:+ List.last (reasoning_texts [item]) EmptyString
            +:+ "</think>" +:+ LF
            +:+ List.last (assistant_texts [item']) EmptyString).
Proof.
  intros reasoning assistant output.
  assert (Hr : forall before item after,
             output = before ++ item :: after ->
             reasoning_texts [item] <> [] ->
             reasoning_texts after = [] ->
             reasoning = List.last (reasoning_texts [item]) EmptyString).
  { intros before item after Hout Hitem Hafter.
    subst reasoning. unfold reasoning_text. fold output. rewrite Hout.
    apply (TranslatorFacts.last_of_last_item reasoning_texts);
      [apply TranslatorFacts.reasoning_texts_app | assumption | assumption]. }
  assert (Ha : forall before item after,
             output = before ++ item :: after ->
             assistant_texts [item] <> [] ->
             assistant_texts after = [] ->
             assistant = List.last (assistant_texts [item]) EmptyString).
  { intros before item after Hout Hitem Hafter.
    subst assistant. unfold assistant_text. fold output. rewrite Hout.
    apply (TranslatorFacts.last_of_last_item assistant_texts);
      [apply TranslatorFacts.assistant_texts_app | assumption | assumption]. }
  exists (compose reasoning assistant).
  split; [|split; [|split; [|split; [|split; [|split; [|split; [|split;
    [|split]]]]]]]].
  - unfold final_content.
    rewrite TranslatorFacts.convertToOpenAIResponse_choices. reflexivity.
  - apply TranslatorFacts.scanOutput_spec.
  - intros Hne. unfold compose. destruct reasoning; [congruence | reflexivity].
  - intros ->. reflexivity.
  - intros Hnone. subst assistant. unfold assistant_text.
    fold output. now rewrite TranslatorFacts.assistant_texts_none.
  - intros before item after Hout _. exact (Hr before item after Hout).
  - intros Hnone. subst reasoning. unfold reasoning_text. fold output.
    now rewrite Hnone.
  - intros before item after Hout _. exact (Ha before item after Hout).
  - intros Hnone. subst assistant. unfold assistant_text. fold output.
    now rewrite Hnone.
  - intros before item after before' item' after'
      Hout _ Hitem Hafter Hne Hout' _ Hitem' Hafter'.
    rewrite <- (Hr before item after Hout Hitem Hafter) in *.
    rewrite <- (Ha before' item' after' Hout' Hitem' Hafter').
    unfold compose. destruct reasoning; [congruence | reflexivity].
Qed.

(** C2.  Over a well-formed UTF-8 text the content frames carry, one code
    point per frame and in order, the encodings of the code points of the
    text; every delta is itself well formed and holds one code point, and
    the deltas concatenated give the text back. *)
Theorem stream_content_deltas resp c rest s st :
  OpenAIResponse.Choices resp = c :: rest ->
  Message.Content (Choice.Message c) = VString s ->
  UTF8.utf8_valid s = true ->
  let frames := stream_frames now resp (clock st) (UTF8.runes_of_string s) in
  exists st',
    streamChatCompletion now formatFloat resp st = Return st'
    /\ HTTP.Log (writer st')
       = HTTP.Log (writer st) ++ flat_map (frame_ops formatFloat) frames
    /\ (forall points,
          Forall (fun r => UTF8.is_scalar r = true) points ->
          s = encode_all points ->
          content_deltas frames = List.map UTF8.encoderune points)
    /\ (exists points,
          Forall (fun r => UTF8.is_scalar r = true) points
          /\ s = encode_all points)
    /\ Forall (fun d => UTF8.utf8_valid d = true
                        /\ length (UTF8.runes_of_string d) = 1%nat)
         (content_deltas frames)
    /\ Bytes.concat (content_deltas frames) = s.
Proof.
  intros HC Hs Hv frames.
  destruct (streamChatCompletion_spec now formatFloat resp c rest s st HC Hs)
    as (st' & Hret & Hlog & _).
  destruct (UTF8Round.runes_of_string_valid s Hv) as [Hsc Henc].
  assert (Hd : content_deltas frames
               = List.map UTF8.encoderune (UTF8.runes_of_string s))
    by apply FrameFacts.stream_frames_deltas.
  exists st'. split; [exact Hret|]. split; [exact Hlog|].
  split; [|split; [|split]].
  - intros points Hp ->. rewrite Hd.
    now destruct (UTF8Encode.runes_of_string_encode_all points Hp) as [-> _].
  - exists (UTF8.runes_of_string s). split; [exact Hsc | now symmetry].
  - rewrite Hd. apply List.Forall_map.
    eapply List.Forall_impl; [|exact Hsc]. intros r Hr.
    destruct (UTF8Encode.runes_of_string_encoderune r Hr) as [-> ->].
    split; reflexivity.
  - rewrite Hd. exact Henc.
Qed.

(** C3.  The stream consists of one start frame, one content frame per rune
    of the final text, one end frame carrying the usage of the response and
    the termination sentinel, in that order.  The runes are the characters
    of the text: the code points themselves when the text is the UTF-8
    encoding of a sequence of code points, and in any case scalar values,
    at most one per byte and at least one per four bytes. *)
Theorem stream_frame_sequence resp c rest s st :
  OpenAIResponse.Choices resp = c :: rest ->
  Message.Content (Choice.Message c) = VString s ->
  let runes := UTF8.runes_of_string s in
  let frames := stream_frames now resp (clock st) runes in
  exists st',
    streamChatCompletion now formatFloat resp st = Return st'
    /\ HTTP.Log (writer st')
       = HTTP.Log (writer st) ++ flat_map (frame_ops formatFloat) frames
    /\ List.map frame_kind frames
       = [Some KStart]
         ++ List.map (fun r => Some (KContent (UTF8.string_of_rune r))) runes
         ++ [Some (KEnd (OpenAIResponse.Usage resp)); Some KDone]
    /\ length (content_deltas frames) = length runes
    /\ (forall points,
          Forall (fun r => UTF8.is_scalar r = true) points ->
          s = encode_all points ->
          runes = points
          /\ length (content_deltas frames) = length points)
    /\ Forall (fun r => UTF8.is_scalar r = true) runes
    /\ (length runes <= String.length s <= 4 * length runes)%nat.
Proof.
  intros HC Hs runes frames.
  destruct (streamChatCompletion_spec now formatFloat resp c rest s st HC Hs)
    as (st' & Hret & Hlog & _).
  assert (Hlen : length (content_deltas frames) = length runes).
  { subst frames. rewrite FrameFacts.stream_frames_deltas. apply length_map. }
  destruct (RuneFacts.runes_of_string_scalar s) as [Hsc Hbound].
  exists st'. split; [exact Hret|]. split; [exact Hlog|].
  split; [apply FrameFacts.stream_frames_kinds|].
  split; [exact Hlen|]. split; [|split; assumption].
  intros points Hp Henc. rewrite Hlen. subst runes s.
  destruct (UTF8Encode.runes_of_string_encode_all points Hp) as [-> _].
  split; reflexivity.
Qed.

(** C4.  The backend request carries the configured model, and the model
    named by the caller does not influence the backend request. *)
Theorem convertToCloudflareRequest_model (openaiReq : OpenAIRequest.t) :
  CloudflareRequest.Model (convertToCloudflareRequest config openaiReq)
  = Config.Model config
  /\ forall model,
       convertToCloudflareRequest config
         (OpenAIRequest.mk model
            (OpenAIRequest.Messages openaiReq) (OpenAIRequest.Stream openaiReq)
            (OpenAIRequest.Temperature openaiReq) (OpenAIRequest.TopP openaiReq))
       = convertToCloudflareRequest config openaiReq.
Proof.
  split.
  - unfold convertToCloudflareRequest.
    destruct (OpenAIRequest.Temperature openaiReq),
             (OpenAIRequest.TopP openaiReq); reflexivity.
  - intros model. reflexivity.
Qed.

(** C5 (as amended).  A request with the wrong method is answered 405 when
    it passes the authorization check, and 401 when it does not: the
    authorization check comes first. *)
Theorem wrong_method_status (r : HTTP.Request) (st : State) :
  HTTP.Status (writer st) = None ->
  let code :=
    if authorizeClient config r then HTTP.StatusMethodNotAllowed
    else HTTP.StatusUnauthorized in
  (HTTP.Method r <> HTTP.MethodPost ->
   exists st', handleChat r st = Return st'
               /\ HTTP.Status (writer st') = Some code)
  /\ (HTTP.Method r <> HTTP.MethodGet ->
      exists st', handleModels config now formatFloat r st = Return st'
                  /\ HTTP.Status (writer st') = Some code).
Proof.
  intros Hfresh code. subst code.
  unfold handleChatCompletions, handleModels.
  destruct (authorizeClient config r); cbn [negb].
  - split; intros Hm; apply String.eqb_neq in Hm; rewrite Hm; cbn [negb];
      eexists; (split; [reflexivity|]); cbn [on_writer writer];
      now apply WriterFacts.Status_Error.
  - split; intros _; eexists; (split; [reflexivity|]); cbn [on_writer writer];
      now apply WriterFacts.Status_Error.
Qed.


(** C6 (as amended).  On the wire every event is the bytes [data: ], its
    JSON encoding and the newline that the encoder appends, followed by one
    more newline after the start and content events and by two more after
    the end event; the stream ends with [data: [DONE]] and two newlines.
    The encoders are set not to escape HTML: the content event of a safe
    ASCII character, [<] and [>] among them, holds that character as it
    is, and so does every text made of such characters. *)
Theorem stream_wire_format resp c rest s st :
  OpenAIResponse.Choices resp = c :: rest ->
  Message.Content (Choice.Message c) = VString s ->
  let k := clock st in
  let runes := UTF8.runes_of_string s in
  let json := JSON.marshal formatFloat false in
  exists st',
    streamChatCompletion now formatFloat resp st = Return st'
    /\ HTTP.wire (HTTP.Log (writer st'))
       = HTTP.wire (HTTP.Log (writer st))
         +:+ ("data: " +:+ json (startEvent resp (now k)) +:+ LF +:+ LF)
         +:+ Bytes.concat
               (List.map (frame_wire formatFloat)
                  (content_frames now resp (S k) runes))
         +:+ ("data: " +:+ json (endEvent resp (now (S k + length runes)))
              +:+ LF +:+ LF +:+ LF)
         +:+ ("data: [DONE]" +:+ LF +:+ LF)
    /\ Forall (fun f => exists ev,
                  f = EventFrame ev LF true
                  /\ frame_wire formatFloat f
                     = "data: " +:+ json ev +:+ LF +:+ LF)
         (content_frames now resp (S k) runes)
    /\ (forall t r,
          JSON.safeSet r = true ->
          json (contentEvent resp t r)
          = chunk_json
              ("{" +:+ quote "content" +:+ ":" +:+ quote (chr r) +:+ "}")
              "null" (JSON.formatInt t)
              (JSON.appendString false (OpenAIResponse.ID resp))
              (JSON.appendString false (OpenAIResponse.Model resp)) "")
    /\ JSON.safeSet 60 = true
    /\ JSON.safeSet 62 = true
    /\ (forall text, all_safe text = true -> json (VString text) = quote text).
Proof.
  intros HC Hs k runes json.
  destruct (streamChatCompletion_spec now formatFloat resp c rest s st HC Hs)
    as (st' & Hret & Hlog & _).
  exists st'. split; [exact Hret|].
  split; [|split; [|split; [|split; [|split]]]].
  - rewrite Hlog. unfold stream_frames.
    rewrite !flat_map_app, !WriterFacts.wire_app.
    rewrite (WireFacts.wire_frames formatFloat (content_frames _ _ _ _)).
    cbn [flat_map frame_ops app HTTP.wire].
    rewrite ?append_nil_r, ?append_assoc. reflexivity.
  - generalize (S k). induction runes as [|r runes IH]; intros n;
      cbn [content_frames]; constructor; [|apply IH].
    eexists. split; [reflexivity|].
    unfold frame_wire. cbn [frame_ops app HTTP.wire].
    rewrite ?append_nil_r, ?append_assoc. reflexivity.
  - intros t r Hr. subst json.
    rewrite EventFacts.contentEvent_json, EventFacts.safe_rune_json by exact Hr.
    reflexivity.
  - reflexivity.
  - reflexivity.
  - intros text. apply JSONFacts.marshal_safe.
Qed.

(** C7.  With a client key configured, a request to the chat-completions
    endpoint whose Authorization header is missing or differs from
    [Bearer ] followed by the key is answered 401 and no request is sent to
    the backend; with no client key configured every request is
    authorized. *)
Theorem chat_authorization (r : HTTP.Request) (st : State) :
  (Config.ClientKey config <> EmptyString ->
   HTTP.ReqHeader r !! "Authorization" = None
   \/ HTTP.Header_Get (HTTP.ReqHeader r) "Authorization"
      <> "Bearer " +:+ Config.ClientKey config ->
   HTTP.Status (writer st) = None ->
   exists st',
     handleChat r st = Return st'
     /\ HTTP.Status (writer st') = Some HTTP.StatusUnauthorized
     /\ calls st' = calls st)
  /\ (Config.ClientKey config = EmptyString -> authorizeClient config r = true).
Proof.
  split.
  - intros Hkey Hhdr Hfresh.
    assert (Hauth : authorizeClient config r = false).
    { unfold authorizeClient.
      apply String.eqb_neq in Hkey. rewrite Hkey.
      apply String.eqb_neq. destruct Hhdr as [Hnone|Hne]; [|exact Hne].
      unfold HTTP.Header_Get. rewrite Hnone. discriminate. }
    unfold handleChatCompletions. rewrite Hauth. cbn [negb].
    eexists. split; [reflexivity|]. cbn [on_writer writer calls].
    split; [now apply WriterFacts.Status_Error | reflexivity].
  - intros Hkey. unfold authorizeClient. rewrite Hkey. reflexivity.
Qed.

(** C8 (as amended).  When the backend answers with a status other than
    200, be it another success status, the client returns no result, the
    raw body and an error that carries the body; on status 200 with a body
    that does not decode it returns no result, the raw body and the
    decoding error; on status 200 with a body that decodes it returns the
    decoded result and the raw body, without error. *)
Theorem callCloudflareAPI_results req st status body :
  urlParse (backendURL config) = true ->
  clientDo (backendRequest config formatFloat req) = inr (status, body) ->
  exists results st',
    callBackend req st = Some (results, st')
    /\ (status <> HTTP.StatusOK ->
        results = (None, body, Some ("API request failed: " +:+ body)))
    /\ (status = HTTP.StatusOK ->
        forall err, unmarshalCloudflareResponse body = inl err ->
                    results = (None, body, Some err))
    /\ (status = HTTP.StatusOK ->
        forall cloudflareResp,
          unmarshalCloudflareResponse body = inr cloudflareResp ->
          results = (Some cloudflareResp, body, None)).
Proof.
  intros Hurl Hdo.
  rewrite (callCloudflareAPI_built config formatFloat
             unmarshalCloudflareResponse urlParse clientDo req st Hurl).
  eexists _, _. split; [reflexivity|].
  unfold responseResults. rewrite Hdo. split; [|split].
  - intros Hne. replace (status =? HTTP.StatusOK) with false by lia.
    reflexivity.
  - intros -> err Herr. rewrite Herr. reflexivity.
  - intros -> cloudflareResp Hok. rewrite Hok. reflexivity.
Qed.

(** C9.  The backend request carries temperature and top_p exactly when the
    caller supplied them, with the caller's values, and an absent one is not
    a field of the serialized backend request. *)
Theorem convertToCloudflareRequest_optional (openaiReq : OpenAIRequest.t) :
  let cfReq := convertToCloudflareRequest config openaiReq in
  let encoded := CloudflareRequest_json cfReq in
  CloudflareRequest.Temperature cfReq = OpenAIRequest.Temperature openaiReq
  /\ CloudflareRequest.TopP cfReq = OpenAIRequest.TopP openaiReq
  /\ JSON.field "temperature" encoded
     = option_map VFloat (OpenAIRequest.Temperature openaiReq)
  /\ JSON.field "top_p" encoded
     = option_map VFloat (OpenAIRequest.TopP openaiReq)
  /\ JSON.keys encoded
     = ["model"; "input"]
       ++ match OpenAIRequest.Temperature openaiReq with
          | Some _ => ["temperature"]
          | None => []
          end
       ++ match OpenAIRequest.TopP openaiReq with
          | Some _ => ["top_p"]
          | None => []
          end
  /\ HTTP.CBody (backendRequest config formatFloat cfReq)
     = JSON.marshal formatFloat true encoded.
Proof.
  unfold convertToCloudflareRequest.
  destruct (OpenAIRequest.Temperature openaiReq),
           (OpenAIRequest.TopP openaiReq);
    cbv zeta; repeat split.
Qed.

(** C10.  The response translator returns exactly one choice, whose message
    content is a string; the streaming branch run on its result therefore
    returns and does not panic.  The handler as a whole returns on every
    request when the URL of the backend parses, and when it panics it is
    in the backend client, on a URL that does not parse, before anything
    is written: never at the index access or at the type assertion. *)
Theorem convertToOpenAIResponse_streams (cfResp : CloudflareResponse.t) :
  (exists choice content,
     OpenAIResponse.Choices (convertToOpenAIResponse cfResp) = [choice]
     /\ Message.Content (Choice.Message choice) = VString content)
  /\ (forall st, exists st',
        streamChatCompletion now formatFloat (convertToOpenAIResponse cfResp) st
        = Return st')
  /\ (urlParse (backendURL config) = true ->
      forall r st, exists st', handleChat r st = Return st')
  /\ (forall r st st',
        handleChat r st = Panic st' ->
        urlParse (backendURL config) = false
        /\ writer st' = writer st /\ calls st' = calls st).
Proof.
  pose proof (TranslatorFacts.convertToOpenAIResponse_choices cfResp) as HC.
  split; [|split; [|split]].
  - eexists _, _. split; [exact HC | reflexivity].
  - intros st.
    destruct (streamChatCompletion_spec now formatFloat _ _ _ _ st HC eq_refl)
      as (st' & Hret & _).
    exists st'. exact Hret.
  - intros Hurl r st. now apply handleChatCompletions_returns.
  - intros r st st' Hp.
    apply handleChatCompletions_panic_inv in Hp.
    destruct Hp as (Hurl & _ & _ & _ & ->).
    split; [exact Hurl | split; reflexivity].
Qed.

End Claims.

(** * The properties on the scenarios *)

Module Scenarios.
Import Spec StreamSpec Scenario Cases.

Local Abbreviation chat cfg :=
  (handleChatCompletions cfg now formatFloat unmarshalOpenAIRequest
     unmarshalCloudflareResponse urlParse clientDo).

Local Abbreviation stream := (streamChatCompletion now formatFloat).

(** A result with a reasoning item that holds no reasoning text and with an
    assistant message: the composed text is the assistant text, without any
    delimiter. *)
Lemma reasoning_item_without_text :
  let cfResp :=
    result [reasoning [CloudflareContentItem.mk "plan" "summary_text"];
            message "hello"] in
  existsb is_reasoning_item (CloudflareResponse.Output cfResp) = true
  /\ existsb is_assistant_message (CloudflareResponse.Output cfResp) = true
  /\ final_content (convertToOpenAIResponse cfResp) = Some "hello"
  /\ String.prefix "<think>" "hello" = false.
Proof. repeat split. Qed.

(** Two reasoning items, the later one with an empty text: the empty text
    is the extracted one, and no delimiter is written. *)
Example later_empty_reasoning :
  final_content
    (convertToOpenAIResponse
       (result [reasoning [CloudflareContentItem.mk "plan" "reasoning_text"];
                reasoning [CloudflareContentItem.mk "" "reasoning_text"];
                message "hello"]))
  = Some "hello".
Proof. reflexivity. Qed.

Lemma final_content_of_items :
  let plan := reasoning [CloudflareContentItem.mk "plan" "reasoning_text"] in
  let cfResp := result [reasoning []; plan; message "hello"] in
  final_content (convertToOpenAIResponse cfResp)
  = Some ("<think>plan</think>" +:+ LF +:+ "hello").
Proof.
  intros plan cfResp.
  destruct (convertToOpenAIResponse_final_content cfResp)
    as (content & Hc & _ & _ & _ & _ & _ & _ & _ & _ & Hboth).
  rewrite Hc. f_equal.
  apply (Hboth [reasoning []] plan [message "hello"]
           [reasoning []; plan] (message "hello") []);
    try reflexivity; discriminate.
Defined.

(** Both texts present: the delimited reasoning, a newline, the answer. *)
Example reasoning_and_answer :
  final_content
    (convertToOpenAIResponse
       (result [reasoning [CloudflareContentItem.mk "plan" "reasoning_text"];
                message "hello"]))
  = Some ("<think>plan</think>" +:+ LF +:+ "hello").
Proof. reflexivity. Qed.

Lemma stream_content_deltas_multibyte :
  OpenAIResponse.Choices (response multibyte)
  = [Choice.mk 0 (Message.mk "assistant" (VString multibyte)) "stop"]
  /\ UTF8.utf8_valid multibyte = true
  /\ exists st',
       stream (response multibyte) initial = Return st'
       /\ content_deltas
            (stream_frames now (response multibyte) 0
               (UTF8.runes_of_string multibyte))
          = List.map UTF8.encoderune [0x61; 0xE9; 0x4E2D; 0x1F600].
Proof.
  split; [reflexivity|]. split; [vm_compute; reflexivity|].
  destruct (stream_content_deltas now formatFloat (response multibyte)
              _ _ multibyte initial eq_refl eq_refl eq_refl)
    as (st' & Hret & _ & Hpoints & _).
  exists st'. split; [exact Hret|].
  apply Hpoints; [|reflexivity].
  repeat constructor.
Defined.

Lemma stream_frame_sequence_ok :
  OpenAIResponse.Choices (response multibyte)
  = [Choice.mk 0 (Message.mk "assistant" (VString multibyte)) "stop"]
  /\ String.length multibyte = 10%nat
  /\ exists st',
       stream (response multibyte) initial = Return st'
       /\ List.map frame_kind
            (stream_frames now (response multibyte) 0
               (UTF8.runes_of_string multibyte))
          = [Some KStart;
             Some (KContent (UTF8.encoderune 0x61));
             Some (KContent (UTF8.encoderune 0xE9));
             Some (KContent (UTF8.encoderune 0x4E2D));
             Some (KContent (UTF8.encoderune 0x1F600));
             Some (KEnd (Usage.mk 3 2 5)); Some KDone]
       /\ length
            (content_deltas
               (stream_frames now (response multibyte) 0
                  (UTF8.runes_of_string multibyte)))
          = 4%nat.
Proof.
  split; [reflexivity|]. split; [reflexivity|].
  destruct (stream_frame_sequence now formatFloat (response multibyte)
              _ _ multibyte initial eq_refl eq_refl)
    as (st' & Hret & _ & Hkinds & _ & Hpoints & _).
  destruct (Hpoints [0x61; 0xE9; 0x4E2D; 0x1F600]) as [Hrunes Hcount];
    [repeat constructor | reflexivity |].
  exists st'. split; [exact Hret|]. split; [|exact Hcount].
  etransitivity; [exact Hkinds|].
  change (UTF8.runes_of_string multibyte)
    with (UTF8.runes_of_string
            (encode_all [0x61; 0xE9; 0x4E2D; 0x1F600])) in Hrunes |- *.
  rewrite Hrunes. reflexivity.
Defined.

(** A text of two ASCII letters. *)
Example stream_ok_text :
  List.map frame_kind
    (stream_frames now (response "ok") 0 (UTF8.runes_of_string "ok"))
  = [Some KStart; Some (KContent "o"); Some (KContent "k");
     Some (KEnd (Usage.mk 3 2 5)); Some KDone].
Proof. reflexivity. Qed.

(** No text at all: a start frame, an end frame and the sentinel. *)
Example stream_empty_text :
  List.map frame_kind
    (stream_frames now (response "") 0 (UTF8.runes_of_string ""))
  = [Some KStart; Some (KEnd (Usage.mk 3 2 5)); Some KDone].
Proof. reflexivity. Qed.

(** A request with the wrong method and without the configured key is
    answered 401, not 405, by both endpoints. *)
Lemma wrong_method_without_key :
  HTTP.Method get_without_key <> HTTP.MethodPost
  /\ HTTP.Method post_without_key <> HTTP.MethodGet
  /\ (exists st',
        chat config get_without_key initial = Return st'
        /\ HTTP.Status (writer st') = Some HTTP.StatusUnauthorized
        /\ HTTP.Status (writer st') <> Some HTTP.StatusMethodNotAllowed)
  /\ (exists st',
        handleModels config now formatFloat post_without_key initial = Return st'
        /\ HTTP.Status (writer st') = Some HTTP.StatusUnauthorized
        /\ HTTP.Status (writer st') <> Some HTTP.StatusMethodNotAllowed).
Proof.
  split; [discriminate|]. split; [discriminate|].
  split; eexists; (split; [reflexivity|]);
    (split; [reflexivity | discriminate]).
Qed.

Lemma wrong_method_status_open :
  HTTP.Status (writer initial) = None
  /\ HTTP.Method get_without_key <> HTTP.MethodPost
  /\ exists st',
       chat open_config get_without_key initial = Return st'
       /\ HTTP.Status (writer st') = Some HTTP.StatusMethodNotAllowed.
Proof.
  split; [reflexivity|]. split; [discriminate|].
  apply (wrong_method_status open_config now formatFloat unmarshalOpenAIRequest
           unmarshalCloudflareResponse urlParse clientDo get_without_key initial
           eq_refl).
  discriminate.
Defined.

(** The bytes of a stream without content: two newlines follow the start
    event and three follow the end event, where one newline after each
    would give other bytes. *)
Lemma stream_single_newline_fails :
  let json := JSON.marshal formatFloat false in
  let start := json (startEvent (response "") (now 0)) in
  let final := json (endEvent (response "") (now 1)) in
  exists st',
    stream (response "") initial = Return st'
    /\ HTTP.wire (HTTP.Log (writer st'))
       = "data: " +:+ start +:+ LF +:+ LF
         +:+ "data: " +:+ final +:+ LF +:+ LF +:+ LF
         +:+ "data: [DONE]" +:+ LF +:+ LF
    /\ HTTP.wire (HTTP.Log (writer st'))
       <> "data: " +:+ start +:+ LF
          +:+ "data: " +:+ final +:+ LF
          +:+ "data: [DONE]" +:+ LF +:+ LF.
Proof.
  eexists. split; [reflexivity|]. split; [vm_compute; reflexivity|].
  vm_compute. discriminate.
Qed.

Lemma stream_wire_format_ok :
  OpenAIResponse.Choices (response "<ok>")
  = [Choice.mk 0 (Message.mk "assistant" (VString "<ok>")) "stop"]
  /\ exists st',
       stream (response "<ok>") initial = Return st'
       /\ JSON.marshal formatFloat false (contentEvent (response "<ok>") (now 1) 60)
          = chunk_json ("{" +:+ quote "content" +:+ ":" +:+ quote "<" +:+ "}")
              "null" "1700000001" (quote "resp_1")
              (quote "@cf/openai/gpt-oss-120b") "".
Proof.
  split; [reflexivity|].
  destruct (stream_wire_format now formatFloat (response "<ok>")
              _ _ "<ok>" initial eq_refl eq_refl)
    as (st' & Hret & _ & _ & Hsafe & _).
  exists st'. split; [exact Hret|].
  rewrite (Hsafe (now 1) 60 eq_refl). vm_compute. reflexivity.
Defined.

(** With HTML escaping left on, the delimiters would be rewritten. *)
Example escaped_delimiter :
  JSON.marshal formatFloat true (VString "<think>")
  = DQUOTE +:+ chr 92 +:+ "u003cthink" +:+ chr 92 +:+ "u003e" +:+ DQUOTE.
Proof. vm_compute. reflexivity. Qed.

Lemma chat_authorization_missing_header :
  Config.ClientKey config <> EmptyString
  /\ HTTP.ReqHeader post_without_key !! "Authorization" = None
  /\ HTTP.Status (writer initial) = None
  /\ (exists st',
        chat config post_without_key initial = Return st'
        /\ HTTP.Status (writer st') = Some HTTP.StatusUnauthorized
        /\ calls st' = [])
  /\ Config.ClientKey open_config = EmptyString
  /\ authorizeClient open_config post_without_key = true.
Proof.
  split; [discriminate|]. split; [reflexivity|]. split; [reflexivity|].
  split.
  - apply (proj1 (chat_authorization config now formatFloat
                    unmarshalOpenAIRequest unmarshalCloudflareResponse urlParse
                    clientDo
                    post_without_key initial));
      [discriminate | left; reflexivity | reflexivity].
  - split; [reflexivity|].
    apply (proj2 (chat_authorization open_config now formatFloat
                    unmarshalOpenAIRequest unmarshalCloudflareResponse urlParse
                    clientDo
                    post_without_key initial)).
    reflexivity.
Defined.

(** The right key lets the request through to the backend. *)
Example chat_with_key :
  exists st',
    chat config post_with_key initial = Return st'
    /\ HTTP.Status (writer st') = Some HTTP.StatusOK
    /\ length (calls st') = 1%nat.
Proof. eexists. repeat split. Qed.

Lemma callCloudflareAPI_results_ok :
  let req := convertToCloudflareRequest config request in
  urlParse (backendURL config) = true
  /\ unmarshalCloudflareResponse answer_body = inr answer
  /\ exists st',
       callCloudflareAPI config formatFloat unmarshalCloudflareResponse urlParse
         (clientAnswers 200) req initial
       = Some ((Some answer, answer_body, None), st').
Proof.
  intros req. split; [reflexivity|]. split; [reflexivity|].
  destruct (callCloudflareAPI_results config formatFloat unmarshalCloudflareResponse
              urlParse (clientAnswers 200) req initial 200
              answer_body eq_refl eq_refl)
    as (results & st' & Hcall & _ & _ & Hok).
  exists st'. rewrite Hcall, (Hok eq_refl answer eq_refl). reflexivity.
Defined.

(** A backend that answers 201, a success status, with a body that
    decodes: no result, the body, an error with the body. *)
Lemma created_status_is_failure :
  let req := convertToCloudflareRequest config request in
  200 <= 201 < 300
  /\ unmarshalCloudflareResponse answer_body = inr answer
  /\ exists st',
       callCloudflareAPI config formatFloat unmarshalCloudflareResponse urlParse
         (clientAnswers 201) req initial
       = Some ((None, answer_body,
                Some ("API request failed: " +:+ answer_body)), st')
       /\ (None, answer_body,
           Some ("API request failed: " +:+ answer_body))
          <> (Some answer, answer_body, None).
Proof.
  intros req. split; [lia|]. split; [reflexivity|].
  eexists. split; [reflexivity | discriminate].
Qed.

(** A backend that answers 429: no result, the body, an error with the
    body. *)
Example callCloudflareAPI_rate_limited :
  exists st',
    callCloudflareAPI (Config.mk "acct" "m" "expired" "10000" "")
      formatFloat unmarshalCloudflareResponse urlParse clientDo
      (convertToCloudflareRequest config request) initial
    = Some ((None, "rate limited", Some "API request failed: rate limited"),
            st').
Proof. eexists. reflexivity. Qed.

(** Without temperature and top_p the serialized request has two fields. *)
Example backend_request_body :
  HTTP.CBody
    (backendRequest config formatFloat
       (convertToCloudflareRequest config request))
  = JSON.marshal formatFloat true
      (VStruct [("model", VString "@cf/openai/gpt-oss-120b");
                ("input",
                 VSlice [VMap [("role", VString "user");
                               ("content", VString "hi")]])]).
Proof. reflexivity. Qed.

Lemma convertToOpenAIResponse_streams_ok :
  urlParse (backendURL config) = true
  /\ exists st', chat config post_with_key initial = Return st'.
Proof.
  split; [reflexivity|].
  apply (proj1 (proj2 (proj2
           (convertToOpenAIResponse_streams config now formatFloat
              unmarshalOpenAIRequest unmarshalCloudflareResponse urlParse
              clientDo answer)))
           eq_refl).
Defined.

(** With an account id that makes the URL unparsable, the request that
    reaches the backend client makes the handler panic: nothing is written
    and nothing is sent. *)
Example chat_bad_account :
  urlParse (backendURL bad_account_config) = false
  /\ exists st',
       chat bad_account_config post_with_key initial = Panic st'
       /\ writer st' = HTTP.fresh /\ calls st' = [].
Proof. split; [reflexivity|]. eexists. repeat split. Qed.

End Scenarios.

(** ** Encoded values hold no control character *)

Module LineFacts.
Import UTF8 BitFacts UTF8Facts Observe RuneFacts.

Lemma no_ctl_append s t : no_ctl (s +:+ t) = no_ctl s && no_ctl t.
Proof.
  induction s as [|c s IH]; [reflexivity|].
  rewrite append_cons. cbn [no_ctl]. now rewrite IH, andb_assoc.
Qed.

Lemma high_bytes_no_ctl s : high_bytes s = true -> no_ctl s = true.
Proof.
  induction s as [|c s IH]; [reflexivity|]. cbn [high_bytes no_ctl].
  intros H. apply andb_true_iff in H. destruct H as [H1 H2].
  rewrite IH by assumption. lia.
Qed.

Lemma no_ctl_chr x : 32 <= x < 256 -> no_ctl (chr x) = true.
Proof.
  intros H. unfold chr. cbn [no_ctl].
  rewrite byte_val_to_byte, Z.mod_small by lia. lia.
Qed.

Lemma no_ctl_hex_digit n : no_ctl (JSON.hex_digit n) = true.
Proof.
  unfold JSON.hex_digit, JSON.hex.
  destruct (Z.to_nat n) as [|k]; [reflexivity|].
  do 16 (destruct k as [|k]; [reflexivity|]). reflexivity.
Qed.

Lemma no_ctl_escape_byte b : no_ctl (JSON.escape_byte b) = true.
Proof.
  unfold JSON.escape_byte, JSON.BACKSLASH.
  destruct ((b =? 92) || (b =? 34)) eqn:E.
  - assert (Hb : b = 92 \/ b = 34) by lia.
    destruct Hb as [->| ->]; reflexivity.
  - split_ifs; rewrite ?no_ctl_append, ?no_ctl_hex_digit; reflexivity.
Qed.

(** When [decoderune] accepts a sequence, its bytes are all from 0x80 on. *)
Lemma decoderune_high s r n :
  decoderune (JSON.take_bytes 4 s) = (r, n) ->
  (n = 1%nat /\ r = runeError) \/ high_bytes (JSON.take_bytes n s) = true.
Proof.
  unfold decoderune.
  destruct s as [|c0 [|c1 [|c2 [|c3 s]]]]; cbn [JSON.take_bytes];
    split_ifs; intros [= <- <-]; try (left; split; reflexivity);
    right; cbn [JSON.take_bytes high_bytes]; consts; leads; lia.
Qed.

Lemma escape_loop_no_ctl escapeHTML fuel : forall s,
  no_ctl (JSON.escape_loop fuel escapeHTML s) = true.
Proof.
  induction fuel as [|fuel IH]; intros s; [reflexivity|].
  cbn [JSON.escape_loop]. destruct s as [|c s1]; [reflexivity|].
  destruct (byte_val c <? runeSelf) eqn:E0.
  - destruct (JSON.htmlSafeSet (byte_val c)
              || negb escapeHTML && JSON.safeSet (byte_val c)) eqn:Es.
    + cbn [no_ctl]. rewrite IH.
      unfold JSON.htmlSafeSet, JSON.safeSet in Es. lia.
    + now rewrite no_ctl_append, no_ctl_escape_byte, IH.
  - destruct (decoderune (JSON.take_bytes 4 (String c s1))) as [r n] eqn:Hd.
    destruct (decoderune_high _ _ _ Hd) as [[-> ->]|Hh].
    + rewrite Z.eqb_refl. cbn [Nat.eqb andb].
      rewrite !no_ctl_append, IH. reflexivity.
    + split_ifs; rewrite !no_ctl_append, ?IH, ?no_ctl_hex_digit;
        rewrite ?(high_bytes_no_ctl _ Hh); reflexivity.
Qed.

Lemma appendString_no_ctl escapeHTML s :
  no_ctl (JSON.appendString escapeHTML s) = true.
Proof.
  unfold JSON.appendString. now rewrite !no_ctl_append, escape_loop_no_ctl.
Qed.

Lemma string_of_uint_no_ctl d :
  no_ctl (DecimalString.NilEmpty.string_of_uint d) = true.
Proof. induction d; cbn [DecimalString.NilEmpty.string_of_uint no_ctl]; auto. Qed.

Lemma formatInt_no_ctl n : no_ctl (JSON.formatInt n) = true.
Proof.
  unfold JSON.formatInt, DecimalString.NilZero.string_of_int,
    DecimalString.NilZero.string_of_uint.
  destruct (Z.to_int n) as [d|d]; destruct d;
    cbn [no_ctl]; rewrite ?string_of_uint_no_ctl; reflexivity.
Qed.

Lemma join_no_ctl sep l :
  no_ctl sep = true -> Forall (fun s => no_ctl s = true) l ->
  no_ctl (JSON.join sep l) = true.
Proof.
  intros Hsep. induction 1 as [|x l Hx Hl IH]; [reflexivity|].
  destruct l as [|y l]; [exact Hx|].
  change (JSON.join sep (x :: y :: l)) with (x +:+ sep +:+ JSON.join sep (y :: l)).
  now rewrite !no_ctl_append, Hx, Hsep, IH.
Qed.

Lemma insert_by_key_Forall (P : string * string -> Prop) e l :
  P e -> Forall P l -> Forall P (JSON.insert_by_key e l).
Proof.
  intros He. induction 1 as [|x l Hx Hl IH]; cbn [JSON.insert_by_key].
  - constructor; [exact He | constructor].
  - destruct (String.leb (fst e) (fst x)); repeat constructor; assumption.
Qed.

Lemma sort_by_key_Forall (P : string * string -> Prop) l :
  Forall P l -> Forall P (JSON.sort_by_key l).
Proof.
  unfold JSON.sort_by_key. induction 1; cbn [foldr]; [constructor|].
  now apply insert_by_key_Forall.
Qed.

Lemma members_no_ctl escapeHTML l :
  Forall (fun e => no_ctl (snd e) = true) l ->
  Forall (fun s => no_ctl s = true) (List.map (JSON.member escapeHTML) l).
Proof.
  induction 1 as [|e l He Hl IH]; cbn [List.map]; constructor; [|exact IH].
  unfold JSON.member. now rewrite !no_ctl_append, appendString_no_ctl, He.
Qed.

(** Induction on values through their slices and maps. *)
Lemma value_induction (P : value -> Prop) :
  P VNil -> (forall b, P (VBool b)) -> (forall n, P (VInt n)) ->
  (forall f, P (VFloat f)) -> (forall s, P (VString s)) ->
  (forall l, Forall P l -> P (VSlice l)) ->
  (forall m, Forall (fun e => P (snd e)) m -> P (VMap m)) ->
  (forall m, Forall (fun e => P (snd e)) m -> P (VStruct m)) ->
  forall v, P v.
Proof.
  intros Hnil Hbool Hint Hfloat Hstr Hslice Hmap Hstruct.
  fix IH 1. intros [|b|n|f|s|l|m|m].
  - exact Hnil.
  - apply Hbool.
  - apply Hint.
  - apply Hfloat.
  - apply Hstr.
  - apply Hslice. induction l as [|x l IHl]; constructor; [apply IH | exact IHl].
  - apply Hmap. induction m as [|[k x] m IHm]; constructor;
      [apply IH | exact IHm].
  - apply Hstruct. induction m as [|[k x] m IHm]; constructor;
      [apply IH | exact IHm].
Qed.

(** The encoding of a value holds no control character, provided the text
    of a float holds none. *)
Lemma marshal_no_ctl formatFloat escapeHTML :
  (forall f, no_ctl (formatFloat f) = true) ->
  forall v, no_ctl (JSON.marshal formatFloat escapeHTML v) = true.
Proof.
  intros Hf. induction v as [|b|n|f|s|l IH|m IH|m IH] using value_induction;
    cbn [JSON.marshal].
  - reflexivity.
  - destruct b; reflexivity.
  - apply formatInt_no_ctl.
  - apply Hf.
  - apply appendString_no_ctl.
  - rewrite !no_ctl_append, join_no_ctl; [reflexivity | reflexivity |].
    induction IH; cbn [List.map]; constructor; assumption.
  - rewrite !no_ctl_append, join_no_ctl; [reflexivity | reflexivity |].
    apply members_no_ctl, sort_by_key_Forall.
    induction IH; cbn [List.map]; constructor; assumption.
  - rewrite !no_ctl_append, join_no_ctl; [reflexivity | reflexivity |].
    apply members_no_ctl.
    induction IH; cbn [List.map]; constructor; assumption.
Qed.

End LineFacts.

(** ** Status and headers of the response writer *)

Module StatusFacts.
Import HTTP Observe.

(** The status once something has been written. *)
Lemma Status_WriteHeader code w :
  Status (WriteHeader code w)
  = Some (match Status w with Some c => c | None => code end).
Proof.
  unfold WriteHeader. destruct (Status w) eqn:E; [exact E | reflexivity].
Qed.

Lemma Status_Write p w :
  Status (Write p w)
  = Some (match Status w with Some c => c | None => StatusOK end).
Proof. unfold Write. cbn [Status]. apply Status_WriteHeader. Qed.

Lemma Status_Flush w :
  Status (Flush w)
  = Some (match Status w with Some c => c | None => StatusOK end).
Proof. unfold Flush. cbn [Status]. apply Status_WriteHeader. Qed.

Lemma Status_Encode ff enc v w :
  Status (Encoder.Encode ff enc v w)
  = Some (match Status w with Some c => c | None => StatusOK end).
Proof. unfold Encoder.Encode. apply Status_Write. Qed.

Lemma RespHeader_Encode ff enc v w :
  RespHeader (Encoder.Encode ff enc v w) = RespHeader w.
Proof. unfold Encoder.Encode. apply WriterFacts.RespHeader_Write. Qed.

Lemma Header_Get_Set k v (h : Header) : Header_Get (Header_Set k v h) k = v.
Proof. unfold Header_Get, Header_Set. now rewrite lookup_insert_eq. Qed.

Lemma Header_Get_Set_ne k k' v (h : Header) :
  k <> k' -> Header_Get (Header_Set k v h) k' = Header_Get h k'.
Proof.
  intros Hne. unfold Header_Get, Header_Set. now rewrite lookup_insert_ne.
Qed.

Lemma flushes_app l1 l2 : flushes (l1 ++ l2) = (flushes l1 + flushes l2)%nat.
Proof. unfold flushes. now rewrite List.filter_app, length_app. Qed.

End StatusFacts.

(** ** The streaming branch: status, headers, clock *)

Section StreamState.
Import Spec StreamSpec Observe.

Variable now : nat -> Z.
Variable formatFloat : float64 -> string.

Lemma streamRune_writer resp st r code :
  HTTP.Status (writer st) = Some code ->
  let st' := streamRune now formatFloat resp st r in
  HTTP.Status (writer st') = Some code
  /\ HTTP.RespHeader (writer st') = HTTP.RespHeader (writer st).
Proof.
  intros Hc. unfold streamRune, timeNow, on_writer. cbn [writer].
  rewrite StatusFacts.Status_Flush, StatusFacts.Status_Write,
    StatusFacts.Status_Encode, StatusFacts.Status_Write.
  cbn [writer]. rewrite Hc.
  rewrite WriterFacts.RespHeader_Flush, WriterFacts.RespHeader_Write,
    StatusFacts.RespHeader_Encode, WriterFacts.RespHeader_Write.
  split; reflexivity.
Qed.

Lemma fold_streamRune_writer resp runes code : forall st,
  HTTP.Status (writer st) = Some code ->
  let st' := fold_left (streamRune now formatFloat resp) runes st in
  HTTP.Status (writer st') = Some code
  /\ HTTP.RespHeader (writer st') = HTTP.RespHeader (writer st).
Proof.
  induction runes as [|r runes IH]; intros st Hc; [split; [exact Hc | reflexivity]|].
  cbn [fold_left].
  destruct (streamRune_writer resp st r code Hc) as [H1 H2].
  destruct (IH _ H1) as [H3 H4]. cbv zeta in *. rewrite H3, H4, H2.
  split; reflexivity.
Qed.

Lemma content_frames_flushes resp runes : forall k,
  flushes (flat_map (frame_ops formatFloat) (content_frames now resp k runes))
  = length runes.
Proof.
  induction runes as [|r runes IH]; intros k; [reflexivity|].
  cbn [content_frames flat_map]. rewrite StatusFacts.flushes_app, IH.
  reflexivity.
Qed.

(** The streaming branch: besides the frames, the three stream headers are
    set, the status is the one already written or 200, and the clock has
    been read once per frame. *)
Lemma streamChatCompletion_state resp c rest s st :
  OpenAIResponse.Choices resp = c :: rest ->
  Message.Content (Choice.Message c) = VString s ->
  exists st',
    streamChatCompletion now formatFloat resp st = Return st'
    /\ HTTP.Status (writer st')
       = Some (match HTTP.Status (writer st) with
               | Some code => code
               | None => HTTP.StatusOK
               end)
    /\ HTTP.RespHeader (writer st')
       = HTTP.Header_Set "Connection" "keep-alive"
           (HTTP.Header_Set "Cache-Control" "no-cache"
              (HTTP.Header_Set "Content-Type" "text/event-stream"
                 (HTTP.RespHeader (writer st))))
    /\ clock st' = (clock st + length (UTF8.runes_of_string s) + 2)%nat.
Proof.
  intros HC Hs. unfold streamChatCompletion. rewrite HC, Hs.
  unfold timeNow. cbn [on_writer writer clock calls logged].
  eexists. split; [reflexivity|].
  cbn [on_writer writer clock calls logged].
  set (runes := UTF8.runes_of_string s).
  match goal with
  | |- context [fold_left ?f runes ?st0] =>
    destruct (fold_streamRune_spec now formatFloat resp runes st0)
      as (_ & C & _ & _);
    assert (S0 : HTTP.Status (writer st0)
                 = Some (match HTTP.Status (writer st) with
                         | Some code => code
                         | None => HTTP.StatusOK
                         end));
    [|destruct (fold_streamRune_writer resp runes _ st0 S0) as (S1 & H1);
      set (stR := fold_left f runes st0) in *]
  end.
  - unfold on_writer. cbn [writer]. rewrite StatusFacts.Status_Flush, StatusFacts.Status_Write,
      StatusFacts.Status_Encode, StatusFacts.Status_Write.
    cbn [HTTP.Status HTTP.SetHeader]. reflexivity.
  - cbv zeta in *. unfold on_writer in *. cbn [writer clock] in *.
    rewrite StatusFacts.Status_Flush, !StatusFacts.Status_Write,
      StatusFacts.Status_Encode, StatusFacts.Status_Write, S1.
    rewrite WriterFacts.RespHeader_Flush, !WriterFacts.RespHeader_Write,
      StatusFacts.RespHeader_Encode, WriterFacts.RespHeader_Write, H1.
    rewrite WriterFacts.RespHeader_Flush, !WriterFacts.RespHeader_Write,
      StatusFacts.RespHeader_Encode, WriterFacts.RespHeader_Write.
    rewrite C. cbn [HTTP.RespHeader HTTP.SetHeader].
    repeat split. lia.
Qed.

Lemma stream_frames_flushes resp k runes :
  flushes (flat_map (frame_ops formatFloat) (stream_frames now resp k runes))
  = (length runes + 2)%nat.
Proof.
  unfold stream_frames.
  rewrite !flat_map_app, !StatusFacts.flushes_app, content_frames_flushes.
  cbn. lia.
Qed.

(** What the content frames put on the writer, one event after the other:
    the three writes of the event, then a flush. *)
Lemma content_frames_ops resp runes : forall k,
  flat_map (frame_ops formatFloat) (content_frames now resp k runes)
  = flat_map
      (fun '(i, r) =>
         [HTTP.OpWrite "data: ";
          HTTP.OpWrite
            (JSON.marshal formatFloat false (contentEvent resp (now i) r)
             +:+ LF);
          HTTP.OpWrite LF; HTTP.OpFlush])
      (combine (seq k (length runes)) runes).
Proof.
  induction runes as [|r runes IH]; intros k; [reflexivity|].
  cbn [content_frames flat_map length seq combine frame_ops app].
  now rewrite IH.
Qed.

End StreamState.

(** ** The translators on lists *)

Module ListFacts.
Import Spec Observe.

(** Appending one element per item is a map. *)
Lemma fold_left_snoc {A B} (f : A -> B) l : forall acc,
  fold_left (fun acc x => acc ++ [f x]) l acc = acc ++ List.map f l.
Proof.
  induction l as [|x l IH]; intros acc; cbn [fold_left List.map].
  - now rewrite app_nil_r.
  - rewrite IH, <- app_assoc. reflexivity.
Qed.

Lemma reasoning_texts_skip l1 o l2 :
  is_reasoning_item o = false ->
  reasoning_texts (l1 ++ o :: l2) = reasoning_texts (l1 ++ l2).
Proof.
  unfold reasoning_texts, is_reasoning_item. intros Ho.
  rewrite !flat_map_app. cbn [flat_map]. now rewrite Ho.
Qed.

Lemma assistant_texts_skip l1 o l2 :
  is_assistant_message o = false ->
  assistant_texts (l1 ++ o :: l2) = assistant_texts (l1 ++ l2).
Proof.
  unfold assistant_texts, is_assistant_message. intros Ho.
  rewrite !flat_map_app. cbn [flat_map]. now rewrite Ho.
Qed.

End ListFacts.

(** ** Well-formed texts under concatenation *)

Module ValidFacts.
Import UTF8 Spec UTF8Round UTF8Encode.

Lemma encode_all_app p1 p2 :
  encode_all (p1 ++ p2) = encode_all p1 +:+ encode_all p2.
Proof. unfold encode_all. now rewrite List.map_app, concat_app. Qed.

Lemma utf8_valid_append s t :
  utf8_valid s = true -> utf8_valid t = true -> utf8_valid (s +:+ t) = true.
Proof.
  intros Hs Ht.
  apply utf8_valid_iff in Hs. destruct Hs as (p1 & H1 & ->).
  apply utf8_valid_iff in Ht. destruct Ht as (p2 & H2 & ->).
  apply utf8_valid_iff. exists (p1 ++ p2).
  split; [now apply Forall_app | now rewrite encode_all_app].
Qed.

(** The composition of two well-formed texts is well formed. *)
Lemma compose_valid reasoning assistant :
  utf8_valid reasoning = true -> utf8_valid assistant = true ->
  utf8_valid (compose reasoning assistant) = true.
Proof.
  intros Hr Ha. unfold compose. destruct reasoning as [|c s]; [exact Ha|].
  repeat apply utf8_valid_append; try assumption; reflexivity.
Qed.

End ValidFacts.

(** ** The text of the models listing *)

Module ModelsFacts.
Import Spec Observe.

Lemma models_listing_json formatFloat created id :
  JSON.marshal formatFloat true
    (VMap [("object", VString "list");
           ("data",
            VSlice [VMap [("id", VString id);
                          ("object", VString "model");
                          ("created", VInt created);
                          ("owned_by", VString "openai")]])])
  = models_json (JSON.formatInt created) (JSON.appendString true id).
Proof.
  cbn -[JSON.appendString JSON.formatInt];
  repeat (match goal with
          | |- context [String.leb ?a ?b] =>
            let v := eval vm_compute in (String.leb a b) in
            change (String.leb a b) with v
          end; cbn -[JSON.appendString JSON.formatInt]).
  unfold JSON.member, models_json. cbn [fst snd].
  rewrite ?append_assoc.
  repeat match goal with
  | |- context [JSON.appendString true ?k] =>
    lazymatch k with
    | id => fail
    | _ => let v := eval vm_compute in (JSON.appendString true k) in
           change (JSON.appendString true k) with v
    end
  end.
  reflexivity.
Qed.

End ModelsFacts.

(** ** The handler in front of the streaming branch *)

Section DispatchFacts.

Variable config : Config.t.
Variable now : nat -> Z.
Variable formatFloat : float64 -> string.
Variable unmarshalOpenAIRequest : string -> string + OpenAIRequest.t.
Variable unmarshalCloudflareResponse : string -> string + CloudflareResponse.t.
Variable urlParse : string -> bool.
Variable clientDo : HTTP.ClientRequest -> string + (Z * string).

(** The state in which the streaming branch starts: the request has been
    logged, the backend called, its raw body logged. *)
Lemma handleChatCompletions_stream_from r st openaiReq body cfResp :
  authorizeClient config r = true ->
  HTTP.Method r = HTTP.MethodPost ->
  unmarshalOpenAIRequest (HTTP.Body r) = inr openaiReq ->
  OpenAIRequest.Stream openaiReq = true ->
  urlParse (backendURL config) = true ->
  clientDo (backendRequest config formatFloat
              (convertToCloudflareRequest config openaiReq))
  = inr (HTTP.StatusOK, body) ->
  unmarshalCloudflareResponse body = inr cfResp ->
  handleChatCompletions config now formatFloat unmarshalOpenAIRequest
    unmarshalCloudflareResponse urlParse clientDo r st
  = streamChatCompletion now formatFloat (convertToOpenAIResponse cfResp)
      (mkState (writer st) (clock st)
         (calls st
          ++ [backendRequest config formatFloat
                (convertToCloudflareRequest config openaiReq)])
         (logged st ++ ["用户请求 JSON: " +:+ HTTP.Body r;
                        "Cloudflare 原始响应: " +:+ body])).
Proof.
  intros Hauth Hm Hreq Hstream Hurl Hdo Hresp.
  unfold handleChatCompletions.
  rewrite Hauth, Hm, Hreq. cbn [negb]. rewrite String.eqb_refl. cbn [negb].
  rewrite callCloudflareAPI_built by exact Hurl.
  unfold responseResults. rewrite Hdo, Z.eqb_refl. cbn [negb].
  rewrite Hresp, Hstream.
  unfold log_Printf. cbn [writer clock calls logged].
  now rewrite <- app_assoc.
Qed.

End DispatchFacts.

(** * Further properties of the gateway *)

Section Coverage.
Import Spec StreamSpec Observe.

Variable config : Config.t.
Variable now : nat -> Z.
Variable formatFloat : float64 -> string.
Variable unmarshalOpenAIRequest : string -> string + OpenAIRequest.t.
Variable unmarshalCloudflareResponse : string -> string + CloudflareResponse.t.
Variable urlParse : string -> bool.
Variable clientDo : HTTP.ClientRequest -> string + (Z * string).

Local Abbreviation chat :=
  (handleChatCompletions config now formatFloat unmarshalOpenAIRequest
     unmarshalCloudflareResponse urlParse clientDo).
Local Abbreviation backend :=
  (callCloudflareAPI config formatFloat unmarshalCloudflareResponse urlParse
     clientDo).
Local Abbreviation request_for openaiReq :=
  (backendRequest config formatFloat
     (convertToCloudflareRequest config openaiReq)).

(** X1.  The backend input lists the messages in their order, each as its
    role and its content unchanged; without messages the input is nil. *)
Theorem convertToCloudflareRequest_input (openaiReq : OpenAIRequest.t) :
  CloudflareRequest.Input (convertToCloudflareRequest config openaiReq)
  = match OpenAIRequest.Messages openaiReq with
    | [] => VNil
    | messages => VSlice (List.map input_entry messages)
    end.
Proof.
  unfold convertToCloudflareRequest.
  rewrite (ListFacts.fold_left_snoc input_entry). cbn [app].
  destruct (OpenAIRequest.Temperature openaiReq),
           (OpenAIRequest.TopP openaiReq);
    cbn [CloudflareRequest.Input];
    destruct (OpenAIRequest.Messages openaiReq); reflexivity.
Qed.

(** X2.  An output item that is neither a reasoning item nor an assistant
    message does not influence the translated response, wherever it
    stands. *)
Theorem convertToOpenAIResponse_ignores cfResp before item after :
  is_reasoning_item item = false ->
  is_assistant_message item = false ->
  convertToOpenAIResponse (with_output cfResp (before ++ item :: after))
  = convertToOpenAIResponse (with_output cfResp (before ++ after)).
Proof.
  intros Hr Ha. unfold convertToOpenAIResponse.
  rewrite !TranslatorFacts.scanOutput_spec.
  unfold reasoning_text, assistant_text, with_output.
  cbn [CloudflareResponse.Output CloudflareResponse.ID
       CloudflareResponse.Created CloudflareResponse.Model
       CloudflareResponse.Usage].
  now rewrite ListFacts.reasoning_texts_skip, ListFacts.assistant_texts_skip.
Qed.

(** X3.  An authorized POST whose body does not decode is answered 400 with
    the text [Invalid JSON]; the backend is not called. *)
Theorem chat_invalid_json r st err :
  authorizeClient config r = true ->
  HTTP.Method r = HTTP.MethodPost ->
  unmarshalOpenAIRequest (HTTP.Body r) = inl err ->
  HTTP.Status (writer st) = None ->
  exists st',
    chat r st = Return st'
    /\ HTTP.Status (writer st') = Some HTTP.StatusBadRequest
    /\ HTTP.Log (writer st')
       = HTTP.Log (writer st) ++ [HTTP.OpWrite ("Invalid JSON" +:+ LF)]
    /\ calls st' = calls st.
Proof.
  intros Hauth Hm Hbody Hfresh. unfold handleChatCompletions.
  rewrite Hauth, Hm, Hbody. cbn [negb]. rewrite String.eqb_refl. cbn [negb].
  eexists. split; [reflexivity|]. unfold on_writer, log_Printf.
  cbn [writer calls]. rewrite WriterFacts.Log_Error.
  split; [now apply WriterFacts.Status_Error | split; reflexivity].
Qed.

(** X4.  When the backend call fails (the transport fails, the status is
    not 200, or the body does not decode) an authorized POST is answered
    500 with [Cloudflare API error: ] and the text of the error, which
    holds the backend's body when the status is not 200; the backend has
    been called once.  The URL of the backend is one that parses, so that
    the request is built. *)
Theorem chat_backend_failure r st openaiReq :
  authorizeClient config r = true ->
  HTTP.Method r = HTTP.MethodPost ->
  unmarshalOpenAIRequest (HTTP.Body r) = inr openaiReq ->
  HTTP.Status (writer st) = None ->
  urlParse (backendURL config) = true ->
  let answered text :=
    exists st',
      chat r st = Return st'
      /\ HTTP.Status (writer st') = Some HTTP.StatusInternalServerError
      /\ HTTP.Log (writer st')
         = HTTP.Log (writer st)
           ++ [HTTP.OpWrite ("Cloudflare API error: " +:+ text +:+ LF)]
      /\ calls st' = calls st ++ [request_for openaiReq] in
  (forall failure,
     clientDo (request_for openaiReq) = inl failure -> answered failure)
  /\ (forall status body,
        clientDo (request_for openaiReq) = inr (status, body) ->
        status <> HTTP.StatusOK ->
        answered ("API request failed: " +:+ body))
  /\ (forall body failure,
        clientDo (request_for openaiReq) = inr (HTTP.StatusOK, body) ->
        unmarshalCloudflareResponse body = inl failure ->
        answered failure).
Proof.
  intros Hauth Hm Hbody Hfresh Hurl answered. subst answered.
  unfold handleChatCompletions.
  rewrite Hauth, Hm, Hbody. cbn [negb]. rewrite String.eqb_refl. cbn [negb].
  rewrite callCloudflareAPI_built by exact Hurl. unfold responseResults.
  split; [|split].
  - intros failure Hdo. rewrite Hdo.
    eexists. split; [reflexivity|]. unfold on_writer, log_Printf.
    cbn [writer calls]. rewrite WriterFacts.Log_Error, append_assoc.
    split; [now apply WriterFacts.Status_Error | split; reflexivity].
  - intros status body Hdo Hne. rewrite Hdo.
    replace (status =? HTTP.StatusOK) with false by lia. cbn [negb].
    eexists. split; [reflexivity|]. unfold on_writer, log_Printf.
    cbn [writer calls]. rewrite WriterFacts.Log_Error, !append_assoc.
    split; [now apply WriterFacts.Status_Error | split; reflexivity].
  - intros body failure Hdo Hdec. rewrite Hdo, Z.eqb_refl, Hdec. cbn [negb].
    eexists. split; [reflexivity|]. unfold on_writer, log_Printf.
    cbn [writer calls]. rewrite WriterFacts.Log_Error, append_assoc.
    split; [now apply WriterFacts.Status_Error | split; reflexivity].
Qed.

(** X5.  An authorized POST that does not ask for a stream and whose
    backend call succeeds is answered 200 with content type
    [application/json] by a single write, never flushed: the encoding,
    HTML escaping off, of the translated response, and a newline.  The URL
    of the backend is one that parses, so that the request is built. *)
Theorem chat_plain_response r st openaiReq body cfResp :
  authorizeClient config r = true ->
  HTTP.Method r = HTTP.MethodPost ->
  unmarshalOpenAIRequest (HTTP.Body r) = inr openaiReq ->
  OpenAIRequest.Stream openaiReq = false ->
  urlParse (backendURL config) = true ->
  clientDo (request_for openaiReq) = inr (HTTP.StatusOK, body) ->
  unmarshalCloudflareResponse body = inr cfResp ->
  HTTP.Status (writer st) = None ->
  exists st',
    chat r st = Return st'
    /\ HTTP.Status (writer st') = Some HTTP.StatusOK
    /\ HTTP.Header_Get (HTTP.RespHeader (writer st')) "Content-Type"
       = "application/json"
    /\ HTTP.Log (writer st')
       = HTTP.Log (writer st)
         ++ [HTTP.OpWrite
               (JSON.marshal formatFloat false
                  (OpenAIResponse_json (convertToOpenAIResponse cfResp))
                +:+ LF)]
    /\ calls st' = calls st ++ [request_for openaiReq]
    /\ logged st'
       = logged st ++ ["用户请求 JSON: " +:+ HTTP.Body r;
                       "Cloudflare 原始响应: " +:+ body].
Proof.
  intros Hauth Hm Hbody Hstream Hurl Hdo Hdec Hfresh.
  unfold handleChatCompletions.
  rewrite Hauth, Hm, Hbody. cbn [negb]. rewrite String.eqb_refl. cbn [negb].
  rewrite callCloudflareAPI_built by exact Hurl. unfold responseResults.
  rewrite Hdo, Z.eqb_refl, Hdec, Hstream. cbn [negb].
  eexists. split; [reflexivity|]. unfold on_writer, log_Printf.
  cbn [writer calls logged].
  rewrite StatusFacts.Status_Encode, StatusFacts.RespHeader_Encode,
    WriterFacts.Log_Encode.
  cbn [HTTP.SetHeader HTTP.Status HTTP.RespHeader HTTP.Log
       Encoder.escapeHTML Encoder.SetEscapeHTML].
  rewrite Hfresh, StatusFacts.Header_Get_Set, <- app_assoc.
  repeat split.
Qed.

(** X6.  A stream sets the content type [text/event-stream] and the
    headers [Cache-Control: no-cache] and [Connection: keep-alive], is
    answered 200, reads the clock once per event and flushes the writer
    after the start event, after each content event and after the
    sentinel, and nowhere else: the operations on the writer are the three
    writes of the start event and a flush, for each rune in turn the three
    writes of its content event and a flush, the three writes of the end
    event, the write of the sentinel and a flush. *)
Theorem stream_headers_and_flushes resp c rest s st :
  OpenAIResponse.Choices resp = c :: rest ->
  Message.Content (Choice.Message c) = VString s ->
  HTTP.Status (writer st) = None ->
  let runes := UTF8.runes_of_string s in
  let n := length runes in
  let k := clock st in
  let event ev trailer :=
    [HTTP.OpWrite "data: ";
     HTTP.OpWrite (JSON.marshal formatFloat false ev +:+ LF);
     HTTP.OpWrite trailer] in
  exists st',
    streamChatCompletion now formatFloat resp st = Return st'
    /\ HTTP.Status (writer st') = Some HTTP.StatusOK
    /\ HTTP.Header_Get (HTTP.RespHeader (writer st')) "Content-Type"
       = "text/event-stream"
    /\ HTTP.Header_Get (HTTP.RespHeader (writer st')) "Cache-Control"
       = "no-cache"
    /\ HTTP.Header_Get (HTTP.RespHeader (writer st')) "Connection"
       = "keep-alive"
    /\ clock st' = (clock st + n + 2)%nat
    /\ flushes (HTTP.Log (writer st'))
       = (flushes (HTTP.Log (writer st)) + n + 2)%nat
    /\ HTTP.Log (writer st')
       = HTTP.Log (writer st)
         ++ (event (startEvent resp (now k)) LF ++ [HTTP.OpFlush])
         ++ flat_map
              (fun '(i, r) =>
                 event (contentEvent resp (now i) r) LF ++ [HTTP.OpFlush])
              (combine (seq (S k) n) runes)
         ++ event (endEvent resp (now (S k + n))) (LF +:+ LF)
         ++ [HTTP.OpWrite ("data: [DONE]" +:+ LF +:+ LF); HTTP.OpFlush].
Proof.
  intros HC Hs Hfresh runes n k event.
  destruct (streamChatCompletion_state now formatFloat resp c rest s st HC Hs)
    as (st' & Hret & Hstatus & Hheader & Hclock).
  destruct (streamChatCompletion_spec now formatFloat resp c rest s st HC Hs)
    as (st2 & Hret2 & Hlog & _).
  rewrite Hret in Hret2. injection Hret2 as <-.
  exists st'. split; [exact Hret|].
  rewrite Hstatus, Hfresh, Hheader, Hlog, StatusFacts.flushes_app,
    stream_frames_flushes.
  rewrite StatusFacts.Header_Get_Set.
  rewrite !StatusFacts.Header_Get_Set_ne, !StatusFacts.Header_Get_Set
    by discriminate.
  rewrite StatusFacts.Header_Get_Set_ne, StatusFacts.Header_Get_Set
    by discriminate.
  repeat split; try assumption.
  - fold runes n. lia.
  - f_equal. unfold stream_frames. rewrite !flat_map_app.
    rewrite content_frames_ops. fold runes n k. subst event.
    cbn [flat_map frame_ops app]. reflexivity.
Qed.

(** X7.  The models endpoint never calls the backend; an authorized GET is
    answered 200 with content type [application/json] by a single write:
    a list with one entry, of the configured model, owned by [openai] and
    stamped with the clock, encoded with HTML escaping on. *)
Theorem handleModels_listing r st :
  (exists st',
     handleModels config now formatFloat r st = Return st'
     /\ calls st' = calls st)
  /\ (authorizeClient config r = true ->
      HTTP.Method r = HTTP.MethodGet ->
      HTTP.Status (writer st) = None ->
      exists st',
        handleModels config now formatFloat r st = Return st'
        /\ HTTP.Status (writer st') = Some HTTP.StatusOK
        /\ HTTP.Header_Get (HTTP.RespHeader (writer st')) "Content-Type"
           = "application/json"
        /\ HTTP.Log (writer st')
           = HTTP.Log (writer st)
             ++ [HTTP.OpWrite
                   (models_json (JSON.formatInt (now (clock st)))
                      (JSON.appendString true (Config.Model config))
                    +:+ LF)]
        /\ clock st' = S (clock st)).
Proof.
  unfold handleModels. split.
  - destruct (negb (authorizeClient config r)); [eexists; split; reflexivity|].
    destruct (negb (String.eqb (HTTP.Method r) HTTP.MethodGet));
      eexists; split; reflexivity.
  - intros Hauth Hm Hfresh. rewrite Hauth, Hm. cbn [negb].
    rewrite String.eqb_refl. cbn [negb timeNow].
    eexists. split; [reflexivity|]. unfold on_writer. cbn [writer clock].
    rewrite StatusFacts.Status_Encode, StatusFacts.RespHeader_Encode,
      WriterFacts.Log_Encode.
    cbn [HTTP.SetHeader HTTP.Status HTTP.RespHeader HTTP.Log
         Encoder.escapeHTML Encoder.NewEncoder].
    rewrite Hfresh, StatusFacts.Header_Get_Set, ModelsFacts.models_listing_json.
    repeat split.
Qed.

(** X8.  When the URL of the backend parses, the backend client sends one
    request, whatever the answer, and touches nothing else: a POST to the
    responses URL of the configured account, with the configured token as
    bearer credential and the JSON content type; when the transport fails
    it returns no result, an empty raw body and the transport's error.
    When the URL does not parse, the client panics and nothing is sent. *)
Theorem callCloudflareAPI_request req st :
  let sent := backendRequest config formatFloat req in
  (urlParse (backendURL config) = true ->
   exists results st',
     backend req st = Some (results, st')
     /\ calls st' = calls st ++ [sent]
     /\ writer st' = writer st /\ clock st' = clock st
     /\ logged st' = logged st
     /\ (forall failure,
           clientDo sent = inl failure ->
           results = (None, EmptyString, Some failure)))
  /\ (urlParse (backendURL config) = false -> backend req st = None)
  /\ HTTP.CMethod sent = "POST"
  /\ HTTP.URL sent
     = "https://api.cloudflare.com/client/v4/accounts/"
       +:+ Config.AccountID config +:+ "/ai/v1/responses"
  /\ HTTP.URL sent = backendURL config
  /\ HTTP.Header_Get (HTTP.CHeader sent) "Authorization"
     = "Bearer " +:+ Config.AuthToken config
  /\ HTTP.Header_Get (HTTP.CHeader sent) "Content-Type" = "application/json".
Proof.
  intros sent. subst sent.
  split; [|split].
  - intros Hurl. rewrite callCloudflareAPI_built by exact Hurl.
    eexists _, _. split; [reflexivity|]. cbn [calls writer clock logged].
    repeat split. intros failure Hdo. unfold responseResults.
    now rewrite Hdo.
  - apply callCloudflareAPI_unbuilt.
  - unfold backendRequest. cbv zeta. cbn [HTTP.CHeader HTTP.CMethod HTTP.URL].
    split; [reflexivity|]. split; [reflexivity|]. split; [reflexivity|].
    split.
    + rewrite StatusFacts.Header_Get_Set_ne by discriminate.
      apply StatusFacts.Header_Get_Set.
    + apply StatusFacts.Header_Get_Set.
Qed.

(** X9.  The requests that reach the backend client are those that are
    authorized, are a POST and have a body that decodes.  When the URL of
    the backend parses, the handler returns on every request and has
    called the backend exactly for those: once, with the request built
    from the decoded body.  When the URL does not parse, the backend is
    never called: those requests make the handler panic, with nothing
    sent and nothing written, and the handler returns on the others. *)
Theorem chat_backend_calls r st :
  let sent :=
    if authorizeClient config r && String.eqb (HTTP.Method r) HTTP.MethodPost
    then match unmarshalOpenAIRequest (HTTP.Body r) with
         | inr openaiReq => [request_for openaiReq]
         | inl _ => []
         end
    else [] in
  (urlParse (backendURL config) = true ->
   exists st', chat r st = Return st' /\ calls st' = calls st ++ sent)
  /\ (urlParse (backendURL config) = false ->
      exists st',
        chat r st = match sent with [] => Return st' | _ => Panic st' end
        /\ calls st' = calls st
        /\ (sent <> [] -> writer st' = writer st)).
Proof.
  intros sent. subst sent. split.
  - intros Hurl. unfold handleChatCompletions.
    destruct (authorizeClient config r); cbn [negb andb];
      [|eexists; split; [reflexivity
                        | cbn [on_writer calls]; now rewrite app_nil_r]].
    destruct (String.eqb (HTTP.Method r) HTTP.MethodPost); cbn [negb];
      [|eexists; split; [reflexivity
                        | cbn [on_writer calls]; now rewrite app_nil_r]].
    destruct (unmarshalOpenAIRequest (HTTP.Body r)) as [err|openaiReq];
      [eexists; split; [reflexivity | cbn [on_writer log_Printf calls];
                                      now rewrite app_nil_r]|].
    rewrite callCloudflareAPI_built by exact Hurl.
    pose proof (responseResults_result_or_error unmarshalCloudflareResponse
                  (clientDo (request_for openaiReq))) as Hres.
    destruct (responseResults _ _) as [[cfResp raw] err].
    destruct err as [err|];
      [eexists; split; [reflexivity | reflexivity]|].
    destruct cfResp as [cfResp|]; [|contradiction].
    destruct (OpenAIRequest.Stream openaiReq);
      [|eexists; split; [reflexivity | reflexivity]].
    pose proof (TranslatorFacts.convertToOpenAIResponse_choices cfResp) as HC.
    match goal with
    | |- context [streamChatCompletion _ _ _ ?st0] =>
      destruct (streamChatCompletion_spec now formatFloat _ _ _ _ st0 HC
                  eq_refl)
        as (st' & Hret & _ & Hc & _)
    end.
    exists st'. split; [exact Hret|]. rewrite Hc. reflexivity.
  - intros Hurl.
    destruct (authorizeClient config r) eqn:Hauth; cbn [andb];
      [|unfold handleChatCompletions; rewrite Hauth;
        eexists; split; [reflexivity | split; [reflexivity | congruence]]].
    destruct (String.eqb (HTTP.Method r) HTTP.MethodPost) eqn:Hm;
      [|unfold handleChatCompletions; rewrite Hauth, Hm;
        eexists; split; [reflexivity | split; [reflexivity | congruence]]].
    apply String.eqb_eq in Hm.
    destruct (unmarshalOpenAIRequest (HTTP.Body r)) as [err|openaiReq] eqn:Hreq.
    + unfold handleChatCompletions. rewrite Hauth, Hm, Hreq.
      eexists; split; [reflexivity | split; [reflexivity | congruence]].
    + rewrite (handleChatCompletions_panics config now formatFloat
                 unmarshalOpenAIRequest unmarshalCloudflareResponse urlParse
                 clientDo r st openaiReq Hauth Hm Hreq Hurl).
      eexists. split; [reflexivity|]. split; reflexivity.
Qed.

(** X10.  On a fresh response writer the outcome of the chat-completions
    handler is decided in this order: 401 without authorization, 405 for a
    method other than POST, 400 for a body that does not decode; then, when
    the URL of the backend does not parse, a panic with no status written;
    otherwise 500 when the backend call fails and 200 when it succeeds. *)
Theorem chat_status_table r st :
  HTTP.Status (writer st) = None ->
  let code :=
    if negb (authorizeClient config r) then Some HTTP.StatusUnauthorized
    else if negb (String.eqb (HTTP.Method r) HTTP.MethodPost)
    then Some HTTP.StatusMethodNotAllowed
    else match unmarshalOpenAIRequest (HTTP.Body r) with
         | inl _ => Some HTTP.StatusBadRequest
         | inr openaiReq =>
           if negb (urlParse (backendURL config)) then None
           else
             match clientDo (request_for openaiReq) with
             | inl _ => Some HTTP.StatusInternalServerError
             | inr (status, body) =>
               if status =? HTTP.StatusOK then
                 match unmarshalCloudflareResponse body with
                 | inl _ => Some HTTP.StatusInternalServerError
                 | inr _ => Some HTTP.StatusOK
                 end
               else Some HTTP.StatusInternalServerError
             end
         end in
  exists st',
    chat r st = match code with Some _ => Return st' | None => Panic st' end
    /\ HTTP.Status (writer st') = code
    /\ (forall c, code = Some c -> handler_status c = true).
Proof.
  intros Hfresh code. subst code.
  destruct (authorizeClient config r) eqn:Hauth; cbn [negb];
    [|unfold handleChatCompletions; rewrite Hauth;
      eexists; split; [reflexivity|]; split; [|intros ? [= <-]; reflexivity];
      cbn [on_writer writer]; now apply WriterFacts.Status_Error].
  destruct (String.eqb (HTTP.Method r) HTTP.MethodPost) eqn:Hm; cbn [negb];
    [|unfold handleChatCompletions; rewrite Hauth, Hm;
      eexists; split; [reflexivity|]; split; [|intros ? [= <-]; reflexivity];
      cbn [on_writer writer]; now apply WriterFacts.Status_Error].
  destruct (unmarshalOpenAIRequest (HTTP.Body r)) as [err|openaiReq] eqn:Hreq;
    [unfold handleChatCompletions; rewrite Hauth, Hm, Hreq;
     eexists; split; [reflexivity|]; split; [|intros ? [= <-]; reflexivity];
     cbn [on_writer log_Printf writer]; now apply WriterFacts.Status_Error|].
  destruct (urlParse (backendURL config)) eqn:Hurl; cbn [negb].
  2:{ apply String.eqb_eq in Hm.
      rewrite (handleChatCompletions_panics config now formatFloat
                 unmarshalOpenAIRequest unmarshalCloudflareResponse urlParse
                 clientDo r st openaiReq Hauth Hm Hreq Hurl).
      eexists. split; [reflexivity|]. split; [exact Hfresh | discriminate]. }
  unfold handleChatCompletions. rewrite Hauth, Hm, Hreq. cbn [negb].
  rewrite callCloudflareAPI_built by exact Hurl. unfold responseResults.
  destruct (clientDo _) as [e|[status body]];
    [eexists; split; [reflexivity|]; split; [|intros ? [= <-]; reflexivity];
     cbn [on_writer log_Printf writer]; now apply WriterFacts.Status_Error|].
  destruct (status =? HTTP.StatusOK); cbn [negb];
    [|eexists; split; [reflexivity|]; split; [|intros ? [= <-]; reflexivity];
      cbn [on_writer log_Printf writer]; now apply WriterFacts.Status_Error].
  destruct (unmarshalCloudflareResponse body) as [e|cfResp];
    [eexists; split; [reflexivity|]; split; [|intros ? [= <-]; reflexivity];
     cbn [on_writer log_Printf writer]; now apply WriterFacts.Status_Error|].
  destruct (OpenAIRequest.Stream openaiReq).
  - pose proof (TranslatorFacts.convertToOpenAIResponse_choices cfResp) as HC.
    match goal with
    | |- context [streamChatCompletion _ _ _ ?st0] =>
      destruct (streamChatCompletion_state now formatFloat _ _ _ _ st0 HC eq_refl)
        as (st' & Hret & Hstatus & _)
    end.
    exists st'. split; [exact Hret|]. split; [|intros ? [= <-]; reflexivity].
    rewrite Hstatus. cbn [log_Printf writer]. now rewrite Hfresh.
  - eexists. split; [reflexivity|]. split; [|intros ? [= <-]; reflexivity].
    unfold on_writer, log_Printf. cbn [writer].
    rewrite StatusFacts.Status_Encode. cbn [HTTP.SetHeader HTTP.Status].
    now rewrite Hfresh.
Qed.

(** X11.  Whatever the bytes of the final text, well formed or not, every
    content delta is well-formed UTF-8 holding one scalar value (ill-formed
    bytes are sent as U+FFFD); the deltas concatenated decode to the runes
    of the text, and their number is at most the number of bytes of the
    text and at least a quarter of it. *)
Theorem stream_any_text resp c rest s st :
  OpenAIResponse.Choices resp = c :: rest ->
  Message.Content (Choice.Message c) = VString s ->
  let frames := stream_frames now resp (clock st) (UTF8.runes_of_string s) in
  let deltas := content_deltas frames in
  exists st',
    streamChatCompletion now formatFloat resp st = Return st'
    /\ HTTP.Log (writer st')
       = HTTP.Log (writer st) ++ flat_map (frame_ops formatFloat) frames
    /\ Forall (fun d => UTF8.utf8_valid d = true
                        /\ exists point,
                             UTF8.is_scalar point = true
                             /\ UTF8.runes_of_string d = [point])
         deltas
    /\ UTF8.utf8_valid (Bytes.concat deltas) = true
    /\ UTF8.runes_of_string (Bytes.concat deltas) = UTF8.runes_of_string s
    /\ (length deltas <= String.length s <= 4 * length deltas)%nat.
Proof.
  intros HC Hs frames deltas.
  destruct (streamChatCompletion_spec now formatFloat resp c rest s st HC Hs)
    as (st' & Hret & Hlog & _).
  destruct (RuneFacts.runes_of_string_scalar s) as [Hsc Hlen].
  assert (Hd : deltas = List.map UTF8.encoderune (UTF8.runes_of_string s))
    by apply FrameFacts.stream_frames_deltas.
  destruct (UTF8Encode.runes_of_string_encode_all _ Hsc) as [Hrt Hval].
  exists st'. split; [exact Hret|]. split; [exact Hlog|].
  rewrite Hd, length_map. repeat split; try assumption; try lia.
  apply List.Forall_map. eapply List.Forall_impl; [|exact Hsc].
  intros point Hp.
  destruct (UTF8Encode.runes_of_string_encoderune point Hp) as [H1 H2].
  split; [exact H2|]. exists point. split; assumption.
Qed.

(** X12.  The encoding of every event of a stream holds no control
    character, hence no newline, whatever the id, the model and the
    content are: on the wire an event is one [data: ] line. *)
Theorem stream_events_single_line resp k runes :
  Forall (fun f => match f with
                   | EventFrame ev _ _ =>
                     no_ctl (JSON.marshal formatFloat false ev) = true
                   | DoneFrame => True
                   end)
    (stream_frames now resp k runes).
Proof.
  assert (Hev : forall delta finish created id model,
             no_ctl delta = true -> no_ctl finish = true ->
             no_ctl (chunk_json delta finish (JSON.formatInt created)
                       (JSON.appendString false id)
                       (JSON.appendString false model) EmptyString) = true).
  { intros. unfold chunk_json, quote.
    rewrite !LineFacts.no_ctl_append, !LineFacts.appendString_no_ctl,
      LineFacts.formatInt_no_ctl.
    repeat match goal with H : no_ctl _ = true |- _ => rewrite H; clear H end.
    reflexivity. }
  unfold stream_frames. apply Forall_app. split; [|apply Forall_app; split].
  - constructor; [|constructor].
    rewrite EventFacts.startEvent_json. apply Hev; reflexivity.
  - generalize (S k). induction runes as [|r runes IH]; intros n;
      cbn [content_frames]; constructor; [|apply IH].
    rewrite EventFacts.contentEvent_json. apply Hev; [|reflexivity].
    unfold quote.
    now rewrite !LineFacts.no_ctl_append, LineFacts.appendString_no_ctl.
  - constructor; [|constructor; [exact I | constructor]].
    rewrite EventFacts.endEvent_json. unfold chunk_json, usage_json, quote.
    rewrite !LineFacts.no_ctl_append, !LineFacts.appendString_no_ctl,
      !LineFacts.formatInt_no_ctl.
    reflexivity.
Qed.

(** X13.  Provided the text of a float holds no control character, neither
    does the body sent to the backend nor the plain response, whatever the
    messages hold: each is a single line. *)
Theorem json_bodies_single_line req resp :
  (forall f, no_ctl (formatFloat f) = true) ->
  no_ctl (HTTP.CBody (backendRequest config formatFloat req)) = true
  /\ no_ctl (JSON.marshal formatFloat false (OpenAIResponse_json resp)) = true.
Proof.
  intros Hf. split; apply LineFacts.marshal_no_ctl; exact Hf.
Qed.

(** X14.  When the extracted reasoning text and assistant text are
    well-formed UTF-8, so is the composed content of the response. *)
Theorem final_content_valid cfResp :
  UTF8.utf8_valid (reasoning_text cfResp) = true ->
  UTF8.utf8_valid (assistant_text cfResp) = true ->
  exists content,
    final_content (convertToOpenAIResponse cfResp) = Some content
    /\ UTF8.utf8_valid content = true.
Proof.
  intros Hr Ha. exists (compose (reasoning_text cfResp) (assistant_text cfResp)).
  unfold final_content.
  rewrite TranslatorFacts.convertToOpenAIResponse_choices.
  split; [reflexivity | now apply ValidFacts.compose_valid].
Qed.

(** X15.  End to end: an authorized POST that asks for a stream and whose
    backend call succeeds with well-formed texts is answered by the frames
    of the translated response, whose content deltas concatenate to the
    composed text and whose end frame carries the usage of the backend.
    The URL of the backend is one that parses, so that the request is
    built. *)
Theorem chat_stream_end_to_end r st openaiReq body cfResp :
  authorizeClient config r = true ->
  HTTP.Method r = HTTP.MethodPost ->
  unmarshalOpenAIRequest (HTTP.Body r) = inr openaiReq ->
  OpenAIRequest.Stream openaiReq = true ->
  urlParse (backendURL config) = true ->
  clientDo (request_for openaiReq) = inr (HTTP.StatusOK, body) ->
  unmarshalCloudflareResponse body = inr cfResp ->
  UTF8.utf8_valid (reasoning_text cfResp) = true ->
  UTF8.utf8_valid (assistant_text cfResp) = true ->
  let text := compose (reasoning_text cfResp) (assistant_text cfResp) in
  let frames :=
    stream_frames now (convertToOpenAIResponse cfResp) (clock st)
      (UTF8.runes_of_string text) in
  exists st',
    chat r st = Return st'
    /\ HTTP.Log (writer st')
       = HTTP.Log (writer st) ++ flat_map (frame_ops formatFloat) frames
    /\ Bytes.concat (content_deltas frames) = text
    /\ List.last (List.map frame_kind frames) None = Some KDone
    /\ In (Some (KEnd (Usage.mk
                         (CloudflareUsage.PromptTokens
                            (CloudflareResponse.Usage cfResp))
                         (CloudflareUsage.CompletionTokens
                            (CloudflareResponse.Usage cfResp))
                         (CloudflareUsage.TotalTokens
                            (CloudflareResponse.Usage cfResp)))))
         (List.map frame_kind frames)
    /\ calls st' = calls st ++ [request_for openaiReq].
Proof.
  intros Hauth Hm Hbody Hstream Hurl Hdo Hdec Hr Ha text frames.
  rewrite (handleChatCompletions_stream_from config now formatFloat
             unmarshalOpenAIRequest unmarshalCloudflareResponse urlParse
             clientDo r st openaiReq body cfResp Hauth Hm Hbody Hstream Hurl
             Hdo Hdec).
  pose proof (TranslatorFacts.convertToOpenAIResponse_choices cfResp) as HC.
  match goal with
  | |- context [streamChatCompletion _ _ _ ?st0] =>
    destruct (streamChatCompletion_spec now formatFloat _ _ _ _ st0 HC eq_refl)
      as (st' & Hret & Hlog & Hcalls & _)
  end.
  cbn [writer clock calls] in Hlog, Hcalls.
  exists st'. split; [exact Hret|]. split; [exact Hlog|].
  subst frames.
  rewrite FrameFacts.stream_frames_deltas, FrameFacts.stream_frames_kinds.
  split; [|split; [|split]].
  - apply UTF8Round.runes_of_string_valid. now apply ValidFacts.compose_valid.
  - rewrite app_assoc, TranslatorFacts.last_app. reflexivity.
  - apply in_or_app. right. apply in_or_app. right. left.
    unfold convertToOpenAIResponse.
    destruct (scanOutput _). reflexivity.
  - exact Hcalls.
Qed.

End Coverage.

(** * The further properties on the scenarios *)

Module Runs.
Import Spec StreamSpec Observe Scenario Cases.

Local Abbreviation chat cfg :=
  (handleChatCompletions cfg now formatFloat unmarshalOpenAIRequest
     unmarshalCloudflareResponse urlParse clientDo).

Lemma ignores_tool_call :
  is_reasoning_item tool_call = false
  /\ is_assistant_message tool_call = false
  /\ final_content
       (convertToOpenAIResponse
          (with_output (result [])
             ([reasoning [CloudflareContentItem.mk "plan" "reasoning_text"]]
              ++ tool_call :: [message "hello"])))
     = Some ("<think>plan</think>" +:+ LF +:+ "hello").
Proof.
  split; [reflexivity|]. split; [reflexivity|].
  rewrite (convertToOpenAIResponse_ignores (result []) _ tool_call _
             eq_refl eq_refl).
  reflexivity.
Defined.

Lemma invalid_json_empty_body :
  authorizeClient config post_empty = true
  /\ unmarshalOpenAIRequest (HTTP.Body post_empty)
     = inl "unexpected end of JSON input"
  /\ exists st',
       chat config post_empty initial = Return st'
       /\ HTTP.Status (writer st') = Some 400
       /\ calls st' = [].
Proof.
  split; [reflexivity|]. split; [reflexivity|].
  destruct (chat_invalid_json config now formatFloat unmarshalOpenAIRequest
              unmarshalCloudflareResponse urlParse clientDo post_empty initial
              _ eq_refl eq_refl eq_refl eq_refl)
    as (st' & Hret & Hstatus & _ & Hcalls).
  exists st'. split; [exact Hret|]. split; [exact Hstatus | exact Hcalls].
Defined.

Lemma backend_failure_rate_limited :
  authorizeClient expired_config post_with_key = true
  /\ unmarshalOpenAIRequest (HTTP.Body post_with_key) = inr request
  /\ urlParse (backendURL expired_config) = true
  /\ clientDo (backendRequest expired_config formatFloat
                 (convertToCloudflareRequest expired_config request))
     = inr (429, "rate limited")
  /\ exists st',
       chat expired_config post_with_key initial = Return st'
       /\ HTTP.Status (writer st') = Some 500
       /\ HTTP.wire (HTTP.Log (writer st'))
          = "Cloudflare API error: API request failed: rate limited" +:+ LF.
Proof.
  split; [reflexivity|]. split; [reflexivity|]. split; [reflexivity|].
  split; [reflexivity|].
  destruct (proj1 (proj2
              (chat_backend_failure expired_config now formatFloat
                 unmarshalOpenAIRequest unmarshalCloudflareResponse urlParse
                 clientDo post_with_key initial request
                 eq_refl eq_refl eq_refl eq_refl eq_refl))
              429 "rate limited" eq_refl)
    as (st' & Hret & Hstatus & Hlog & _); [discriminate|].
  exists st'. split; [exact Hret|]. split; [exact Hstatus|].
  rewrite Hlog. reflexivity.
Defined.

Lemma plain_response_ok :
  authorizeClient config post_plain = true
  /\ unmarshalOpenAIRequest (HTTP.Body post_plain) = inr plain_request
  /\ OpenAIRequest.Stream plain_request = false
  /\ urlParse (backendURL config) = true
  /\ unmarshalCloudflareResponse answer_body = inr answer
  /\ exists st',
       chat config post_plain initial = Return st'
       /\ HTTP.Status (writer st') = Some 200
       /\ flushes (HTTP.Log (writer st')) = 0%nat
       /\ length (calls st') = 1%nat.
Proof.
  split; [reflexivity|]. split; [reflexivity|]. split; [reflexivity|].
  split; [reflexivity|]. split; [reflexivity|].
  destruct (chat_plain_response config now formatFloat unmarshalOpenAIRequest
              unmarshalCloudflareResponse urlParse clientDo post_plain initial
              plain_request answer_body answer
              eq_refl eq_refl eq_refl eq_refl eq_refl eq_refl eq_refl eq_refl)
    as (st' & Hret & Hstatus & _ & Hlog & Hcalls & _).
  exists st'. split; [exact Hret|]. split; [exact Hstatus|].
  rewrite Hlog, Hcalls. split; reflexivity.
Defined.

Lemma stream_headers_ok :
  OpenAIResponse.Choices (response "ok")
  = [Choice.mk 0 (Message.mk "assistant" (VString "ok")) "stop"]
  /\ exists st',
       streamChatCompletion now formatFloat (response "ok") initial = Return st'
       /\ HTTP.Header_Get (HTTP.RespHeader (writer st')) "Content-Type"
          = "text/event-stream"
       /\ flushes (HTTP.Log (writer st')) = 4%nat
       /\ List.map
            (fun op => match op with HTTP.OpFlush => true | _ => false end)
            (HTTP.Log (writer st'))
          = [false; false; false; true;
             false; false; false; true;
             false; false; false; true;
             false; false; false; false; true].
Proof.
  split; [reflexivity|].
  destruct (stream_headers_and_flushes now formatFloat (response "ok")
              _ _ "ok" initial eq_refl eq_refl eq_refl)
    as (st' & Hret & _ & Htype & _ & _ & _ & Hflush & Hlog).
  exists st'. split; [exact Hret|]. split; [exact Htype|].
  split; [exact Hflush|]. rewrite Hlog. reflexivity.
Defined.

(** The backend client on the account of the scenarios, and on an account
    id that makes the URL unparsable. *)
Lemma backend_request_sent :
  urlParse (backendURL config) = true
  /\ exists results st',
       callCloudflareAPI config formatFloat unmarshalCloudflareResponse
         urlParse clientDown (convertToCloudflareRequest config request)
         initial
       = Some (results, st')
       /\ results = (None, EmptyString, Some "dial tcp: connection refused")
       /\ List.map HTTP.URL (calls st')
          = ["https://api.cloudflare.com/client/v4/accounts/acct/ai/v1/responses"].
Proof.
  split; [reflexivity|].
  destruct (proj1 (callCloudflareAPI_request config formatFloat
                     unmarshalCloudflareResponse urlParse clientDown
                     (convertToCloudflareRequest config request) initial)
              eq_refl)
    as (results & st' & Hcall & Hcalls & _ & _ & _ & Hfail).
  exists results, st'. split; [exact Hcall|].
  split; [apply Hfail; reflexivity|]. rewrite Hcalls. reflexivity.
Defined.

Example backend_request_unbuilt :
  urlParse (backendURL bad_account_config) = false
  /\ callCloudflareAPI bad_account_config formatFloat
       unmarshalCloudflareResponse urlParse clientDo
       (convertToCloudflareRequest bad_account_config request) initial
     = None.
Proof. split; reflexivity. Qed.

Lemma backend_calls_ok :
  urlParse (backendURL config) = true
  /\ unmarshalOpenAIRequest (HTTP.Body post_with_key) = inr request
  /\ exists st',
       chat config post_with_key initial = Return st'
       /\ calls st'
          = [backendRequest config formatFloat
               (convertToCloudflareRequest config request)].
Proof.
  split; [reflexivity|]. split; [reflexivity|].
  apply (proj1 (chat_backend_calls config now formatFloat
                  unmarshalOpenAIRequest unmarshalCloudflareResponse urlParse
                  clientDo post_with_key initial)
           eq_refl).
Defined.

(** With the unparsable URL the same request makes the handler panic, and
    a request without the key is answered as ever. *)
Example backend_calls_bad_account :
  (exists st',
     chat bad_account_config post_with_key initial = Panic st'
     /\ calls st' = [] /\ HTTP.Status (writer st') = None)
  /\ (exists st',
        chat bad_account_config post_without_key initial = Return st'
        /\ calls st' = [] /\ HTTP.Status (writer st') = Some 401).
Proof. split; eexists; repeat split. Qed.

Lemma status_table_ok :
  HTTP.Status (writer initial) = None
  /\ unmarshalOpenAIRequest (HTTP.Body post_with_key) = inr request
  /\ unmarshalCloudflareResponse answer_body = inr answer
  /\ exists st',
       chat config post_with_key initial = Return st'
       /\ HTTP.Status (writer st') = Some 200.
Proof.
  split; [reflexivity|]. split; [reflexivity|]. split; [reflexivity|].
  destruct (chat_status_table config now formatFloat unmarshalOpenAIRequest
              unmarshalCloudflareResponse urlParse clientDo post_with_key
              initial eq_refl)
    as (st' & Hret & Hstatus & _).
  exists st'. split; [exact Hret | exact Hstatus].
Defined.

(** The status table on the unparsable URL: a panic, no status. *)
Example status_table_bad_account :
  exists st',
    chat bad_account_config post_with_key initial = Panic st'
    /\ HTTP.Status (writer st') = None
    /\ HTTP.Log (writer st') = [].
Proof. eexists. repeat split. Qed.

Lemma stream_broken_text :
  UTF8.utf8_valid broken_text = false
  /\ OpenAIResponse.Choices (response broken_text)
     = [Choice.mk 0 (Message.mk "assistant" (VString broken_text)) "stop"]
  /\ exists st',
       streamChatCompletion now formatFloat (response broken_text) initial
       = Return st'
       /\ UTF8.runes_of_string
            (Bytes.concat
               (content_deltas
                  (stream_frames now (response broken_text) 0
                     (UTF8.runes_of_string broken_text))))
          = [0x61; UTF8.runeError; 0x62].
Proof.
  split; [reflexivity|]. split; [reflexivity|].
  destruct (stream_any_text now formatFloat (response broken_text)
              _ _ broken_text initial eq_refl eq_refl)
    as (st' & Hret & _ & _ & _ & Hrunes & _).
  exists st'. split; [exact Hret|].
  etransitivity; [exact Hrunes | reflexivity].
Defined.

Lemma bodies_single_line_ok :
  (forall f, no_ctl (formatFloat f) = true)
  /\ no_ctl (HTTP.CBody
               (backendRequest config formatFloat
                  (convertToCloudflareRequest config plain_request))) = true.
Proof.
  split; [intros f; reflexivity|].
  apply (json_bodies_single_line config formatFloat
           (convertToCloudflareRequest config plain_request) (response "ok")).
  intros f. reflexivity.
Defined.

Lemma final_content_valid_ok :
  let cfResp :=
    result [reasoning [CloudflareContentItem.mk multibyte "reasoning_text"];
            message multibyte] in
  UTF8.utf8_valid (reasoning_text cfResp) = true
  /\ UTF8.utf8_valid (assistant_text cfResp) = true
  /\ exists content,
       final_content (convertToOpenAIResponse cfResp) = Some content
       /\ UTF8.utf8_valid content = true.
Proof.
  intros cfResp.
  assert (Hr : UTF8.utf8_valid (reasoning_text cfResp) = true)
    by (vm_compute; reflexivity).
  assert (Ha : UTF8.utf8_valid (assistant_text cfResp) = true)
    by (vm_compute; reflexivity).
  split; [exact Hr|]. split; [exact Ha|].
  exact (final_content_valid cfResp Hr Ha).
Defined.

Lemma stream_end_to_end_ok :
  authorizeClient config post_with_key = true
  /\ unmarshalOpenAIRequest (HTTP.Body post_with_key) = inr request
  /\ OpenAIRequest.Stream request = true
  /\ urlParse (backendURL config) = true
  /\ unmarshalCloudflareResponse answer_body = inr answer
  /\ exists st',
       chat config post_with_key initial = Return st'
       /\ Bytes.concat
            (content_deltas
               (stream_frames now (convertToOpenAIResponse answer) 0
                  (UTF8.runes_of_string "ok")))
          = "ok"
       /\ length (calls st') = 1%nat.
Proof.
  split; [reflexivity|]. split; [reflexivity|]. split; [reflexivity|].
  split; [reflexivity|]. split; [reflexivity|].
  destruct (chat_stream_end_to_end config now formatFloat unmarshalOpenAIRequest
              unmarshalCloudflareResponse urlParse clientDo post_with_key
              initial request answer_body answer
              eq_refl eq_refl eq_refl eq_refl eq_refl eq_refl eq_refl eq_refl
              eq_refl)
    as (st' & Hret & _ & Hcat & _ & _ & Hcalls).
  exists st'. split; [exact Hret|]. split; [exact Hcat|].
  rewrite Hcalls. reflexivity.
Defined.

(** The models listing of the scenario, as it is written. *)
Example models_listing :
  exists st',
    handleModels config now formatFloat get_with_key initial = Return st'
    /\ HTTP.wire (HTTP.Log (writer st'))
       = models_json "1700000000" (quote "@cf/openai/gpt-oss-120b") +:+ LF.
Proof. eexists. split; [reflexivity | vm_compute; reflexivity]. Qed.

End Runs.
